(* ===== verification/_CoqProject ===== *)
-Q . S2P
Prelude.v
DocStore.v
JsCore.v
MovieRequests.v
Reviews.v
Movies.v
Dedup.v
AcceptFlow.v
FrontService.v
ProfileFlows.v
MoviesListPage.v
MovieCards.v
MovieForm.v
