(* ===== verification/Prelude.v ===== *)
(** * MovieDB: a verification development of the MovieDB MERN application

    ** The program

    The backend (src/backend) is an Express server whose controllers
    (src/backend/api/*.controller.js) read the request, call a data-access
    object (src/backend/dao/*DAO.js) and answer JSON; each DAO works on one
    MongoDB collection: [movies], [reviews] or [movie_requests].  Every
    handler runs inside [try { ... } catch (e)].  The React frontend
    (src/frontend/src) calls these endpoints through
    src/frontend/src/services/movies.js.  The parts interact through the
    collections: a movie request, once accepted by an admin page, is
    linked to the movie the admin added; a review names its movie and its
    author's e-mail; the profile page renames or deletes all the reviews
    of a user.

    ** The files

    - Prelude.v (this file): the scope [moviedb_scope], the hint
      databases [moviedb] and [moviedb_rw], the JavaScript exception type
      [js_error], the try/catch result type [result] with [bind], [catch]
      and the notation [let! x := c in k], the Express answers [response]
      ([res.json], [res.status(code).json], no answer), the tactic
      [case_str], and the generic lemmas on strings and lists.
    - DocStore.v: a MongoDB collection as an association list of
      [(_id, document)] in natural order, with the driver operations the
      DAOs call ([insertOne], [find], [updateOne], [deleteOne]) and
      [ObjectId(s)]; its invariant [wf] (distinct ids) is preserved by
      every operation, and each operation refines the operation on the
      abstract map [view c] (a stdpp [gmap]): [update_one_refines],
      [delete_one_refines], [insert_one_refines], [update_by_id_refines].
    - JsCore.v: the built-ins the code relies on: [parseInt], [parseFloat],
      [Number(s)], [String(n)], number comparisons with NaN, [split],
      [trim] and [new Date(y, m, d)].
    - MovieRequests.v: movie_requestsDAO.js ([MovieRequestsDAO]) and
      movie_requests.controller.js ([MovieRequestsCtrl]); the handlers
      that write form the step relation [req_step] with a fault rule (a
      database error writes nothing); the spec's lifecycle is
      [spec_step]; the admin and user pages of add-movie.js restrict the
      calls the frontend issues ([ui_op]) by the list a page displays,
      the collection as it was when the page last loaded it
      ([ui_reachable] keeps every collection of the run, any of which a
      stale page may still show).  The movie search of
      [apiAcceptRequest] is the class [MovieSearch].
    - Reviews.v: reviewsDAO.js ([ReviewsDAO]) and reviews.controller.js
      ([ReviewsCtrl]); the handlers that write form [rev_step].
    - Movies.v: moviesDAO.js ([MoviesDAO]: [getMovies], [getMoviesByID],
      [getGenres], [getRated], [addMovie]) and movies.controller.js
      ([MoviesCtrl]); the [$text] search is the class [TextSearch].
    - Dedup.v: [MoviesDAO.deleteDuplicateMovies], the [$group]
      aggregation and its two deletion loops.
    - AcceptFlow.v: the accept flow of the admin page (add-movie.js
      [acceptRequest]: [addMovie], then [acceptRequest] on success), with
      the [MovieSearch] of [apiAcceptRequest] implemented by [getMovies].
    - FrontService.v: the data service services/movies.js (Module
      [MoviesDataService]: the HTTP call of every method, the query string
      of [formatFilteredSearch]) and the route table of movies.route.js
      (Module [Routes]); between them the URL as Express and [qs] read it
      ([router_path], [parse_query], [query_get], with the decoder
      [qs_decode]: ['+'] is a space, then percent-decoding).
    - ProfileFlows.v: the two loops of profile-auth0.js that rename or
      delete the reviews of a user with requests the page does not await;
      the reviews come from GET /userReviews, whose unencoded e-mail the
      server reads through [qs_decode] ([sent_user_id]).
    - MoviesListPage.v: the movie list page movies-list.js: its state
      ([page], one field per [useState]), its handlers, the [useEffect]
      ([effect], re-run by [commit] when a dependency changes) and the
      [.then] callbacks ([on_response]); a [world] is the page with the
      requests in flight and [step] delivers them in any order or loses
      them; [settle] delivers them in order.
    - MovieCards.v: [formatGenre] and [formatIMDbID] of movies-list.js.
    - MovieForm.v: the movie form movie-form.js: its state ([form]), the
      listeners, [validateInputs], [isReleasedValid], [resetFields] and
      [addMovie] up to the call it makes ([outcome]).

    ** The theorems

    - Refinement and lifecycle (MovieRequests.v): a call the frontend
      makes from the list a page shows moves a request only to denied or
      accepted, and only one the page listed as pending
      ([ui_step_refines_spec]); a stale list lets the page move an
      accepted request to denied ([ui_stale_deny_after_accept]); the
      shape of every request reached through the frontend
      ([ui_reachable_shape]) and through the handlers
      ([reachable_movie_link]).
    - Functional behaviour of each handler on every branch, error paths
      included: [apiDenyRequest_spec], [apiDeleteRequest_spec],
      [apiAcceptRequest_spec], [apiEditReview_spec],
      [apiAddReview_bad_movie_id], [getMovies_page_spec],
      [getMoviesByID_spec], [apiAddMovie_spec], [deleteDuplicateMovies_spec].
    - Safety of the reviews: who can change or remove a review
      ([review_content_changed_only_by_author], [review_removed_only_by_author]).
    - Interleaving: the profile loops reach the same state in every
      arrival order of their requests, renaming or removing the reviews
      of the user id the server read, which differs from the e-mail when
      it holds a ['+'] ([rename_loop_any_order], [delete_loop_any_order]).
    - Paging: the window of a page, page 0 read as page 1
      ([getMovies_page_spec]); negative pages ([getMovies_bad_page]);
      the controller's defaults ([apiGetMovies_default]).
    - Which movie an accepted request is linked to: the matching movie
      with the highest [imdb] ([apiAcceptRequest_links_top_match]), an
      older one rather than the movie just added when that one ranks
      higher ([accept_flow_links_older_movie]).
    - What the duplicate test misses ([dedup_misses_same_lastupdated],
      [added_movies_never_deduplicated]).
    - The frontend and the routes agree: every call of the data service
      reaches the handler meant for it ([service_calls_routed]); a movie
      search's query string reads back as its filters
      ([find_query_roundtrip]), for filters without [& = # % + ?].
    - The movie list page: its invariant over every interleaving of
      answers ([page_invariant]); its list request is answered with the
      window of the current page ([page_requests_answered]); with answers
      in order it settles after mounting and after every event
      ([page_settles], termination by the measure [measure]); pressing
      "next" reaches every match ([next_reaches_every_match]).
    - Card text: the padding loop of [formatIMDbID] ([pad_zeros_spec]),
      [parseInt] of the padded id ([formatIMDbID_spec]), [formatGenre] in
      closed form ([formatGenre_spec]).
    - The movie form: the dates [isReleasedValid] accepts, NaN parts
      included ([isReleasedValid_spec]); the limit of five pending
      requests holds for submissions one after another
      ([pending_limit_sequential]) and not for two made together
      ([pending_limit_concurrent]).
    Each theorem with hypotheses has a witness [<name>_witness] that
    applies it to concrete collections evaluated by [vm_compute].

    ** Modelling choices

    - The MongoDB driver is the 3.x driver the code imports: [updateOne]
      reports [modifiedCount = 0] for a [$set] that changes nothing;
      [insertOne] refuses a duplicate [_id]; [ObjectId(s)] accepts 24 hex
      digits (kept in lower case) or 12 bytes and throws [BSONTypeError]
      otherwise.  Documents are in natural (insertion) order.
    - A database fault at any call is the fault rule of the step
      relations: the call writes nothing.  Connection set-up ([injectDB]),
      logging and the HTTP layer are not modelled.
    - What the server decides and the code does not: the [$text] index
      ([TextSearch]), the order of an [$addToSet] array (a permutation, the
      parameter [arrange] of Dedup.v), the order of [distinct].  The
      theorems hold for every such choice.
    - Dates: [new Date()] is an input of the handler (ms); [new Date(y, m,
      d)] keeps its three arguments, as its normalisation to a time value
      and the time zone are not computed.
    - The backend needs no fuel: every function is structurally
      recursive; the decimal conversion [number_to_string] uses the binary
      size of its argument as its bound, which [digits_rev_value] shows is
      enough.  The frontend loops take fuel: [settle] 32 answers (the
      measure, requests in flight plus eleven per wrong flag, is at most
      32 after mounting or an event, and each answer lowers it), [pad_zeros] 7 turns (one character a turn),
      [genre_loop] the length of the array (one genre a turn); the
      theorems show each is enough.
    - The React runtime: a handler's state updates are applied in order
      and the page re-renders once; the effect of that render runs before
      the next user event; [searchParams] is a dependency compared by
      identity, so every [setSearchParams] re-runs the effect.  The text a
      user types is [plain] (no character the URL syntax reserves), as
      the service does not encode it.
    - axios, Express and [qs] are modelled from their documented
      behaviour (one slash joins the base URL, the fragment is dropped,
      the query is split at [&] and [=]); a key given twice is not read.

    - Numbers are unbounded integers: [String(n)] is the decimal text of
      [n] (JavaScript switches to an exponent from 1e21 on) and [parseInt]
      is exact (JavaScript rounds past 2^53); the years, runtimes, pages
      and identifiers of the program are far below both.
    - Strings are ASCII: a percent sequence of a byte of 0x80 or more,
      which [decodeURIComponent] reads as UTF-8, is read as malformed.

    ** Not modelled

    The Auth0 controller and DAO (calls to the identity provider's
    management API), server start-up (index.js, server.js), the React
    components other than the request pages, the profile loops, the movie
    list page and the movie form (movie.js, the review pages, the star
    rating, the shell and the login components: rendering and calls to
    the identity provider), the JSX layout and alerts, and
    [apiGetUserReviewMovies] (a read joining two collections). *)

From Stdlib Require Export ZArith String Ascii Lia.
From stdpp Require Export base list option strings gmap.

Declare Scope moviedb_scope.
Delimit Scope moviedb_scope with mdb.
Open Scope moviedb_scope.

Create HintDb moviedb.
Create Rewrite HintDb moviedb_rw.

(** ** JavaScript exceptions and the try/catch result type

    Every handler of the backend runs inside [try { ... } catch (e)].
    The exceptions that the code can raise are of three kinds: a
    [TypeError] from reading a property of [undefined], a [BSONTypeError]
    from [ObjectId(s)] on a malformed id, and a [MongoServerError] from the
    database (duplicate key, negative skip). *)

Inductive js_error :=
| TypeError (msg : string)
| BSONTypeError (msg : string)
| MongoServerError (msg : string).

Definition error_message (e : js_error) : string :=
  match e with
  | TypeError m | BSONTypeError m | MongoServerError m => m
  end.

Inductive result (A : Type) :=
| Ok (a : A)
| Err (e : js_error).
Arguments Ok {A} a.
Arguments Err {A} e.

Definition bind {A B} (r : result A) (k : A -> result B) : result B :=
  match r with
  | Ok a => k a
  | Err e => Err e
  end.

Definition catch {A} (r : result A) (h : js_error -> A) : A :=
  match r with
  | Ok a => a
  | Err e => h e
  end.

Notation "'let!' x ':=' c 'in' k" := (bind c (fun x => k))
  (at level 10, x name, c at level 100, k at level 200) : moviedb_scope.

Lemma bind_ok {A B} (a : A) (k : A -> result B) : bind (Ok a) k = k a.
Proof. reflexivity. Qed.

Lemma bind_err {A B} (e : js_error) (k : A -> result B) : bind (Err e) k = Err e.
Proof. reflexivity. Qed.

#[export] Hint Rewrite @bind_ok @bind_err : moviedb_rw.

(** ** Responses of the Express handlers

    [res.json(body)], [res.status(code).json({error: message})], or no
    response at all (a handler whose [catch] only logs). *)

Inductive response (A : Type) :=
| Json (body : A)
| Status (code : Z) (message : string)
| NoResponse.
Arguments Json {A} body.
Arguments Status {A} code message.
Arguments NoResponse {A}.

(** ** Boolean string comparison (JavaScript [==] on two strings) *)

Lemma str_eqb_refl (s : string) : (s =? s)%string = true.
Proof. apply String.eqb_refl. Qed.

Lemma str_eqb_true (s t : string) : (s =? t)%string = true -> s = t.
Proof. apply String.eqb_eq. Qed.

Lemma str_eqb_false (s t : string) : s <> t -> (s =? t)%string = false.
Proof. apply String.eqb_neq. Qed.

#[export] Hint Rewrite str_eqb_refl : moviedb_rw.

(** A decided proposition equivalent to a string equality is that
    string comparison. *)
Lemma bool_decide_str (P : Prop) `{Decision P} (s t : string) :
  (P <-> s = t) -> bool_decide P = (s =? t)%string.
Proof.
  intros HP. destruct (String.eqb_spec s t) as [E|E].
  - apply bool_decide_eq_true. tauto.
  - apply bool_decide_eq_false. tauto.
Qed.
#[export] Hint Resolve str_eqb_false : moviedb.

(** Case analysis on every string comparison of the goal. *)
Ltac case_str :=
  repeat match goal with
  | |- context [(?s =? ?t)%string] =>
      let E := fresh "Es" in
      destruct (String.eqb_spec s t) as [E|E]; [subst|]
  end.

(** ** Lists *)

Lemma filter_length_le {A} (p : A -> bool) (l : list A) :
  length (List.filter p l) <= length l.
Proof.
  induction l as [|x l IH]; simpl; [lia|]. destruct (p x); simpl; lia.
Qed.

Lemma filter_ext_in {A} (p q : A -> bool) (l : list A) :
  (forall x, In x l -> p x = q x) -> List.filter p l = List.filter q l.
Proof.
  induction l as [|x l IH]; intros H; simpl; [done|].
  rewrite (H x) by (left; done). rewrite IH; [done|].
  intros y Hy. apply H. by right.
Qed.

#[export] Hint Resolve filter_length_le : moviedb.

(** A loop over a mapped array is the loop over the array. *)
Lemma fold_left_fmap {A B C} (f : A -> B -> A) (g : C -> B) (l : list C) (a : A) :
  fold_left f (g <$> l) a = fold_left (fun a x => f a (g x)) l a.
Proof. revert a. induction l as [|x l IH]; intros a; [done|]. apply IH. Qed.

Lemma length_remove_dups_le `{EqDecision A} (l : list A) : length (remove_dups l) <= length l.
Proof.
  apply submseteq_length, NoDup_submseteq; [apply NoDup_remove_dups|].
  intros x. by rewrite elem_of_remove_dups.
Qed.

Lemma length_omap_le {A B} (f : A -> option B) (l : list A) : length (omap f l) <= length l.
Proof. induction l as [|x l IH]; [simpl; lia|]. cbn [omap list_omap length]. destruct (f x); cbn [length]; lia. Qed.

Lemma remove_dups_Permutation `{EqDecision A} (l : list A) : NoDup l -> remove_dups l ≡ₚ l.
Proof.
  intros Hl. apply NoDup_Permutation; [apply NoDup_remove_dups|done|].
  intros x. apply elem_of_remove_dups.
Qed.

Lemma omap_cons_Some {A B} (f : A -> option B) (x : A) (l : list A) (y : B) :
  f x = Some y -> omap f (x :: l) = y :: omap f l.
Proof. intros H. simpl. by rewrite H. Qed.

Lemma Forall_zip {A B} (P : A -> Prop) (Q : B -> Prop) (l1 : list A) (l2 : list B) :
  Forall P l1 -> Forall Q l2 -> Forall (fun ab => P ab.1 /\ Q ab.2) (zip l1 l2).
Proof.
  intros H1. revert l2. induction H1 as [|a l1 Ha _ IH]; intros [|b l2] H2; simpl; [constructor..|].
  inversion H2; subst. constructor; [by split | by apply IH].
Qed.

Lemma list_filter_sublist {A} (p : A -> bool) (l : list A) : List.filter p l `sublist_of` l.
Proof.
  induction l as [|x l IH]; simpl; [done|].
  destruct (p x); [by apply sublist_skip|by apply sublist_cons].
Qed.

Lemma NoDup_list_filter {A} (p : A -> bool) (l : list A) : NoDup l -> NoDup (List.filter p l).
Proof. intros Hl. eapply sublist_NoDup; [exact Hl|]. apply list_filter_sublist. Qed.

Lemma list_filter_fmap {A B} (p : B -> bool) (g : A -> B) (l : list A) :
  List.filter p (g <$> l) = g <$> List.filter (fun x => p (g x)) l.
Proof. induction l as [|x l IH]; [done|]. simpl. destruct (p (g x)); simpl; [f_equal|]; exact IH. Qed.

(** The lists of distinct keys are disjoint when an element determines
    its key. *)
Lemma NoDup_concat_fmap {K A} (f : K -> list A) (ks : list K) :
  NoDup ks -> (forall k, k ∈ ks -> NoDup (f k)) ->
  (forall k1 k2 x, x ∈ f k1 -> x ∈ f k2 -> k1 = k2) ->
  NoDup (concat (f <$> ks)).
Proof.
  intros Hks Hf Huniq. induction Hks as [|k ks Hk Hks IH]; simpl; [constructor|].
  apply NoDup_app. split_and!; [apply Hf; set_solver| |apply IH; intros; apply Hf; set_solver].
  intros x Hx Hx'. apply list_elem_of_In, in_concat in Hx' as (l & Hl & Hxl).
  apply list_elem_of_In, list_elem_of_fmap in Hl as (k' & -> & Hk').
  apply list_elem_of_In in Hxl. rewrite <- (Huniq k k' x Hx Hxl) in Hk'. by apply Hk.
Qed.

Lemma elem_of_tail {A} (x : A) (l : list A) : x ∈ tail l -> x ∈ l.
Proof. destruct l; simpl; set_solver. Qed.

(** In a list without duplicates, an element is in the tail unless it is the head. *)
Lemma elem_of_tail_NoDup {A} (x : A) (l : list A) :
  NoDup l -> x ∈ l -> (x ∈ tail l <-> head l <> Some x).
Proof.
  intros Hnd Hx. destruct l as [|y l]; [set_solver|]. apply NoDup_cons in Hnd as [Hy _]. simpl.
  apply elem_of_cons in Hx as [->|Hx].
  - split; [intros H; by apply Hy in H|intros H; by destruct H].
  - split; [intros _ [= ->]; by apply Hy|done].
Qed.

Lemma forallb_replicate_true (n : nat) : forallb id (replicate n true) = true.
Proof. induction n; simpl; auto. Qed.

Lemma list_filter_nil {A} (p : A -> bool) (l : list A) :
  (forall x, x ∈ l -> p x = false) -> List.filter p l = [].
Proof.
  induction l as [|x l IH]; intros H; [done|]. simpl.
  rewrite H by set_solver. apply IH. intros y Hy. apply H. set_solver.
Qed.

(** A list whose elements are all equal has at most one distinct value. *)
Lemma length_remove_dups_const `{EqDecision A} (l : list A) :
  (forall x y, x ∈ l -> y ∈ l -> x = y) -> length (remove_dups l) <= 1.
Proof.
  intros H. pose proof (NoDup_remove_dups l) as Hnd.
  destruct (remove_dups l) as [|a [|b r]] eqn:E; simpl; [lia|lia|].
  assert (a = b) as <-.
  { apply H; rewrite <- elem_of_remove_dups, E; set_solver. }
  apply NoDup_cons in Hnd as [Hn _]. set_solver.
Qed.

(** ** Comparisons

    A [comparison]-valued order that is a total preorder: [Eq] classes
    compare alike, the order is antisymmetric, and [<=] is transitive.
    Sort keys of the database ([sort({ field: -1 })]) are such orders;
    an embedded document compares lexicographically. *)

Class CmpLaws {A} (cmp : A -> A -> comparison) := {
  cmp_eq_l : forall a b c, cmp a b = Eq -> cmp a c = cmp b c;
  cmp_antisym : forall a b, cmp b a = CompOpp (cmp a b);
  cmp_le_trans : forall a b c, cmp a b <> Gt -> cmp b c <> Gt -> cmp a c <> Gt
}.

Definition lex {A} (c1 c2 : A -> A -> comparison) (a b : A) : comparison :=
  match c1 a b with Eq => c2 a b | r => r end.

Definition cmp_on {A B} (f : A -> B) (cmp : B -> B -> comparison) (a b : A) : comparison :=
  cmp (f a) (f b).

Section CmpLawsFacts.
Context {A} (cmp : A -> A -> comparison) `{!CmpLaws cmp}.

Lemma cmp_eq_r (a b c : A) : cmp b c = Eq -> cmp a b = cmp a c.
Proof.
  intros H. rewrite (cmp_antisym b a), (cmp_antisym c a). f_equal. by apply cmp_eq_l.
Qed.

Lemma cmp_lt_le_trans (a b c : A) : cmp a b = Lt -> cmp b c <> Gt -> cmp a c = Lt.
Proof.
  intros H1 H2. pose proof (cmp_le_trans a b c ltac:(rewrite H1; discriminate) H2) as H.
  destruct (cmp a c) eqn:E; [|done|done]. exfalso.
  rewrite (cmp_eq_l a c b E), (cmp_antisym b c) in H1. destruct (cmp b c); simpl in *; congruence.
Qed.
End CmpLawsFacts.

#[export] Instance cmp_on_laws {A B} (f : A -> B) (cmp : B -> B -> comparison) `{!CmpLaws cmp} :
  CmpLaws (cmp_on f cmp).
Proof.
  split; unfold cmp_on; intros *; [apply cmp_eq_l|apply cmp_antisym|apply cmp_le_trans].
Qed.

#[export] Instance lex_laws {A} (c1 c2 : A -> A -> comparison) `{!CmpLaws c1, !CmpLaws c2} :
  CmpLaws (lex c1 c2).
Proof.
  split; unfold lex.
  - intros a b c H. destruct (c1 a b) eqn:E; try done.
    rewrite (cmp_eq_l a b c E), (cmp_eq_l (cmp := c2) a b c H). done.
  - intros a b. rewrite (cmp_antisym (cmp := c1) a b).
    destruct (c1 a b); simpl; [apply cmp_antisym|done|done].
  - intros a b c H1 H2. destruct (c1 a b) eqn:E1; [|rewrite (cmp_lt_le_trans c1 a b c E1); [done|]|done].
    + rewrite (cmp_eq_l a b c E1). destruct (c1 b c); [|done|done]. by apply (cmp_le_trans a b c).
    + destruct (c1 b c); congruence.
Qed.

Lemma cmp_refl {A} (cmp : A -> A -> comparison) `{!CmpLaws cmp} (a : A) : cmp a a = Eq.
Proof. pose proof (cmp_antisym a a) as H. by destruct (cmp a a). Qed.
