(* ===== verification/DocStore.v ===== *)
(** * DocStore: the MongoDB collection operations the DAOs call

    The DAOs of src/backend/dao/ reach the database only through
    [ObjectId(s)], [insertOne], [updateOne(filter, {$set})], [deleteOne],
    [find] and [aggregate].  This file gives those library operations the
    semantics the DAOs rely on: a collection is the list of its documents
    in natural (insertion) order, keyed by their [_id]; [updateOne] and
    [deleteOne] act on the first document matching the filter and report
    [matchedCount]/[modifiedCount] and [deletedCount]; an insert with an
    [_id] already present fails with a duplicate-key error.  The
    abstract view of a collection is a finite map from ids to documents,
    and the lemmas at the end show that the list operations refine the
    map operations when the filter pins the [_id]. *)

From S2P Require Import Prelude.
From stdpp Require Import sorting.

(** ** ObjectIds

    An ObjectId is kept in its canonical form, 24 lower-case hexadecimal
    characters.  [ObjectId(s)] (bson 4) accepts a string of 24 hexadecimal
    characters, or a string of 12 characters taken as the 12 bytes of
    the id, and throws a [BSONTypeError] on anything else. *)

Definition oid := string.

Definition is_hex_digit (c : ascii) : bool :=
  let n := nat_of_ascii c in
  ((48 <=? n) && (n <=? 57)) || ((65 <=? n) && (n <=? 70)) || ((97 <=? n) && (n <=? 102)).

Definition hex_lower (c : ascii) : ascii :=
  let n := nat_of_ascii c in
  if (65 <=? n) && (n <=? 70) then ascii_of_nat (n + 32) else c.

Fixpoint all_hex (s : string) : bool :=
  match s with
  | EmptyString => true
  | String c s' => is_hex_digit c && all_hex s'
  end.

Fixpoint lower_hex (s : string) : string :=
  match s with
  | EmptyString => EmptyString
  | String c s' => String (hex_lower c) (lower_hex s')
  end.

Definition hex_digit (n : nat) : ascii :=
  if n <? 10 then ascii_of_nat (48 + n) else ascii_of_nat (87 + n).

Fixpoint hex_of_bytes (s : string) : string :=
  match s with
  | EmptyString => EmptyString
  | String c s' =>
      let n := nat_of_ascii c in
      String (hex_digit (n / 16)) (String (hex_digit (n mod 16)) (hex_of_bytes s'))
  end.

Definition ObjectId (s : string) : result oid :=
  if (String.length s =? 24) && all_hex s then Ok (lower_hex s)
  else if String.length s =? 12 then Ok (hex_of_bytes s)
  else Err (BSONTypeError
    "Argument passed in must be a single String of 12 bytes or a string of 24 hex characters").

(** ** Results reported by the driver *)

Record insert_result := { insertedCount : nat; insertedId : oid }.
Record update_result := { matchedCount : nat; modifiedCount : nat }.
Record delete_result := { deletedCount : nat }.

Definition no_match : update_result := {| matchedCount := 0; modifiedCount := 0 |}.

Definition duplicate_key : js_error :=
  MongoServerError "E11000 duplicate key error collection".

(** ** Collections *)

Section Collection.
Context {D : Type} `{EqDecision D}.

Definition collection := list (oid * D).

Definition ids (c : collection) : list oid := c.*1.

(** The [_id] index is unique. *)
Definition wf (c : collection) : Prop := NoDup (ids c).

(** [insertOne(doc)] with [doc._id = i]. *)
Definition insert_one (i : oid) (d : D) (c : collection) : result insert_result * collection :=
  if decide (i ∈ ids c) then (Err duplicate_key, c)
  else (Ok {| insertedCount := 1; insertedId := i |}, c ++ [(i, d)]).

(** [find(filter)]: the matching documents in natural order. *)
Definition find (p : oid -> D -> bool) (c : collection) : collection :=
  List.filter (fun '(i, d) => p i d) c.

(** [updateOne(filter, {$set: ...})]: the [$set] is the function [f]; the
    first matching document is rewritten, and [modifiedCount] is 0 when
    the [$set] leaves the document as it was. *)
Fixpoint update_one (p : oid -> D -> bool) (f : D -> D) (c : collection)
    : update_result * collection :=
  match c with
  | [] => (no_match, [])
  | (i, d) :: c' =>
      if p i d then
        ({| matchedCount := 1; modifiedCount := if decide (f d = d) then 0 else 1 |},
         (i, f d) :: c')
      else
        let '(r, c'') := update_one p f c' in (r, (i, d) :: c'')
  end.

(** [deleteOne(filter)]: the first matching document is removed. *)
Fixpoint delete_one (p : oid -> D -> bool) (c : collection) : delete_result * collection :=
  match c with
  | [] => ({| deletedCount := 0 |}, [])
  | (i, d) :: c' =>
      if p i d then ({| deletedCount := 1 |}, c')
      else let '(r, c'') := delete_one p c' in (r, (i, d) :: c'')
  end.

(** A filter that contains [_id: i] together with other conditions [q]. *)
Definition id_filter (i : oid) (q : D -> bool) : oid -> D -> bool :=
  fun j d => (j =? i)%string && q d.

(** [updateOne({ _id: ObjectId(idstr), ...q }, { $set })] and
    [deleteOne({ _id: ObjectId(idstr), ...q })] inside the DAO's [try]:
    a malformed id throws before the database is reached. *)
Definition update_by_id (idstr : string) (q : D -> bool) (f : D -> D) (c : collection)
    : result update_result * collection :=
  match ObjectId idstr with
  | Err e => (Err e, c)
  | Ok i => let '(r, c') := update_one (id_filter i q) f c in (Ok r, c')
  end.

Definition delete_by_id (idstr : string) (q : D -> bool) (c : collection)
    : result delete_result * collection :=
  match ObjectId idstr with
  | Err e => (Err e, c)
  | Ok i => let '(r, c') := delete_one (id_filter i q) c in (Ok r, c')
  end.

(** ** Abstract view: a finite map from ids to documents *)

Definition view (c : collection) : gmap oid D := list_to_map c.

(** The abstract [updateOne] on an id filter: the document at [i], when
    present and satisfying [q], becomes [f d]. *)
Definition map_update_if (i : oid) (q : D -> bool) (f : D -> D) (m : gmap oid D) : gmap oid D :=
  match m !! i with
  | Some d => if q d then <[i := f d]> m else m
  | None => m
  end.

Definition map_update_result (i : oid) (q : D -> bool) (f : D -> D) (m : gmap oid D) : update_result :=
  match m !! i with
  | Some d =>
      if q d then {| matchedCount := 1; modifiedCount := if decide (f d = d) then 0 else 1 |}
      else no_match
  | None => no_match
  end.

Definition map_delete_if (i : oid) (q : D -> bool) (m : gmap oid D) : gmap oid D :=
  match m !! i with
  | Some d => if q d then delete i m else m
  | None => m
  end.

Definition map_delete_result (i : oid) (q : D -> bool) (m : gmap oid D) : delete_result :=
  match m !! i with
  | Some d => {| deletedCount := if q d then 1 else 0 |}
  | None => {| deletedCount := 0 |}
  end.
End Collection.


Arguments collection : clear implicits.

(** ** Lemmas: the list operations and the abstract view *)

Section CollectionLemmas.
Context {D : Type} `{EqDecision D}.
Implicit Types (c : collection D) (m : gmap oid D) (q : D -> bool) (f : D -> D).

Lemma id_filter_apply (i j : oid) q (d : D) :
  id_filter i q j d = ((j =? i)%string && q d).
Proof. reflexivity. Qed.

Lemma view_cons (i : oid) (d : D) c : view ((i, d) :: c) = <[i := d]> (view c).
Proof. reflexivity. Qed.

Lemma view_not_in (i : oid) c : i ∉ ids c -> view c !! i = None.
Proof. apply not_elem_of_list_to_map_1. Qed.

Lemma wf_cons (i : oid) (d : D) c : wf ((i, d) :: c) <-> (i ∉ ids c) /\ wf c.
Proof. unfold wf, ids. simpl. apply NoDup_cons. Qed.

Lemma map_update_if_insert_ne (i j : oid) (d : D) q f m :
  j <> i -> map_update_if i q f (<[j := d]> m) = <[j := d]> (map_update_if i q f m).
Proof.
  intros Hne. unfold map_update_if. rewrite lookup_insert_ne by done.
  destruct (m !! i); [|done]. destruct (q _); [|done]. by apply insert_insert_ne.
Qed.

Lemma map_update_result_insert_ne (i j : oid) (d : D) q f m :
  j <> i -> map_update_result i q f (<[j := d]> m) = map_update_result i q f m.
Proof. intros Hne. unfold map_update_result. by rewrite lookup_insert_ne. Qed.

Lemma map_delete_if_insert_ne (i j : oid) (d : D) q m :
  j <> i -> map_delete_if i q (<[j := d]> m) = <[j := d]> (map_delete_if i q m).
Proof.
  intros Hne. unfold map_delete_if. rewrite lookup_insert_ne by done.
  destruct (m !! i); [|done]. destruct (q _); [|done]. by apply delete_insert_ne.
Qed.

Lemma map_delete_result_insert_ne (i j : oid) (d : D) q m :
  j <> i -> map_delete_result i q (<[j := d]> m) = map_delete_result i q m.
Proof. intros Hne. unfold map_delete_result. by rewrite lookup_insert_ne. Qed.

(** An id filter on an absent id matches nothing. *)
Lemma update_one_absent (i : oid) q f c :
  i ∉ ids c -> update_one (id_filter i q) f c = (no_match, c).
Proof.
  induction c as [|[j d] c IH]; intros Hi; [done|]. simpl in *.
  rewrite id_filter_apply. rewrite not_elem_of_cons in Hi. destruct Hi as [Hij Hi].
  rewrite str_eqb_false by congruence. simpl. by rewrite IH.
Qed.

Lemma delete_one_absent (i : oid) q c :
  i ∉ ids c -> delete_one (id_filter i q) c = ({| deletedCount := 0 |}, c).
Proof.
  induction c as [|[j d] c IH]; intros Hi; [done|]. simpl in *.
  rewrite id_filter_apply. rewrite not_elem_of_cons in Hi. destruct Hi as [Hij Hi].
  rewrite str_eqb_false by congruence. simpl. by rewrite IH.
Qed.

(** [updateOne] keeps the ids and their order: only documents change. *)
Lemma update_one_ids p f c : ids (update_one p f c).2 = ids c.
Proof.
  induction c as [|[j d] c IH]; [done|]. simpl.
  destruct (p j d); [done|]. destruct (update_one p f c) as [r c'] eqn:E.
  simpl in *. by rewrite IH.
Qed.

(** [deleteOne] removes at most one document and keeps the others in order. *)
Lemma delete_one_sublist p c : sublist (delete_one p c).2 c.
Proof.
  induction c as [|[j d] c IH]; [done|]. simpl.
  destruct (p j d).
  - by apply sublist_cons.
  - destruct (delete_one p c) as [r c'] eqn:E. simpl in *. by apply sublist_skip.
Qed.

Lemma wf_update_one p f c : wf c -> wf (update_one p f c).2.
Proof. unfold wf. by rewrite update_one_ids. Qed.

Lemma wf_delete_one p c : wf c -> wf (delete_one p c).2.
Proof.
  unfold wf, ids. intros Hnd. eapply sublist_NoDup; [exact Hnd|].
  apply fmap_sublist, delete_one_sublist.
Qed.

Lemma wf_insert_one (i : oid) (d : D) c : wf c -> wf (insert_one i d c).2.
Proof.
  unfold insert_one. case_decide as Hin; [done|]. unfold wf, ids. simpl.
  rewrite fmap_app. simpl. intros Hnd. apply NoDup_app. split; [done|]. split.
  - intros x Hx Hx'. apply list_elem_of_singleton in Hx'. by subst.
  - apply NoDup_singleton.
Qed.

(** Refinement: on a well-formed collection, [updateOne] with a filter
    on [_id] is the abstract conditional update of the view, and reports
    the abstract counters. *)
Lemma update_one_refines (i : oid) q f c :
  wf c ->
  (update_one (id_filter i q) f c).1 = map_update_result i q f (view c) /\
  view (update_one (id_filter i q) f c).2 = map_update_if i q f (view c).
Proof.
  induction c as [|[j d] c IH]; intros Hwf; [done|].
  apply wf_cons in Hwf as [Hj Hwf]. simpl. rewrite id_filter_apply.
  destruct (String.eqb_spec j i) as [->|Hne].
  - unfold map_update_result, map_update_if. rewrite lookup_insert_eq.
    destruct (q d) eqn:Hq; simpl.
    + split; [done|]. rewrite ?view_cons. by rewrite insert_insert_eq.
    + rewrite (update_one_absent i q f c Hj). done.
  - simpl.
    destruct (update_one (id_filter i q) f c) as [r c'] eqn:E. simpl in *.
    destruct (IH Hwf) as [IH1 IH2].
    rewrite map_update_result_insert_ne, map_update_if_insert_ne by done.
    by rewrite IH1, IH2.
Qed.

Lemma delete_one_refines (i : oid) q c :
  wf c ->
  (delete_one (id_filter i q) c).1 = map_delete_result i q (view c) /\
  view (delete_one (id_filter i q) c).2 = map_delete_if i q (view c).
Proof.
  induction c as [|[j d] c IH]; intros Hwf; [done|].
  apply wf_cons in Hwf as [Hj Hwf]. simpl. rewrite id_filter_apply.
  destruct (String.eqb_spec j i) as [->|Hne].
  - unfold map_delete_result, map_delete_if. rewrite lookup_insert_eq.
    destruct (q d) eqn:Hq; simpl.
    + split; [done|]. rewrite delete_insert_eq.
      symmetry. apply delete_id. by apply view_not_in.
    + rewrite (delete_one_absent i q c Hj). done.
  - simpl.
    destruct (delete_one (id_filter i q) c) as [r c'] eqn:E. simpl in *.
    destruct (IH Hwf) as [IH1 IH2].
    rewrite map_delete_result_insert_ne, map_delete_if_insert_ne by done.
    by rewrite IH1, IH2.
Qed.

Lemma insert_one_refines (i : oid) (d : D) c :
  i ∉ ids c -> view (insert_one i d c).2 = <[i := d]> (view c).
Proof.
  intros Hi. unfold insert_one. rewrite decide_False by done. simpl.
  by apply list_to_map_snoc.
Qed.
(** What a lookup after an abstract update or delete can see. *)
Lemma map_update_if_lookup (i j : oid) q f m (d' : D) :
  map_update_if i q f m !! j = Some d' ->
  m !! j = Some d' \/ (exists d, j = i /\ m !! j = Some d /\ q d = true /\ d' = f d).
Proof.
  unfold map_update_if. destruct (m !! i) as [d|] eqn:Ei; [|auto].
  destruct (q d) eqn:Hq; [|auto].
  destruct (decide (i = j)) as [<-|Hne].
  - rewrite lookup_insert_eq. intros [= <-]. right. eauto.
  - rewrite lookup_insert_ne by done. auto.
Qed.

Lemma map_update_if_is_Some (i j : oid) q f m :
  is_Some (m !! j) -> is_Some (map_update_if i q f m !! j).
Proof.
  unfold map_update_if. destruct (m !! i) as [d|] eqn:Ei; [|done].
  destruct (q d); [|done]. destruct (decide (i = j)) as [<-|Hne].
  - by rewrite lookup_insert_eq.
  - by rewrite lookup_insert_ne.
Qed.

Lemma map_delete_if_lookup (i j : oid) q m (d' : D) :
  map_delete_if i q m !! j = Some d' -> m !! j = Some d'.
Proof.
  unfold map_delete_if. destruct (m !! i) as [d|] eqn:Ei; [|done].
  destruct (q d); [|done]. destruct (decide (i = j)) as [<-|Hne].
  - by rewrite lookup_delete_eq.
  - by rewrite lookup_delete_ne.
Qed.

Lemma map_delete_if_removed (i j : oid) q m (d : D) :
  m !! j = Some d -> map_delete_if i q m !! j = None -> j = i /\ q d = true.
Proof.
  unfold map_delete_if. intros Hj. destruct (m !! i) as [d0|] eqn:Ei; [|congruence].
  destruct (q d0) eqn:Hq; [|congruence]. destruct (decide (i = j)) as [<-|Hne].
  - intros _. split; [done|]. congruence.
  - rewrite lookup_delete_ne by done. congruence.
Qed.

(** The view after an insert: unchanged on a duplicate key, otherwise
    one new entry. *)
Lemma insert_one_view (i : oid) (d : D) c :
  view (insert_one i d c).2 = if decide (i ∈ ids c) then view c else <[i := d]> (view c).
Proof.
  case_decide as Hin.
  - unfold insert_one. by rewrite decide_True.
  - by apply insert_one_refines.
Qed.

Lemma view_lookup_ids (i : oid) c : is_Some (view c !! i) -> i ∈ ids c.
Proof. intros Hs. destruct (decide (i ∈ ids c)) as [|Hn]; [done|]. rewrite view_not_in in Hs; by inversion Hs. Qed.
(** *** The by-id operations of the DAOs *)

Lemma update_by_id_refines (idstr : string) q f c (i : oid) :
  wf c -> ObjectId idstr = Ok i ->
  (update_by_id idstr q f c).1 = Ok (map_update_result i q f (view c)) /\
  view (update_by_id idstr q f c).2 = map_update_if i q f (view c).
Proof.
  intros Hwf Hid. unfold update_by_id. rewrite Hid.
  destruct (update_one_refines i q f c Hwf) as [H1 H2].
  destruct (update_one _ _ _) as [r c'] eqn:E. simpl in *. by subst.
Qed.

Lemma update_by_id_bad_id (idstr : string) q f c (e : js_error) :
  ObjectId idstr = Err e -> update_by_id idstr q f c = (Err e, c).
Proof. intros Hid. unfold update_by_id. by rewrite Hid. Qed.

Lemma delete_by_id_refines (idstr : string) q c (i : oid) :
  wf c -> ObjectId idstr = Ok i ->
  (delete_by_id idstr q c).1 = Ok (map_delete_result i q (view c)) /\
  view (delete_by_id idstr q c).2 = map_delete_if i q (view c).
Proof.
  intros Hwf Hid. unfold delete_by_id. rewrite Hid.
  destruct (delete_one_refines i q c Hwf) as [H1 H2].
  destruct (delete_one _ _) as [r c'] eqn:E. simpl in *. by subst.
Qed.

Lemma delete_by_id_bad_id (idstr : string) q c (e : js_error) :
  ObjectId idstr = Err e -> delete_by_id idstr q c = (Err e, c).
Proof. intros Hid. unfold delete_by_id. by rewrite Hid. Qed.

Lemma wf_update_by_id (idstr : string) q f c : wf c -> wf (update_by_id idstr q f c).2.
Proof.
  intros Hwf. unfold update_by_id. destruct (ObjectId idstr) as [i|]; [|done].
  pose proof (wf_update_one (id_filter i q) f c Hwf). by destruct (update_one _ _ _).
Qed.

Lemma wf_delete_by_id (idstr : string) q c : wf c -> wf (delete_by_id idstr q c).2.
Proof.
  intros Hwf. unfold delete_by_id. destruct (ObjectId idstr) as [i|]; [|done].
  pose proof (wf_delete_one (id_filter i q) c Hwf). by destruct (delete_one _ _).
Qed.

(** A lookup after a by-id update sees the old document, or the [$set]
    applied to the matching document at the parsed id. *)
Lemma update_by_id_lookup (idstr : string) q f c (j : oid) (d' : D) :
  wf c -> view (update_by_id idstr q f c).2 !! j = Some d' ->
  view c !! j = Some d' \/ (exists d, ObjectId idstr = Ok j /\ view c !! j = Some d /\ q d = true /\ d' = f d).
Proof.
  intros Hwf. destruct (ObjectId idstr) as [i|e] eqn:Hid.
  - rewrite (proj2 (update_by_id_refines idstr q f c i Hwf Hid)).
    intros H. apply map_update_if_lookup in H as [H|(d & -> & H & Hq & ->)]; eauto 10.
  - rewrite (update_by_id_bad_id idstr q f c e Hid). auto.
Qed.

Lemma delete_by_id_lookup (idstr : string) q c (j : oid) (d' : D) :
  wf c -> view (delete_by_id idstr q c).2 !! j = Some d' -> view c !! j = Some d'.
Proof.
  intros Hwf. destruct (ObjectId idstr) as [i|e] eqn:Hid.
  - rewrite (proj2 (delete_by_id_refines idstr q c i Hwf Hid)). apply map_delete_if_lookup.
  - by rewrite (delete_by_id_bad_id idstr q c e Hid).
Qed.
(** An insert never hides a document already present. *)
Lemma insert_one_lookup_old (i j : oid) (x d : D) c :
  view c !! j = Some d -> view (insert_one i x c).2 !! j = Some d.
Proof.
  intros Hj. rewrite insert_one_view. case_decide as Hin; [done|].
  destruct (decide (i = j)) as [<-|Hne].
  - exfalso. apply Hin, view_lookup_ids. by rewrite Hj.
  - by rewrite lookup_insert_ne.
Qed.

Lemma update_by_id_is_Some (idstr : string) q f c (j : oid) :
  wf c -> is_Some (view c !! j) -> is_Some (view (update_by_id idstr q f c).2 !! j).
Proof.
  intros Hwf Hs. destruct (ObjectId idstr) as [i|e] eqn:Hid.
  - rewrite (proj2 (update_by_id_refines idstr q f c i Hwf Hid)). by apply map_update_if_is_Some.
  - by rewrite (update_by_id_bad_id idstr q f c e Hid).
Qed.

Lemma delete_by_id_removed (idstr : string) q c (j : oid) (d : D) :
  wf c -> view c !! j = Some d -> view (delete_by_id idstr q c).2 !! j = None ->
  ObjectId idstr = Ok j /\ q d = true.
Proof.
  intros Hwf Hd. destruct (ObjectId idstr) as [i|e] eqn:Hid.
  - rewrite (proj2 (delete_by_id_refines idstr q c i Hwf Hid)). intros H.
    destruct (map_delete_if_removed i j q (view c) d Hd H) as [-> ?]. done.
  - rewrite (delete_by_id_bad_id idstr q c e Hid). simpl. congruence.
Qed.

(** On a well-formed collection, list membership is lookup in the view. *)
Lemma elem_of_view (j : oid) (d : D) c : wf c -> (j, d) ∈ c <-> view c !! j = Some d.
Proof. intros Hwf. by apply elem_of_list_to_map. Qed.

Lemma elem_of_find (p : oid -> D -> bool) (c : collection D) (j : oid) (d : D) :
  (j, d) ∈ find p c <-> (j, d) ∈ c /\ p j d = true.
Proof.
  unfold find. rewrite !list_elem_of_In, filter_In. done.
Qed.

Lemma wf_find (p : oid -> D -> bool) (c : collection D) : wf c -> wf (find p c).
Proof.
  unfold wf, ids, find. intros Hwf. eapply sublist_NoDup; [exact Hwf|].
  apply fmap_sublist, list_filter_sublist.
Qed.

(** The abstract operations, read back at one id. *)
Lemma map_update_if_lookup_eq (i j : oid) q f (m : gmap oid D) :
  map_update_if i q f m !! j =
    if decide (j = i) then (fun d => if q d then f d else d) <$> m !! j else m !! j.
Proof.
  unfold map_update_if. case_decide as Hj.
  - subst j. destruct (m !! i) as [d|] eqn:E; [|done]. simpl.
    destruct (q d); [by rewrite lookup_insert_eq|by rewrite E].
  - destruct (m !! i) as [d|]; [|done]. destruct (q d); [|done]. by rewrite lookup_insert_ne.
Qed.

Lemma map_delete_if_lookup_eq (i j : oid) q (m : gmap oid D) :
  map_delete_if i q m !! j =
    if decide (j = i) then m !! j ≫= (fun d => if q d then None else Some d) else m !! j.
Proof.
  unfold map_delete_if. case_decide as Hj.
  - subst j. destruct (m !! i) as [d|] eqn:E; [|done]. simpl.
    destruct (q d); [by rewrite lookup_delete_eq|by rewrite E].
  - destruct (m !! i) as [d|]; [|done]. destruct (q d); [|done]. by rewrite lookup_delete_ne.
Qed.

(** [find(filter).sort(order)]: sorted, exactly the matching documents,
    each once. *)
Lemma sorted_find_spec (R : relation (oid * D)) `{!RelDecision R} `{!Total R}
    (p : oid -> D -> bool) (c : collection D) :
  wf c ->
  Sorted R (merge_sort R (find p c)) /\
  (forall j d, (j, d) ∈ merge_sort R (find p c) <-> view c !! j = Some d /\ p j d = true) /\
  wf (merge_sort R (find p c)).
Proof.
  intros Hwf. pose proof (merge_sort_Permutation R (find p c)) as Hp.
  split_and!; [by apply Sorted_merge_sort| |].
  - intros j d. by rewrite Hp, elem_of_find, elem_of_view.
  - unfold wf, ids. rewrite Hp. by apply wf_find.
Qed.

(** [find({ _id: i })] in a collection with distinct ids. *)
Lemma find_id (i : oid) (c : collection D) :
  wf c -> find (fun j _ => (j =? i)%string) c = match view c !! i with Some d => [(i, d)] | None => [] end.
Proof.
  induction c as [|[j d] c IH]; intros Hwf; [done|]. apply wf_cons in Hwf as [Hj Hwf].
  unfold find in *. rewrite view_cons. cbn [List.filter]. destruct (String.eqb_spec j i) as [->|Hne].
  - rewrite lookup_insert_eq, IH, view_not_in by done. done.
  - rewrite lookup_insert_ne by done. by apply IH.
Qed.
End CollectionLemmas.

#[export] Hint Resolve wf_find : moviedb.
#[export] Hint Resolve wf_update_one wf_delete_one wf_insert_one wf_update_by_id wf_delete_by_id : moviedb.
