(* ===== verification/JsCore.v ===== *)
(** * JsCore: the JavaScript built-ins the code relies on

    [parseInt] (with and without an explicit radix 10), [Number(s)] on a
    string (the conversion behind [s > 2050] and [s - 1]), the number
    comparisons with NaN, [String.prototype.split] on a one-character
    separator, [trim], and the three-argument [Date] constructor.  Strings
    are ASCII strings; JavaScript numbers are rationals extended with NaN
    and the two infinities (the finite values the code meets are exact). *)

From S2P Require Import Prelude.
From Stdlib Require Import QArith.
Close Scope Q_scope.

(** ** Numbers *)

Inductive js_number :=
| NaN
| PosInf
| NegInf
| Fin (q : Q).

#[export] Instance Q_eq_dec : EqDecision Q.
Proof. intros [a b] [c d]. destruct (decide (a = c)), (decide (b = d)); [left|right..]; congruence. Defined.

#[export] Instance js_number_eq_dec : EqDecision js_number.
Proof. solve_decision. Defined.

(** The order of numbers in a BSON sort: NaN first, then by value. *)
Definition bson_num_compare (a b : js_number) : comparison :=
  match a, b with
  | NaN, NaN => Eq
  | NaN, _ => Lt
  | _, NaN => Gt
  | NegInf, NegInf => Eq
  | NegInf, _ => Lt
  | _, NegInf => Gt
  | PosInf, PosInf => Eq
  | PosInf, _ => Gt
  | _, PosInf => Lt
  | Fin x, Fin y => Qcompare x y
  end.

Lemma bson_num_compare_antisym (a b : js_number) : bson_num_compare b a = CompOpp (bson_num_compare a b).
Proof. destruct a, b; simpl; try reflexivity. symmetry. apply Qcompare_antisym. Qed.

#[export] Instance bson_num_compare_laws : CmpLaws bson_num_compare.
Proof.
  split; [|apply bson_num_compare_antisym|].
  - intros [] [] c H; simpl in H; try discriminate; destruct c; simpl; try reflexivity.
    apply Qcompare_comp; [by apply Qeq_alt|reflexivity].
  - intros [] [] []; simpl; try congruence. rewrite <- !Qle_alt. apply Qle_trans.
Qed.

(** [a > b], [a < b] and [a >= b] on numbers; every comparison with NaN is false. *)
Definition js_lt (a b : js_number) : bool :=
  match a, b with
  | Fin x, Fin y => negb (Qle_bool y x)
  | NegInf, (Fin _ | PosInf) => true
  | Fin _, PosInf => true
  | _, _ => false
  end.

Definition js_gt (a b : js_number) : bool := js_lt b a.

Definition js_sub (a b : js_number) : js_number :=
  match a, b with
  | Fin x, Fin y => Fin (x - y)%Q
  | NaN, _ | _, NaN => NaN
  | PosInf, PosInf | NegInf, NegInf => NaN
  | (PosInf | NegInf), _ => a
  | Fin _, PosInf => NegInf
  | Fin _, NegInf => PosInf
  end.

Definition js_of_Z (z : Z) : js_number := Fin (inject_Z z).

(** ** Characters *)

Definition is_space (c : ascii) : bool :=
  let n := nat_of_ascii c in ((9 <=? n) && (n <=? 13)) || (n =? 32).

(** The value of [c] as a digit of base [radix] (2 to 36), if it is one. *)
Definition digit_value (radix : nat) (c : ascii) : option nat :=
  let n := nat_of_ascii c in
  let v := if (48 <=? n) && (n <=? 57) then n - 48
           else if (65 <=? n) && (n <=? 90) then n - 55
           else if (97 <=? n) && (n <=? 122) then n - 87
           else 99 in
  if v <? radix then Some v else None.

Fixpoint drop_spaces (l : list ascii) : list ascii :=
  match l with
  | c :: l' => if is_space c then drop_spaces l' else l
  | [] => []
  end.

(** The longest prefix of digits of base [radix], and the rest. *)
Fixpoint digit_prefix (radix : nat) (l : list ascii) : list nat * list ascii :=
  match l with
  | c :: l' =>
      match digit_value radix c with
      | Some v => let '(ds, r) := digit_prefix radix l' in (v :: ds, r)
      | None => ([], l)
      end
  | [] => ([], [])
  end.

Definition digits_to_Z (radix : nat) (ds : list nat) : Z :=
  fold_left (fun acc d => acc * Z.of_nat radix + Z.of_nat d)%Z ds 0%Z.

(** ** [parseInt]

    [parseInt(s)] (no radix) and [parseInt(s, 10)]: leading white space
    and one sign are skipped; without a radix a [0x]/[0X] prefix selects
    base 16; the longest digit prefix is read, and NaN (here [None]) is
    the result when it is empty. *)

Definition int_sign (l : list ascii) : Z * list ascii :=
  match l with
  | "-"%char :: r => ((-1)%Z, r)
  | "+"%char :: r => (1%Z, r)
  | _ => (1%Z, l)
  end.

Definition int_radix (explicit_radix : option nat) (l : list ascii) : nat * list ascii :=
  match explicit_radix, l with
  | None, "0"%char :: ("x"|"X")%char :: r => (16, r)
  | None, _ => (10, l)
  | Some r, _ => (r, l)
  end.

Definition parse_int_radix (explicit_radix : option nat) (s : string) : option Z :=
  let '(sign, l) := int_sign (drop_spaces (list_ascii_of_string s)) in
  let '(radix, l) := int_radix explicit_radix l in
  match digit_prefix radix l with
  | ([], _) => None
  | (ds, _) => Some (sign * digits_to_Z radix ds)%Z
  end.

Definition parseInt (s : string) : option Z := parse_int_radix None s.
Definition parseInt10 (s : string) : option Z := parse_int_radix (Some 10) s.

Definition js_of_int (o : option Z) : js_number :=
  match o with Some z => js_of_Z z | None => NaN end.

(** ** [Number(s)] on a string

    White space is trimmed at both ends; the empty string is 0; [0x],
    [0o], [0b] integers; [Infinity] with an optional sign; and decimal
    literals [sign digits . digits e sign digits] with at least one digit
    in the mantissa.  Anything else is NaN. *)

Definition pow10 (n : nat) : Q := inject_Z (10 ^ Z.of_nat n)%Z.

Definition scale10 (q : Q) (e : Z) : Q :=
  if (0 <=? e)%Z then (q * inject_Z (10 ^ e))%Q else (q / inject_Z (10 ^ (- e)))%Q.

(** The exponent part [e sign digits], if [l] is exactly one. *)
Definition parse_exponent (l : list ascii) : option Z :=
  match l with
  | [] => Some 0%Z
  | ("e"|"E")%char :: r =>
      let '(sg, r) := match r with
                      | "-"%char :: r' => ((-1)%Z, r')
                      | "+"%char :: r' => (1%Z, r')
                      | _ => (1%Z, r) end in
      match digit_prefix 10 r with
      | ([], _) => None
      | (ds, []) => Some (sg * digits_to_Z 10 ds)%Z
      | _ => None
      end
  | _ => None
  end.

Definition parse_unsigned_decimal (l : list ascii) : option Q :=
  let '(ip, r) := digit_prefix 10 l in
  let '(fp, r) := match r with
                  | "."%char :: r' => digit_prefix 10 r'
                  | _ => ([], r) end in
  match ip, fp, parse_exponent r with
  | [], [], _ => None
  | _, _, Some e =>
      let mant := (inject_Z (digits_to_Z 10 (ip ++ fp)) / pow10 (length fp))%Q in
      Some (scale10 mant e)
  | _, _, None => None
  end.

Definition radix_integer (radix : nat) (l : list ascii) : js_number :=
  match digit_prefix radix l with
  | ([], _) => NaN
  | (ds, []) => js_of_Z (digits_to_Z radix ds)
  | _ => NaN
  end.

Definition number_of_chars (l : list ascii) : js_number :=
  match l with
  | [] => Fin 0%Q
  | "0"%char :: ("x"|"X")%char :: r => radix_integer 16 r
  | "0"%char :: ("o"|"O")%char :: r => radix_integer 8 r
  | "0"%char :: ("b"|"B")%char :: r => radix_integer 2 r
  | _ =>
      let '(neg, r) := match l with
                       | "-"%char :: r => (true, r)
                       | "+"%char :: r => (false, r)
                       | _ => (false, l) end in
      if bool_decide (r = list_ascii_of_string "Infinity") then (if neg then NegInf else PosInf)
      else match parse_unsigned_decimal r with
           | Some q => Fin (if neg then (- q)%Q else q)
           | None => NaN
           end
  end.

Definition trim_chars (l : list ascii) : list ascii := rev (drop_spaces (rev (drop_spaces l))).

Definition Number (s : string) : js_number := number_of_chars (trim_chars (list_ascii_of_string s)).

(** [undefined] converts to NaN: [arr[i]] read past the end of an array of
    strings, then converted. *)
Definition number_at (l : list string) (i : nat) : js_number :=
  match nth_error l i with Some s => Number s | None => NaN end.

(** ** [parseFloat]

    Leading white space and one sign are skipped; [Infinity] is read as a
    prefix; otherwise the longest prefix of the form
    [digits . digits e sign digits] with a digit in the mantissa is
    read, an exponent without digits being ignored.  Anything else is
    NaN. *)

Definition sign_prefix (l : list ascii) : bool * list ascii :=
  match l with
  | "-"%char :: r => (true, r)
  | "+"%char :: r => (false, r)
  | _ => (false, l)
  end.

Fixpoint is_prefix (p l : list ascii) : bool :=
  match p, l with
  | [], _ => true
  | c :: p', d :: l' => Ascii.eqb c d && is_prefix p' l'
  | _ :: _, [] => false
  end.

(** The exponent of the longest prefix: 0 when [e] has no digits after it. *)
Definition exponent_prefix (l : list ascii) : Z :=
  match l with
  | ("e"|"E")%char :: r =>
      let '(neg, r') := sign_prefix r in
      match digit_prefix 10 r' with
      | ([], _) => 0%Z
      | (ds, _) => ((if neg then (-1)%Z else 1%Z) * digits_to_Z 10 ds)%Z
      end
  | _ => 0%Z
  end.

Definition parseFloat (s : string) : js_number :=
  let '(neg, r) := sign_prefix (drop_spaces (list_ascii_of_string s)) in
  if is_prefix (list_ascii_of_string "Infinity") r then (if neg then NegInf else PosInf)
  else
    let '(ip, r1) := digit_prefix 10 r in
    let '(fp, r2) := match r1 with
                     | "."%char :: r' => digit_prefix 10 r'
                     | _ => ([], r1) end in
    match ip, fp with
    | [], [] => NaN
    | _, _ =>
        let q := scale10 (inject_Z (digits_to_Z 10 (ip ++ fp)) / pow10 (length fp))%Q (exponent_prefix r2) in
        Fin (if neg then (- q)%Q else q)
    end.

(** ** [String(n)] on an integer

    The decimal digits, with a minus sign for a negative number; this is
    JavaScript's conversion for the integers below 10^21 in magnitude. *)

(** The digits of [n], least significant first; [fuel] bounds their number. *)
Fixpoint digits_rev (fuel : nat) (n : Z) : list nat :=
  match fuel with
  | O => []
  | S f => if (n =? 0)%Z then [] else Z.to_nat (n mod 10) :: digits_rev f (n / 10)
  end.

Definition digit_char (d : nat) : ascii := ascii_of_nat (48 + d).

Definition number_to_string (z : Z) : string :=
  if (z =? 0)%Z then "0"
  else string_of_list_ascii
         ((if (z <? 0)%Z then ["-"%char] else [])
          ++ (digit_char <$> rev (digits_rev (Pos.to_nat (Pos.size (Z.to_pos (Z.abs z)))) (Z.abs z)))).

(** ** Strings *)

(** [s.trim()] *)
Definition trim (s : string) : string := string_of_list_ascii (trim_chars (list_ascii_of_string s)).

(** [s.split(sep)] for a one-character separator: the pieces between the
    separators, so [n] separators give [n + 1] pieces. *)
Fixpoint split_chars (sep : ascii) (l : list ascii) (cur : list ascii) : list string :=
  match l with
  | [] => [string_of_list_ascii (rev cur)]
  | c :: l' =>
      if Ascii.eqb c sep then string_of_list_ascii (rev cur) :: split_chars sep l' []
      else split_chars sep l' (c :: cur)
  end.

Definition split (sep : ascii) (s : string) : list string :=
  split_chars sep (list_ascii_of_string s) [].

(** The [TypeError] of [x.split(...)] on an [undefined] [x]. *)
Definition split_undefined_msg : string := "Cannot read properties of undefined (reading 'split')".

(** [String(arr[i])] for an array of strings: ["undefined"] past its end. *)
Definition string_at (l : list string) (i : nat) : string :=
  match nth_error l i with Some s => s | None => "undefined" end.

(** ** Dates

    [new Date(y, m, d)] converts its arguments with [Number], maps a year
    in 0..99 to 1900 + year, and is an Invalid Date when an argument is
    not finite.  A valid date is kept as its three integer arguments: the
    normalisation of out-of-range months and days into a time value, the
    local time zone and the range limit of time values are not computed.
    [new Date()] is the current time, an input of the handler, in ms. *)

Inductive js_date :=
| InvalidDate
| DateArgs (year month day : Z)
| TimeValue (ms : Z).

#[export] Instance js_date_eq_dec : EqDecision js_date.
Proof. solve_decision. Defined.

Definition to_integer (q : Q) : Z := Z.quot (Qnum q) (Zpos (Qden q)).

Definition new_Date3 (y m d : js_number) : js_date :=
  match y, m, d with
  | Fin y, Fin m, Fin d =>
      let yi := to_integer y in
      let y' := if (0 <=? yi)%Z && (yi <=? 99)%Z then (1900 + yi)%Z else yi in
      DateArgs y' (to_integer m) (to_integer d)
  | _, _, _ => InvalidDate
  end.

(** [released.split("-")] followed by
    [new Date(releasedArr[0], releasedArr[1] - 1, releasedArr[2])], the
    conversion of src/backend/api/movies.controller.js and
    movie_requests.controller.js. *)
Definition released_date (released : string) : js_date :=
  let arr := split "-" released in
  new_Date3 (number_at arr 0) (js_sub (number_at arr 1) (Fin 1)) (number_at arr 2).

(** ** Properties of the conversions *)

Lemma digits_to_Z_snoc (ds : list nat) (d : nat) :
  digits_to_Z 10 (ds ++ [d]) = (digits_to_Z 10 ds * 10 + Z.of_nat d)%Z.
Proof. unfold digits_to_Z. by rewrite fold_left_app. Qed.

(** Enough fuel: [n < 2 ^ fuel] has at most [fuel] decimal digits. *)
Lemma digits_rev_value (f : nat) (n : Z) :
  (0 <= n < 2 ^ Z.of_nat f)%Z -> digits_to_Z 10 (rev (digits_rev f n)) = n.
Proof.
  revert n. induction f as [|f IH]; intros n Hn; simpl.
  - simpl in Hn. assert (n = 0)%Z as -> by lia. reflexivity.
  - destruct (Z.eqb_spec n 0) as [->|Hne]; [reflexivity|]. simpl.
    rewrite Nat2Z.inj_succ, Z.pow_succ_r in Hn by lia.
    rewrite digits_to_Z_snoc, IH.
    + rewrite Z2Nat.id by (apply Z.mod_pos_bound; lia). pose proof (Z.div_mod n 10). lia.
    + split; [apply Z.div_pos; lia|]. apply Z.div_lt_upper_bound; lia.
Qed.

Lemma digits_rev_small (f : nat) (n : Z) : (0 <= n)%Z -> Forall (fun d => d < 10) (digits_rev f n).
Proof.
  revert n. induction f as [|f IH]; intros n Hn; simpl; [constructor|].
  destruct (n =? 0)%Z; constructor.
  - pose proof (Z.mod_pos_bound n 10). lia.
  - apply IH. apply Z.div_pos; lia.
Qed.

Lemma digits_rev_nonempty (f : nat) (n : Z) : n <> 0%Z -> digits_rev (S f) n <> [].
Proof. intros Hn. simpl. by rewrite (proj2 (Z.eqb_neq n 0) Hn). Qed.

Lemma digit_char_value (d : nat) : d < 10 -> digit_value 10 (digit_char d) = Some d.
Proof. intros Hd. do 10 (destruct d as [|d]; [reflexivity|]). lia. Qed.

Lemma digit_prefix_digits (ds : list nat) :
  Forall (fun d => d < 10) ds -> digit_prefix 10 (digit_char <$> ds) = (ds, []).
Proof.
  induction 1 as [|d ds Hd _ IH]; [done|]. cbn [fmap list_fmap digit_prefix].
  by rewrite digit_char_value, IH.
Qed.

(** Decimal digits are no white space, no sign and no [0x] prefix. *)
Lemma digit_chars_head (d : nat) (ds : list nat) :
  d < 10 -> Forall (fun d => d < 10) ds ->
  let cs := digit_char <$> (d :: ds) in
  drop_spaces cs = cs /\ int_sign cs = (1%Z, cs) /\ int_radix None cs = (10, cs).
Proof.
  intros Hd Hds. destruct ds as [|d2 ds]; [|apply Forall_cons in Hds as [Hd2 _]];
    (destruct d as [|d]; [try (do 10 (destruct d2 as [|d2]; [split_and!; reflexivity|]); lia)|]);
    try (split_and!; reflexivity); do 9 (destruct d as [|d]; [split_and!; reflexivity|]); lia.
Qed.

(** [parseInt(s)] and [parseInt(s, 10)] read a decimal string the same way. *)
Lemma parse_digits (rx : option nat) (neg : bool) (ds : list nat) :
  rx = None \/ rx = Some 10 -> ds <> [] -> Forall (fun d => d < 10) ds ->
  parse_int_radix rx (string_of_list_ascii ((if neg then ["-"%char] else []) ++ (digit_char <$> ds)))
    = Some ((if neg then (-1) else 1) * digits_to_Z 10 ds)%Z.
Proof.
  intros Hrx Hne Hds. destruct ds as [|d ds]; [done|]. pose proof Hds as Hds'.
  apply Forall_cons in Hds' as [Hd Hds'].
  destruct (digit_chars_head d ds Hd Hds') as (Hsp & Hsg & Hrad).
  assert (Hrad' : int_radix rx (digit_char <$> d :: ds) = (10, digit_char <$> d :: ds))
    by (destruct Hrx as [-> | ->]; [exact Hrad | reflexivity]).
  unfold parse_int_radix. rewrite list_ascii_of_string_of_list_ascii.
  destruct neg; cbn [app].
  - change (drop_spaces ("-"%char :: (digit_char <$> d :: ds))) with ("-"%char :: (digit_char <$> d :: ds)).
    change (int_sign ("-"%char :: (digit_char <$> d :: ds))) with ((-1)%Z, (digit_char <$> d :: ds)).
    cbv beta iota zeta. rewrite Hrad'. cbv beta iota zeta. by rewrite digit_prefix_digits.
  - rewrite Hsp, Hsg. cbv beta iota zeta. rewrite Hrad'. cbv beta iota zeta. by rewrite digit_prefix_digits.
Qed.

(** The digits of [String(z)], most significant first, and their number
    bound. *)
Definition decimal_digits (z : Z) : list nat :=
  rev (digits_rev (Pos.to_nat (Pos.size (Z.to_pos (Z.abs z)))) (Z.abs z)).

Lemma decimal_digits_spec (z : Z) :
  z <> 0%Z ->
  decimal_digits z <> [] /\ Forall (fun d => d < 10) (decimal_digits z) /\
  digits_to_Z 10 (decimal_digits z) = Z.abs z.
Proof.
  intros Hz. unfold decimal_digits.
  set (f := Pos.to_nat (Pos.size (Z.to_pos (Z.abs z)))).
  assert (Hf : (0 <= Z.abs z < 2 ^ Z.of_nat f)%Z).
  { subst f. rewrite positive_nat_Z. destruct z as [|p|p]; [done| |]; simpl;
      pose proof (Pos.size_gt p); split; lia. }
  split_and!.
  - assert (Hne : digits_rev f (Z.abs z) <> []).
    { subst f. destruct (Pos.to_nat (Pos.size (Z.to_pos (Z.abs z)))) eqn:E.
      - pose proof (Pos2Nat.is_pos (Pos.size (Z.to_pos (Z.abs z)))). lia.
      - apply digits_rev_nonempty. lia. }
    intros Hr. apply Hne. by apply (f_equal (@rev nat)) in Hr; rewrite rev_involutive in Hr.
  - apply Forall_rev, digits_rev_small. lia.
  - by rewrite digits_rev_value.
Qed.

Lemma number_to_string_digits (z : Z) :
  z <> 0%Z ->
  number_to_string z
    = string_of_list_ascii ((if (z <? 0)%Z then ["-"%char] else []) ++ (digit_char <$> decimal_digits z)).
Proof. intros Hz. unfold number_to_string. by rewrite (proj2 (Z.eqb_neq z 0) Hz). Qed.

Lemma parse_int_radix_number_to_string (rx : option nat) (z : Z) :
  rx = None \/ rx = Some 10 -> parse_int_radix rx (number_to_string z) = Some z.
Proof.
  intros Hrx. destruct (Z.eqb_spec z 0) as [->|Hz]; [by destruct Hrx as [-> | ->]|].
  destruct (decimal_digits_spec z Hz) as (Hne & Hsmall & Hval).
  rewrite number_to_string_digits by done.
  destruct (Z.ltb_spec z 0);
    [rewrite (parse_digits rx true) | rewrite (parse_digits rx false)]; try done; f_equal; lia.
Qed.

(** [parseInt(String(n))] is [n] for an integer [n] printed in decimal
    ([String(n)] uses an exponent from 1e21 on, which [number_to_string]
    does not model). *)
Lemma parseInt_number_to_string (z : Z) : parseInt (number_to_string z) = Some z.
Proof. apply parse_int_radix_number_to_string. by left. Qed.

Lemma parseInt10_number_to_string (z : Z) : parseInt10 (number_to_string z) = Some z.
Proof. apply parse_int_radix_number_to_string. by right. Qed.

Lemma list_ascii_of_string_app (a b : string) :
  list_ascii_of_string (a +:+ b) = list_ascii_of_string a ++ list_ascii_of_string b.
Proof. induction a as [|c a IH]; simpl; [done|]. by rewrite IH. Qed.

Lemma string_of_list_ascii_app (a b : list ascii) :
  string_of_list_ascii (a ++ b) = string_of_list_ascii a +:+ string_of_list_ascii b.
Proof. induction a as [|c a IH]; simpl; [done|]. by rewrite IH. Qed.

(** [split] on a string whose pieces are each followed by the separator. *)
Lemma split_chars_nosep (sep : ascii) (l cur : list ascii) :
  Forall (fun c => Ascii.eqb c sep = false) l ->
  split_chars sep l cur = [string_of_list_ascii (rev cur ++ l)].
Proof.
  intros Hl. revert cur. induction Hl as [|c l Hc _ IH]; intros cur; simpl.
  - by rewrite app_nil_r.
  - rewrite Hc, IH. simpl. by rewrite <- app_assoc.
Qed.

Lemma split_chars_sep (sep : ascii) (l1 l2 cur : list ascii) :
  Forall (fun c => Ascii.eqb c sep = false) l1 ->
  split_chars sep (l1 ++ sep :: l2) cur = string_of_list_ascii (rev cur ++ l1) :: split_chars sep l2 [].
Proof.
  intros Hl. revert cur. induction Hl as [|c l Hc _ IH]; intros cur; simpl.
  - by rewrite Ascii.eqb_refl, app_nil_r.
  - rewrite Hc, IH. simpl. by rewrite <- app_assoc.
Qed.

Lemma split_terminated (sep : ascii) (xs : list (list ascii)) (y : list ascii) :
  Forall (Forall (fun c => Ascii.eqb c sep = false)) xs -> Forall (fun c => Ascii.eqb c sep = false) y ->
  split sep (string_of_list_ascii (concat (map (fun x => x ++ [sep]) xs) ++ y))
    = map string_of_list_ascii xs ++ [string_of_list_ascii y].
Proof.
  intros Hxs Hy. unfold split. rewrite list_ascii_of_string_of_list_ascii. simpl.
  induction Hxs as [|x xs Hx _ IH]; simpl.
  - by rewrite split_chars_nosep.
  - rewrite <- !app_assoc. simpl. rewrite split_chars_sep by done. simpl. by rewrite IH.
Qed.

Lemma split_nosep (sep : ascii) (s : string) :
  Forall (fun c => Ascii.eqb c sep = false) (list_ascii_of_string s) -> split sep s = [s].
Proof. intros H. unfold split. rewrite split_chars_nosep by done. simpl. by rewrite string_of_list_ascii_of_string. Qed.

(** ** Sanity checks on concrete inputs *)

Example parseInt_samples :
  parseInt "2020" = Some 2020%Z /\ parseInt " 12abc" = Some 12%Z /\
  parseInt "abc" = None /\ parseInt "0x1A" = Some 26%Z /\ parseInt10 "0x1A" = Some 0%Z /\
  parseInt "-7" = Some (-7)%Z.
Proof. vm_compute. repeat split. Qed.

Example Number_samples :
  Number "" = Fin 0 /\ Number " 12 " = js_of_Z 12 /\ Number "abc" = NaN /\
  Number "1e3" = Fin (inject_Z 1000) /\ Number "-Infinity" = NegInf /\ Number "0x10" = js_of_Z 16.
Proof. vm_compute. repeat split. Qed.

Example released_date_samples :
  released_date "2020-05-17" = DateArgs 2020 4 17 /\
  released_date "20-05-17" = DateArgs 1920 4 17 /\
  released_date "2020-05" = InvalidDate /\ split "-" "" = [""%string].
Proof. vm_compute. repeat split. Qed.

Example parseFloat_samples :
  parseFloat "7.5" = Fin (75 # 10) /\ parseFloat " 8.1,1234,99" = Fin (81 # 10) /\
  parseFloat "1e" = Fin 1 /\ parseFloat "-.5e1x" = Fin (-50 # 10) /\ parseFloat "undefined" = NaN /\
  parseFloat "Infinityx" = PosInf /\ number_to_string (-2020) = "-2020"%string.
Proof. vm_compute. repeat split. Qed.
