(* ===== verification/MovieRequests.v ===== *)
(** * MovieRequests: the movie-request workflow

    Models src/backend/dao/movie_requestsDAO.js (Module [MovieRequestsDAO])
    and src/backend/api/movie_requests.controller.js (Module
    [MovieRequestsCtrl]) over the [movie_requests] collection of DocStore.
    A request is created by [apiSendRequest] with the status and active
    flag sent by the client; [apiDenyRequest] and [apiAcceptRequest] set
    its status, [apiDeactivateRequest] clears [active], and
    [apiDeleteRequest] removes it.  The movie search that
    [apiAcceptRequest] performs through [MoviesDAO.getMovies] is the
    interface [MovieSearch].  The lifecycle is the step relation
    [req_step], with its invariants over reachable collections, and the
    abstract lifecycle of the spec (pending to denied or accepted) is the
    relation [spec_step]. *)

From S2P Require Import Prelude DocStore JsCore.

(** ** The request document *)

Module Req.
Record t := mk {
  title : string;
  year : option Z;
  fullplot : string;
  genres : list string;
  runtime : option Z;
  released : js_date;
  rated : string;
  lastupdated : js_date;
  type : string;
  user_id : string;
  status : string;
  active : bool;
  movie_id : option oid
}.

#[global] Instance eq_dec : EqDecision t.
Proof. solve_decision. Defined.

(** The three [$set] updates of the DAO. *)
Definition set_status (s : string) (d : t) : t :=
  mk (title d) (year d) (fullplot d) (genres d) (runtime d) (released d) (rated d)
     (lastupdated d) (type d) (user_id d) s (active d) (movie_id d).

Definition set_active (b : bool) (d : t) : t :=
  mk (title d) (year d) (fullplot d) (genres d) (runtime d) (released d) (rated d)
     (lastupdated d) (type d) (user_id d) (status d) b (movie_id d).

Definition set_accepted (m : oid) (d : t) : t :=
  mk (title d) (year d) (fullplot d) (genres d) (runtime d) (released d) (rated d)
     (lastupdated d) (type d) (user_id d) "accepted" (active d) (Some m).
End Req.

Abbreviation requests := (collection Req.t).

(** The filter [{ user_id: user_id, _id: ObjectId(requestId) }]. *)
Definition owned_by (user : string) : Req.t -> bool := fun d => (Req.user_id d =? user)%string.

(** ** MovieRequestsDAO (src/backend/dao/movie_requestsDAO.js)

    Each method catches the exceptions of its body and returns
    [{ error: e }], here [Err e]; the collection is returned unchanged
    then.  [ObjectId(requestId)] is evaluated inside the [try]. *)

Module MovieRequestsDAO.
Definition addRequest (new_id : oid) (data : Req.t) (c : requests)
    : result insert_result * requests :=
  insert_one new_id data c.

Definition getUserRequests (user : string) (c : requests) : requests :=
  find (fun _ d => owned_by user d) c.

Definition getAllRequests (c : requests) : requests := c.

Definition deleteRequest (requestId user : string) (c : requests)
    : result delete_result * requests :=
  delete_by_id requestId (owned_by user) c.

(** The three updates share the filter; [upd] is the [$set]. *)
Definition update_request (requestId user : string) (upd : Req.t -> Req.t) (c : requests)
    : result update_result * requests :=
  update_by_id requestId (owned_by user) upd c.

Definition denyRequest (requestId user : string) (c : requests) :=
  update_request requestId user (Req.set_status "denied") c.

Definition deactivateRequest (requestId user : string) (c : requests) :=
  update_request requestId user (Req.set_active false) c.

Definition acceptRequest (requestId user : string) (acceptedMovie_id : oid) (c : requests) :=
  update_request requestId user (Req.set_accepted acceptedMovie_id) c.
End MovieRequestsDAO.

(** ** The movie lookup of [apiAcceptRequest]

    [apiAcceptRequest] finds the movie the admin has just added with
    [MoviesDAO.getMovies({filters, page: 0, moviesPerPage: 20})] and keeps
    the [_id] of the first result.  The request controller only depends
    on this interface: the ids of the movies returned, in order, for a
    state [M] of the movies collection. *)

Record movie_filters := {
  mf_title : string;
  mf_year : option Z;
  mf_rated : string;
  mf_genres : option string
}.

Class MovieSearch (M : Type) := {
  search_movie_ids : M -> movie_filters -> Z -> Z -> list oid
}.

(** ** MovieRequestsCtrl (src/backend/api/movie_requests.controller.js) *)

(** The fields of [req.body] that [apiSendRequest] reads; [released] is
    [None] when absent, which makes [data.released.split] throw. *)
Record send_body := {
  sb_title : string;
  sb_year : string;
  sb_fullplot : string;
  sb_genres : list string;
  sb_runtime : string;
  sb_released : option string;
  sb_rated : string;
  sb_user_id : string;
  sb_status : string;
  sb_active : bool
}.

(** The fields of [req.body] that [apiAcceptRequest] reads. *)
Record accept_body := {
  ab_id : string;
  ab_user_id : string;
  ab_title : string;
  ab_year : option Z;
  ab_genres : list string;
  ab_rated : string
}.

Definition id_undefined_msg : string := "Cannot read properties of undefined (reading '_id')".

Module MovieRequestsCtrl.
(** [x.count == 1 ? res.json("success") : res.json("fail")], where
    [x] may be the [{ error }] object of the DAO, whose count is
    [undefined]. *)
Definition reply_count {A} (count : A -> nat) (r : result A) : response string :=
  match r with
  | Ok a => if count a =? 1 then Json "success" else Json "fail"
  | Err _ => Json "fail"
  end.

(** The [requestInfo] object built from the body. *)
Definition requestInfo (b : send_body) (released : string) (now : Z) : Req.t :=
  Req.mk (sb_title b) (parseInt (sb_year b)) (sb_fullplot b) (sb_genres b)
    (parseInt (sb_runtime b)) (released_date released) (sb_rated b) (TimeValue now)
    "movie" (sb_user_id b) (sb_status b) (sb_active b) None.

(** [now] is [new Date()], [new_id] the ObjectId the driver gives the
    inserted document. *)
Definition apiSendRequest (b : send_body) (now : Z) (new_id : oid) (c : requests)
    : response string * requests :=
  match sb_released b with
  | None => (Status 500 split_undefined_msg, c)
  | Some rel =>
      let '(r, c') := MovieRequestsDAO.addRequest new_id (requestInfo b rel now) c in
      (reply_count insertedCount r, c')
  end.

Definition apiGetRequests (email : string) (c : requests) : response requests :=
  Json (MovieRequestsDAO.getUserRequests email c).

Definition apiGetAllRequests (c : requests) : response requests :=
  Json (MovieRequestsDAO.getAllRequests c).

Definition apiDeleteRequest (id user : string) (c : requests) : response string * requests :=
  let '(r, c') := MovieRequestsDAO.deleteRequest id user c in (reply_count deletedCount r, c').

Definition apiDenyRequest (id user : string) (c : requests) : response string * requests :=
  let '(r, c') := MovieRequestsDAO.denyRequest id user c in (reply_count modifiedCount r, c').

Definition apiDeactivateRequest (id user : string) (c : requests) : response string * requests :=
  let '(r, c') := MovieRequestsDAO.deactivateRequest id user c in
  (reply_count modifiedCount r, c').

Definition accept_filters (b : accept_body) : movie_filters :=
  {| mf_title := ab_title b; mf_year := ab_year b; mf_rated := ab_rated b;
     mf_genres := head (ab_genres b) |}.

Definition apiAcceptRequest `{MovieSearch M} (b : accept_body) (movies : M) (c : requests)
    : response string * requests :=
  match search_movie_ids movies (accept_filters b) 0 20 with
  | [] => (Status 500 id_undefined_msg, c)
  | mid :: _ =>
      let '(r, c') := MovieRequestsDAO.acceptRequest (ab_id b) (ab_user_id b) mid c in
      (reply_count modifiedCount r, c')
  end.
End MovieRequestsCtrl.

(** ** The lifecycle as a step relation

    One step is one call of a handler that writes to the collection.  The
    accept step is labelled with the ids the movie search returned. *)

Inductive req_op :=
| OpSend (b : send_body) (now : Z) (new_id : oid)
| OpDelete (id user : string)
| OpDeny (id user : string)
| OpDeactivate (id user : string)
| OpAccept (b : accept_body) (found : list oid).

(** The search result of an accept step, as a [MovieSearch] instance. *)
#[global] Instance found_ids_search : MovieSearch (list oid) :=
  {| search_movie_ids := fun found _ _ _ => found |}.

Definition run_op (op : req_op) (c : requests) : response string * requests :=
  match op with
  | OpSend b now i => MovieRequestsCtrl.apiSendRequest b now i c
  | OpDelete id user => MovieRequestsCtrl.apiDeleteRequest id user c
  | OpDeny id user => MovieRequestsCtrl.apiDenyRequest id user c
  | OpDeactivate id user => MovieRequestsCtrl.apiDeactivateRequest id user c
  | OpAccept b found => MovieRequestsCtrl.apiAcceptRequest b found c
  end.

(** A call either runs to its end, or fails at the database before
    writing (the DAO then returns [{ error }] and nothing changes). *)
Inductive req_step : requests -> req_op -> requests -> Prop :=
| step_run c op : req_step c op (run_op op c).2
| step_fault c op : req_step c op c.

Inductive reachable : requests -> Prop :=
| reach_init : reachable []
| reach_step c op c' : reachable c -> req_step c op c' -> reachable c'.

(** ** Lemmas on the handlers *)

Section HandlerLemmas.
Implicit Types (c : requests) (d : Req.t).

Lemma set_status_id (s : string) d : Req.set_status s d = d <-> Req.status d = s.
Proof. destruct d; unfold Req.set_status; simpl; split; [congruence | by intros ->]. Qed.

Lemma set_active_id (b : bool) d : Req.set_active b d = d <-> Req.active d = b.
Proof. destruct d; unfold Req.set_active; simpl; split; [congruence | by intros ->]. Qed.

Lemma set_accepted_id (m : oid) d :
  Req.set_accepted m d = d <-> Req.status d = "accepted" /\ Req.movie_id d = Some m.
Proof.
  destruct d; unfold Req.set_accepted; simpl.
  split; [intros H; inversion H; auto | by intros [-> ->]].
Qed.

(** The reply of an update handler: "success" exactly when the request
    exists, belongs to the user, and the [$set] changes it. *)
Lemma reply_update (i : oid) (q : Req.t -> bool) (f : Req.t -> Req.t) (m : gmap oid Req.t) :
  MovieRequestsCtrl.reply_count modifiedCount (Ok (map_update_result i q f m))
  = if match m !! i with Some d => q d && negb (bool_decide (f d = d)) | None => false end
    then Json "success" else Json "fail".
Proof.
  unfold map_update_result. destruct (m !! i) as [d|]; [|done].
  destruct (q d); [|done]. simpl. rewrite decide_bool_decide.
  by destruct (bool_decide (f d = d)).
Qed.
End HandlerLemmas.

(** ** Functional behaviour of the handlers *)

(** [status == s] after the [$set] of a deny: the deny changes the request
    exactly when its status is not already "denied". *)
Lemma deny_changes (d : Req.t) :
  bool_decide (Req.set_status "denied" d = d) = (Req.status d =? "denied")%string.
Proof. apply bool_decide_str, set_status_id. Qed.

Lemma deactivate_changes (d : Req.t) :
  bool_decide (Req.set_active false d = d) = negb (Req.active d).
Proof.
  destruct (Req.active d) eqn:E; simpl;
    [apply bool_decide_eq_false | apply bool_decide_eq_true]; rewrite set_active_id; congruence.
Qed.

Lemma accept_changes (m : oid) (d : Req.t) :
  bool_decide (Req.set_accepted m d = d)
  = ((Req.status d =? "accepted")%string && bool_decide (Req.movie_id d = Some m)).
Proof.
  destruct (String.eqb_spec (Req.status d) "accepted"); simpl.
  - apply bool_decide_ext. rewrite set_accepted_id. tauto.
  - apply bool_decide_eq_false. rewrite set_accepted_id. tauto.
Qed.

Lemma reply_delete (i : oid) (q : Req.t -> bool) (m : gmap oid Req.t) :
  MovieRequestsCtrl.reply_count deletedCount (Ok (map_delete_result i q m))
  = if match m !! i with Some d => q d | None => false end
    then Json "success" else Json "fail".
Proof. unfold map_delete_result. destruct (m !! i) as [d|]; [|done]. by destruct (q d). Qed.

(** Decomposes a handler [let '(r, c') := dao in (reply r, c')] against
    the refinement lemma of its DAO call. *)
Ltac handler_refines H :=
  let r := fresh "r" in let c' := fresh "c'" in let E := fresh "E" in
  destruct H as [?H1 ?H2];
  match goal with
  | |- context [let '(_, _) := ?call in _] => destruct call as [r c'] eqn:E
  end; simpl in *; subst r.

(** ** Sample data for the witnesses *)

Definition sample_id : string := "5f1d3c2b4a69788796a5b4c3".
Definition sample_user : string := "ann@example.com".

Definition sample_request (st : string) : Req.t :=
  Req.mk "Cosmos" (Some 1980%Z) "A journey through the universe." ["Documentary"]
    (Some 60%Z) (DateArgs 1980 8 28) "TV-PG" (TimeValue 0) "movie" sample_user st true None.

Definition sample_requests : requests := [(sample_id, sample_request "pending")].

Lemma sample_wf : wf sample_requests.
Proof. apply NoDup_singleton. Defined.

Lemma sample_id_ok : ObjectId sample_id = Ok sample_id.
Proof. reflexivity. Defined.

(** C2: [apiDenyRequest] (PUT /movies/denyRequest) on a well-formed id
    sets the status of the request to "denied" when it exists and belongs
    to the given user, changes nothing else, and answers "success" exactly
    when the request existed, was the user's and was not already denied. *)
Theorem apiDenyRequest_spec (id user : string) (c : requests) (i : oid) :
  wf c -> ObjectId id = Ok i ->
  view (MovieRequestsCtrl.apiDenyRequest id user c).2
    = map_update_if i (owned_by user) (Req.set_status "denied") (view c) /\
  (MovieRequestsCtrl.apiDenyRequest id user c).1
    = if match view c !! i with
         | Some d => owned_by user d && negb (Req.status d =? "denied")%string
         | None => false
         end
      then Json "success" else Json "fail".
Proof.
  intros Hwf Hid. unfold MovieRequestsCtrl.apiDenyRequest, MovieRequestsDAO.denyRequest, MovieRequestsDAO.update_request.
  handler_refines (update_by_id_refines id (owned_by user) (Req.set_status "denied") c i Hwf Hid).
  split; [done|]. rewrite reply_update.
  destruct (view c !! i) as [d|]; [|done]. by rewrite deny_changes.
Qed.

Lemma apiDenyRequest_spec_witness :
  wf sample_requests /\ ObjectId sample_id = Ok sample_id /\
  (MovieRequestsCtrl.apiDenyRequest sample_id sample_user sample_requests).1 = Json "success".
Proof.
  split; [exact sample_wf|]. split; [exact sample_id_ok|].
  destruct (apiDenyRequest_spec sample_id sample_user sample_requests sample_id
              sample_wf sample_id_ok) as [_ H].
  rewrite H. reflexivity.
Defined.

(** C7: [apiDeactivateRequest] (PUT /movies/deactivateRequest) clears the
    [active] flag of the user's request and nothing else, and answers
    "success" exactly when the request existed, was the user's and was
    still active. *)
Theorem apiDeactivateRequest_spec (id user : string) (c : requests) (i : oid) :
  wf c -> ObjectId id = Ok i ->
  view (MovieRequestsCtrl.apiDeactivateRequest id user c).2
    = map_update_if i (owned_by user) (Req.set_active false) (view c) /\
  (MovieRequestsCtrl.apiDeactivateRequest id user c).1
    = if match view c !! i with
         | Some d => owned_by user d && Req.active d
         | None => false
         end
      then Json "success" else Json "fail".
Proof.
  intros Hwf Hid. unfold MovieRequestsCtrl.apiDeactivateRequest, MovieRequestsDAO.deactivateRequest,
    MovieRequestsDAO.update_request.
  handler_refines (update_by_id_refines id (owned_by user) (Req.set_active false) c i Hwf Hid).
  split; [done|]. rewrite reply_update.
  destruct (view c !! i) as [d|]; [|done]. rewrite deactivate_changes. by rewrite negb_involutive.
Qed.

Lemma apiDeactivateRequest_spec_witness :
  wf sample_requests /\ ObjectId sample_id = Ok sample_id /\
  (MovieRequestsCtrl.apiDeactivateRequest sample_id sample_user sample_requests).1 = Json "success".
Proof.
  split; [exact sample_wf|]. split; [exact sample_id_ok|].
  destruct (apiDeactivateRequest_spec sample_id sample_user sample_requests sample_id
              sample_wf sample_id_ok) as [_ H].
  rewrite H. reflexivity.
Defined.

(** C3: [apiDeleteRequest] (DELETE /movies/deleteRequest) removes the
    request only when its [user_id] is the one given, and answers
    "success" exactly when it removed it. *)
Theorem apiDeleteRequest_spec (id user : string) (c : requests) (i : oid) :
  wf c -> ObjectId id = Ok i ->
  view (MovieRequestsCtrl.apiDeleteRequest id user c).2 = map_delete_if i (owned_by user) (view c) /\
  (MovieRequestsCtrl.apiDeleteRequest id user c).1
    = if match view c !! i with Some d => owned_by user d | None => false end
      then Json "success" else Json "fail".
Proof.
  intros Hwf Hid. unfold MovieRequestsCtrl.apiDeleteRequest, MovieRequestsDAO.deleteRequest.
  handler_refines (delete_by_id_refines id (owned_by user) c i Hwf Hid).
  split; [done|]. by rewrite reply_delete.
Qed.

Lemma apiDeleteRequest_spec_witness :
  wf sample_requests /\ ObjectId sample_id = Ok sample_id /\
  (MovieRequestsCtrl.apiDeleteRequest sample_id "eve@example.com" sample_requests).1 = Json "fail".
Proof.
  split; [exact sample_wf|]. split; [exact sample_id_ok|].
  destruct (apiDeleteRequest_spec sample_id "eve@example.com" sample_requests sample_id
              sample_wf sample_id_ok) as [_ H].
  rewrite H. reflexivity.
Defined.

(** C4: [apiAcceptRequest] (PUT /movies/acceptRequest) answers 500 and
    changes nothing when the movie search finds no movie; otherwise it
    sets the user's request to "accepted" with [movie_id] the first movie
    found, and answers "success" exactly when the request existed, was
    the user's and was not already accepted with that movie. *)
Theorem apiAcceptRequest_spec `{MovieSearch M} (b : accept_body) (movies : M) (c : requests) (i : oid) :
  wf c -> ObjectId (ab_id b) = Ok i ->
  match search_movie_ids movies (MovieRequestsCtrl.accept_filters b) 0 20 with
  | [] => MovieRequestsCtrl.apiAcceptRequest b movies c = (Status 500 id_undefined_msg, c)
  | mid :: _ =>
      view (MovieRequestsCtrl.apiAcceptRequest b movies c).2
        = map_update_if i (owned_by (ab_user_id b)) (Req.set_accepted mid) (view c) /\
      (MovieRequestsCtrl.apiAcceptRequest b movies c).1
        = if match view c !! i with
             | Some d => owned_by (ab_user_id b) d &&
                         negb ((Req.status d =? "accepted")%string && bool_decide (Req.movie_id d = Some mid))
             | None => false
             end
          then Json "success" else Json "fail"
  end.
Proof.
  intros Hwf Hid. unfold MovieRequestsCtrl.apiAcceptRequest.
  destruct (search_movie_ids movies _ 0 20) as [|mid found]; [done|].
  unfold MovieRequestsDAO.acceptRequest, MovieRequestsDAO.update_request.
  handler_refines (update_by_id_refines (ab_id b) (owned_by (ab_user_id b)) (Req.set_accepted mid) c i Hwf Hid).
  split; [done|]. rewrite reply_update.
  destruct (view c !! i) as [d|]; [|done]. by rewrite accept_changes.
Qed.

Definition sample_accept : accept_body :=
  {| ab_id := sample_id; ab_user_id := sample_user; ab_title := "Cosmos";
     ab_year := Some 1980%Z; ab_genres := ["Documentary"]; ab_rated := "TV-PG" |}.

Lemma apiAcceptRequest_spec_witness :
  wf sample_requests /\ ObjectId (ab_id sample_accept) = Ok sample_id /\
  (MovieRequestsCtrl.apiAcceptRequest sample_accept ["60aa00000000000000000001"] sample_requests).1
    = Json "success".
Proof.
  split; [exact sample_wf|]. split; [exact sample_id_ok|].
  pose proof (apiAcceptRequest_spec sample_accept ["60aa00000000000000000001"] sample_requests
                sample_id sample_wf sample_id_ok) as H.
  simpl in H. destruct H as [_ H]. rewrite H. reflexivity.
Defined.

(** ** One step of the lifecycle, document by document *)

(** The [$set] an operation applies to its target, and the raw id of the
    target. *)
Definition op_update (op : req_op) : option (Req.t -> Req.t) :=
  match op with
  | OpDeny _ _ => Some (Req.set_status "denied")
  | OpDeactivate _ _ => Some (Req.set_active false)
  | OpAccept _ (mid :: _) => Some (Req.set_accepted mid)
  | _ => None
  end.

Definition op_target (op : req_op) : option string :=
  match op with
  | OpDeny id _ | OpDeactivate id _ | OpDelete id _ => Some id
  | OpAccept b _ => Some (ab_id b)
  | OpSend _ _ _ => None
  end.

Lemma handler_state {A B C} (x : A * B) (f : A -> C) :
  (let '(r, c') := x in (f r, c')).2 = x.2.
Proof. by destruct x. Qed.

Lemma step_wf (c c' : requests) (op : req_op) : wf c -> req_step c op c' -> wf c'.
Proof.
  intros Hwf Hs. destruct Hs as [c op|]; [|done].
  destruct op as [b now i|id user|id user|id user|b [|mid found]]; simpl;
    unfold MovieRequestsCtrl.apiSendRequest, MovieRequestsCtrl.apiDeleteRequest,
      MovieRequestsCtrl.apiDenyRequest, MovieRequestsCtrl.apiDeactivateRequest,
      MovieRequestsCtrl.apiAcceptRequest, MovieRequestsDAO.deleteRequest,
      MovieRequestsDAO.denyRequest, MovieRequestsDAO.deactivateRequest,
      MovieRequestsDAO.acceptRequest, MovieRequestsDAO.update_request; simpl; rewrite ?handler_state.
  - destruct (sb_released b); [|done]. rewrite handler_state. by apply wf_insert_one.
  - by apply wf_delete_by_id.
  - by apply wf_update_by_id.
  - by apply wf_update_by_id.
  - done.
  - by apply wf_update_by_id.
Qed.

#[local] Hint Resolve step_wf : moviedb.

(** What a lookup after one step sees: the old document, the [$set] of the
    operation applied to its target, or the new request of a send. *)
Lemma step_lookup (c c' : requests) (op : req_op) (j : oid) (d' : Req.t) :
  wf c -> req_step c op c' -> view c' !! j = Some d' ->
  view c !! j = Some d' \/
  (exists d f id, view c !! j = Some d /\ op_update op = Some f /\ op_target op = Some id /\
                  ObjectId id = Ok j /\ d' = f d) \/
  (exists b now rel, op = OpSend b now j /\ sb_released b = Some rel /\ view c !! j = None /\
                     d' = MovieRequestsCtrl.requestInfo b rel now).
Proof.
  intros Hwf Hs. destruct Hs as [c op|]; [|auto].
  destruct op as [b now i|id user|id user|id user|b [|mid found]]; simpl;
    unfold MovieRequestsCtrl.apiSendRequest, MovieRequestsCtrl.apiDeleteRequest,
      MovieRequestsCtrl.apiDenyRequest, MovieRequestsCtrl.apiDeactivateRequest,
      MovieRequestsCtrl.apiAcceptRequest, MovieRequestsDAO.deleteRequest,
      MovieRequestsDAO.denyRequest, MovieRequestsDAO.deactivateRequest,
      MovieRequestsDAO.acceptRequest, MovieRequestsDAO.update_request; simpl; rewrite ?handler_state.
  - destruct (sb_released b) as [rel|] eqn:Hrel; [|auto]. rewrite handler_state.
    unfold MovieRequestsDAO.addRequest. rewrite insert_one_view. case_decide as Hin; [auto|].
    destruct (decide (i = j)) as [<-|Hne].
    + rewrite lookup_insert_eq. intros [= <-]. right; right.
      exists b, now, rel. split_and!; auto. by apply view_not_in.
    + rewrite lookup_insert_ne by done. auto.
  - intros H. left. by eapply delete_by_id_lookup.
  - intros H. apply (update_by_id_lookup _ _ _ c j d' Hwf) in H as [H|(d & Hid & H & _ & ->)]; [auto|].
    right; left. by exists d, (Req.set_status "denied"), id.
  - intros H. apply (update_by_id_lookup _ _ _ c j d' Hwf) in H as [H|(d & Hid & H & _ & ->)]; [auto|].
    right; left. by exists d, (Req.set_active false), id.
  - auto.
  - intros H. apply (update_by_id_lookup _ _ _ c j d' Hwf) in H as [H|(d & Hid & H & _ & ->)]; [auto|].
    right; left. by exists d, (Req.set_accepted mid), (ab_id b).
Qed.

(** ** Invariants over reachable collections *)

Lemma view_nil : view ([] : requests) = ∅.
Proof. reflexivity. Qed.

(** A property of single documents that every new request has and every
    [$set] keeps holds of every document of a reachable collection. *)
Section DocInvariant.
Variable P : Req.t -> Prop.
Hypothesis P_send : forall b rel now, P (MovieRequestsCtrl.requestInfo b rel now).
Hypothesis P_update : forall op f d, op_update op = Some f -> P d -> P (f d).

Lemma reachable_doc_inv (c : requests) :
  reachable c -> wf c /\ forall j d, view c !! j = Some d -> P d.
Proof.
  induction 1 as [|c op c' Hr [Hwf IH] Hs].
  - split; [constructor|]. intros j d. by rewrite view_nil, lookup_empty.
  - split; [eauto using step_wf|]. intros j d' H.
    destruct (step_lookup c c' op j d' Hwf Hs H)
      as [H'|[(d & f & id & Hd & Hf & _ & _ & ->)|(b & now & rel & _ & _ & _ & ->)]]; eauto.
Qed.
End DocInvariant.

(** In every collection reachable through the handlers the [_id]s of
    the requests are unique. *)
Lemma reachable_wf (c : requests) : reachable c -> wf c.
Proof. intros Hr. by apply (reachable_doc_inv (fun _ => True)). Qed.

Definition sample_send : send_body :=
  {| sb_title := "Cosmos"; sb_year := "1980"; sb_fullplot := "A journey through the universe.";
     sb_genres := ["Documentary"]; sb_runtime := "60"; sb_released := Some "1980-09-28";
     sb_rated := "TV-PG"; sb_user_id := sample_user; sb_status := "pending"; sb_active := true |}.

Lemma sample_reachable : reachable [(sample_id, MovieRequestsCtrl.requestInfo sample_send "1980-09-28" 0)].
Proof. exact (reach_step [] (OpSend sample_send 0 sample_id) _ reach_init (step_run [] _)). Defined.

(** C6: in every reachable collection, a request that carries a
    [movie_id] has the status "accepted" or "denied": only
    [apiAcceptRequest] sets [movie_id], and only a later deny can change
    the status of an accepted request. *)
Theorem reachable_movie_link (c : requests) (j : oid) (d : Req.t) :
  reachable c -> view c !! j = Some d -> Req.movie_id d <> None ->
  Req.status d = "accepted" \/ Req.status d = "denied".
Proof.
  intros Hr. revert j d.
  apply (reachable_doc_inv
           (fun d => Req.movie_id d <> None -> Req.status d = "accepted" \/ Req.status d = "denied"));
    [done | | done].
  intros op f d Hf Hd. destruct op as [| | | |b [|mid found]]; simpl in Hf; inversion Hf; subst;
    simpl; auto.
Qed.

(** A run: a user sends a request, the admin accepts it, then denies it. *)
Definition sample_movie : oid := "60aa00000000000000000001".
Definition trace_sent : requests := (run_op (OpSend sample_send 0 sample_id) []).2.
Definition trace_accepted : requests :=
  (run_op (OpAccept sample_accept [sample_movie]) trace_sent).2.
Definition trace_denied : requests := (run_op (OpDeny sample_id sample_user) trace_accepted).2.

Lemma trace_accepted_reachable : reachable trace_accepted.
Proof.
  apply (reach_step trace_sent (OpAccept sample_accept [sample_movie])); [|constructor].
  apply (reach_step [] (OpSend sample_send 0 sample_id)); constructor.
Defined.

Lemma reachable_movie_link_witness :
  reachable trace_accepted /\
  view trace_accepted !! sample_id = Some (Req.set_accepted sample_movie (MovieRequestsCtrl.requestInfo sample_send "1980-09-28" 0)) /\
  (Req.status (Req.set_accepted sample_movie (MovieRequestsCtrl.requestInfo sample_send "1980-09-28" 0)) = "accepted" \/
   Req.status (Req.set_accepted sample_movie (MovieRequestsCtrl.requestInfo sample_send "1980-09-28" 0)) = "denied").
Proof.
  split; [exact trace_accepted_reachable|]. split; [vm_compute; reflexivity|].
  apply (reachable_movie_link trace_accepted sample_id); [exact trace_accepted_reachable | vm_compute; reflexivity | discriminate].
Defined.

(** ** The lifecycle of the spec, and the frontend's use of the handlers

    The spec (section 3) allows the status to move only from "pending" to
    "denied" or to "accepted".  The admin page
    (src/frontend/src/components/add-movie.js) lists the requests of its
    state [allRequests], the answer of its last [getAllRequests], and
    offers Deny and Accept on those that list shows pending and active;
    the call carries the [_id] and [user_id] of the listed request.  The
    list is reloaded only after a call the page made succeeds, and another
    tab or another admin writes meanwhile, so the list a page acts on is
    the collection as it was at some earlier point of the run.  The
    request form (movie-form.js) always sends status "pending" and active
    [true]. *)

Inductive req_status := Pending | Denied | Accepted.

Definition status_of (s : string) : option req_status :=
  if (s =? "pending")%string then Some Pending
  else if (s =? "denied")%string then Some Denied
  else if (s =? "accepted")%string then Some Accepted
  else None.

Inductive spec_step : req_status -> req_status -> Prop :=
| spec_deny : spec_step Pending Denied
| spec_accept : spec_step Pending Accepted.

(** [request.status == "pending" && request.active] in the page's list
    [shown], for the request the call names. *)
Definition pending_shown (shown : requests) (id user : string) : Prop :=
  forall i, ObjectId id = Ok i ->
  exists d, view shown !! i = Some d /\ Req.status d = "pending" /\ Req.active d = true /\
            Req.user_id d = user.

(** The calls the frontend makes, given the list [shown] the admin page
    displays. *)
Definition ui_op (shown : requests) (op : req_op) : Prop :=
  match op with
  | OpSend b _ _ => sb_status b = "pending" /\ sb_active b = true
  | OpDeny id user => pending_shown shown id user
  | OpAccept b _ => pending_shown shown (ab_id b) (ab_user_id b)
  | OpDelete _ _ | OpDeactivate _ _ => True
  end.

(** Runs of frontend calls: the current collection and every collection
    of the run so far, any of which a page may still display. *)
Inductive ui_reachable : requests -> list requests -> Prop :=
| ui_init : ui_reachable [] [[]]
| ui_next c past shown op c' :
    ui_reachable c past -> shown ∈ past -> ui_op shown op -> req_step c op c' ->
    ui_reachable c' (c' :: past).

Lemma ui_reachable_reachable (c : requests) (past : list requests) : ui_reachable c past -> reachable c.
Proof. induction 1; econstructor; eauto. Qed.

#[local] Hint Resolve ui_reachable_reachable reachable_wf : moviedb.

(** The shape of every request in a collection reached through the
    frontend: a status of the spec, no [movie_id] while pending, and a
    [movie_id] once accepted. *)
Definition ui_shape (d : Req.t) : Prop :=
  status_of (Req.status d) <> None /\
  (Req.status d = "pending" -> Req.movie_id d = None) /\
  (Req.status d = "accepted" -> Req.movie_id d <> None).

(** C5: every request of a collection reached through the frontend's
    calls, stale lists included, has one of the three statuses of the
    spec, has no [movie_id] while pending and has one once accepted. *)
Theorem ui_reachable_shape (c : requests) (past : list requests) (j : oid) (d : Req.t) :
  ui_reachable c past -> view c !! j = Some d -> ui_shape d.
Proof.
  intros Hr. revert j d. induction Hr as [|c past shown op c' Hr IH Hin Hui Hs].
  - intros j d. by rewrite view_nil, lookup_empty.
  - intros j d' H. assert (Hwf : wf c) by eauto with moviedb.
    destruct (step_lookup c c' op j d' Hwf Hs H)
      as [H'|[(d & f & id & Hd & Hf & Ht & Hid & ->)|(b & now & rel & -> & _ & _ & ->)]]; [eauto| |].
    + pose proof (IH j d Hd) as Hsh.
      destruct op as [| |id0 user|id0 user|b [|mid found]]; simpl in Hf; inversion Hf; subst; clear Hf.
      * destruct d; unfold ui_shape, Req.set_status; simpl. split_and!; discriminate.
      * destruct d; exact Hsh.
      * destruct d; unfold ui_shape, Req.set_accepted; simpl. split_and!; discriminate.
    + destruct Hui as [Hp _]. unfold ui_shape; simpl. rewrite Hp. split_and!; [discriminate|done|discriminate].
Qed.

(** C1: refinement of the spec's lifecycle, relative to what the page
    shows.  A frontend call, made from a list the page displays (the
    collection at some earlier point of the run), leaves the status of
    every remaining request unchanged, or moves it to a successor of
    "pending" in [spec_step], and then that request was listed as
    pending by the page.  When the list is current the move is a step of
    the spec; when it is stale the stored status may already have left
    "pending" ([ui_stale_deny_after_accept]). *)
Theorem ui_step_refines_spec (c c' shown : requests) (past : list requests) (op : req_op) (j : oid)
    (d d' : Req.t) :
  ui_reachable c past -> shown ∈ past -> ui_op shown op -> req_step c op c' ->
  view c !! j = Some d -> view c' !! j = Some d' ->
  status_of (Req.status d') = status_of (Req.status d) \/
  (exists s', status_of (Req.status d') = Some s' /\ spec_step Pending s' /\
              exists ds, view shown !! j = Some ds /\ Req.status ds = "pending").
Proof.
  intros Hr Hin Hui Hs Hd Hd'. assert (Hwf : wf c) by eauto with moviedb.
  destruct (step_lookup c c' op j d' Hwf Hs Hd')
    as [H'|[(d0 & f & id & Hd0 & Hf & Ht & Hid & ->)|(b & now & rel & _ & _ & Hn & _)]];
    [left; congruence| |congruence].
  rewrite Hd in Hd0. inversion Hd0; subst d0.
  destruct op as [| |id0 user|id0 user|b [|mid found]]; simpl in Hf, Ht, Hui;
    inversion Hf; inversion Ht; subst; clear Hf Ht.
  - right. exists Denied. destruct (Hui j Hid) as (ds & Hds & Hps & _).
    destruct d; simpl. split_and!; [done|constructor|eauto].
  - left. by destruct d.
  - right. exists Accepted. destruct (Hui j Hid) as (ds & Hds & Hps & _).
    destruct d; simpl. split_and!; [done|constructor|eauto].
Qed.

(** ** Runs *)

Lemma trace_sent_shown : pending_shown trace_sent sample_id sample_user.
Proof.
  intros i Hi. vm_compute in Hi. inversion Hi; subst.
  eexists. split; [vm_compute; reflexivity|]. repeat (split || left); reflexivity.
Defined.

Lemma trace_sent_ui : ui_reachable trace_sent [trace_sent; []].
Proof.
  apply (ui_next [] [[]] [] (OpSend sample_send 0 sample_id)); [constructor | set_solver | split; reflexivity | constructor].
Defined.

Lemma trace_accepted_ui : ui_reachable trace_accepted [trace_accepted; trace_sent; []].
Proof.
  apply (ui_next trace_sent [trace_sent; []] trace_sent (OpAccept sample_accept [sample_movie]));
    [exact trace_sent_ui | set_solver | exact trace_sent_shown | constructor].
Defined.

(** The page still lists the request as pending after its accept: Deny
    moves the stored request from "accepted" to "denied", keeping the
    link to the movie added for it. *)
Example ui_stale_deny_after_accept :
  ui_reachable trace_denied [trace_denied; trace_accepted; trace_sent; []] /\
  (fun d => status_of (Req.status d)) <$> view trace_accepted !! sample_id = Some (Some Accepted) /\
  (fun d => status_of (Req.status d)) <$> view trace_denied !! sample_id = Some (Some Denied) /\
  Req.movie_id <$> view trace_denied !! sample_id = Some (Some sample_movie).
Proof.
  split; [|split_and!; vm_compute; reflexivity].
  apply (ui_next trace_accepted [trace_accepted; trace_sent; []] trace_sent (OpDeny sample_id sample_user));
    [exact trace_accepted_ui | set_solver | exact trace_sent_shown | constructor].
Qed.

Lemma ui_reachable_shape_witness :
  ui_reachable trace_sent [trace_sent; []] /\
  view trace_sent !! sample_id = Some (MovieRequestsCtrl.requestInfo sample_send "1980-09-28" 0) /\
  ui_shape (MovieRequestsCtrl.requestInfo sample_send "1980-09-28" 0).
Proof.
  split; [exact trace_sent_ui|]. split; [vm_compute; reflexivity|].
  apply (ui_reachable_shape trace_sent [trace_sent; []] sample_id); [exact trace_sent_ui | vm_compute; reflexivity].
Defined.

Lemma ui_step_refines_spec_witness :
  ui_reachable trace_sent [trace_sent; []] /\ ui_op trace_sent (OpAccept sample_accept [sample_movie]) /\
  req_step trace_sent (OpAccept sample_accept [sample_movie]) trace_accepted /\
  view trace_sent !! sample_id = Some (MovieRequestsCtrl.requestInfo sample_send "1980-09-28" 0) /\
  view trace_accepted !! sample_id
    = Some (Req.set_accepted sample_movie (MovieRequestsCtrl.requestInfo sample_send "1980-09-28" 0)) /\
  (status_of "accepted" = status_of "pending" \/
   (exists s', status_of "accepted" = Some s' /\ spec_step Pending s' /\
               exists ds, view trace_sent !! sample_id = Some ds /\ Req.status ds = "pending")).
Proof.
  split; [exact trace_sent_ui|]. split; [exact trace_sent_shown|].
  split; [constructor|]. split; [vm_compute; reflexivity|]. split; [vm_compute; reflexivity|].
  exact (ui_step_refines_spec trace_sent trace_accepted trace_sent [trace_sent; []]
           (OpAccept sample_accept [sample_movie]) sample_id _ _ trace_sent_ui
           ltac:(set_solver) trace_sent_shown (step_run _ _)
           ltac:(vm_compute; reflexivity) ltac:(vm_compute; reflexivity)).
Defined.
