(* ===== verification/Reviews.v ===== *)
(** * Reviews: the reviews collection and its handlers

    Models src/backend/dao/reviewsDAO.js (Module [ReviewsDAO]) and
    src/backend/api/reviews.controller.js (Module [ReviewsCtrl]) over the
    [reviews] collection of DocStore, and the two loops of the profile page
    (src/frontend/src/components/profile-auth0.js) that rename or delete
    all the reviews of a user.  A review is owned by the [user_id] (the
    e-mail) it was written under: edit and delete filter on it, the rename
    of the displayed user name does not.  The handlers that write form
    the step relation [rev_step]; the safety theorems say who can change
    or remove a review, and the loop theorems what the profile page
    leaves behind, in whatever order its unawaited calls land. *)

From S2P Require Import Prelude DocStore JsCore.
From stdpp Require Import sorting.

(** ** The review document *)

Module Rev.
Record t := mk {
  name : string;
  user_id : string;
  date : js_date;
  text : string;
  num_stars : Z;
  movie_id : oid
}.

#[global] Instance eq_dec : EqDecision t.
Proof. solve_decision. Defined.

(** [{ $set: { text: text, date: date, num_stars: stars } }] *)
Definition set_review (txt : string) (dt : js_date) (stars : Z) (d : t) : t :=
  mk (name d) (user_id d) dt txt stars (movie_id d).

(** [{ $set: { name: newUserName } }] *)
Definition set_name (n : string) (d : t) : t :=
  mk n (user_id d) (date d) (text d) (num_stars d) (movie_id d).
End Rev.

Abbreviation reviews := (collection Rev.t).

(** The filter [{ user_id: userId, _id: ObjectId(reviewId) }]. *)
Definition written_by (userId : string) : Rev.t -> bool :=
  fun d => (Rev.user_id d =? userId)%string.

(** The order of [sort({ num_stars: -1 })]. *)
Definition stars_desc (a b : oid * Rev.t) : Prop := (Rev.num_stars b.2 <= Rev.num_stars a.2)%Z.

#[global] Instance stars_desc_dec : RelDecision stars_desc.
Proof. intros a b. unfold stars_desc. apply _. Defined.

(** The body of [res.json({ status: "success" })]. *)
Record status_obj := { status_field : string }.
Definition status_success : status_obj := {| status_field := "success" |}.

(** ** ReviewsDAO (src/backend/dao/reviewsDAO.js) *)

Module ReviewsDAO.
(** [ObjectId(movieId)] is evaluated while the document is built,
    inside the [try]. *)
Definition addReviews (new_id : oid) (movieId : string) (user_name user_id : string)
    (review : string) (stars : Z) (date : js_date) (c : reviews) : result insert_result * reviews :=
  match ObjectId movieId with
  | Err e => (Err e, c)
  | Ok m => insert_one new_id (Rev.mk user_name user_id date review stars m) c
  end.

Definition editReview (reviewId userId txt : string) (stars : Z) (date : js_date) (c : reviews)
    : result update_result * reviews :=
  update_by_id reviewId (written_by userId) (Rev.set_review txt date stars) c.

Definition deleteReview (reviewId userId : string) (c : reviews) : result delete_result * reviews :=
  delete_by_id reviewId (written_by userId) c.

Definition getReviewsByUser (userId : string) (c : reviews) : reviews :=
  merge_sort stars_desc (DocStore.find (fun _ d => written_by userId d) c).

(** The [catch] of this method returns nothing, so its caller receives
    [undefined] ([None]). *)
Definition editReviewUserName (reviewId newUserName : string) (c : reviews)
    : option update_result * reviews :=
  let '(r, c') := update_by_id reviewId (fun _ => true) (Rev.set_name newUserName) c in
  (match r with Ok u => Some u | Err _ => None end, c').
End ReviewsDAO.

(** ** ReviewsCtrl (src/backend/api/reviews.controller.js) *)

(** [req.body] of POST /movies/reviews. *)
Record add_body := {
  ar_movie_id : string;
  ar_text : string;
  ar_stars : Z;
  ar_name : string;
  ar_user_id : string
}.

(** [req.body] of PUT /movies/reviews. *)
Record edit_body := {
  er_user_id : string;
  er_review_id : string;
  er_stars : Z;
  er_text : string
}.

Definition edit_error_msg : string := "Unable to edit review as user may not be original poster.".

Module ReviewsCtrl.
(** The result of the DAO is not inspected: the answer is always
    [{ status: "success" }]. *)
Definition apiAddReview (b : add_body) (now : Z) (new_id : oid) (c : reviews)
    : response status_obj * reviews :=
  let '(_, c') := ReviewsDAO.addReviews new_id (ar_movie_id b) (ar_name b) (ar_user_id b)
                    (ar_text b) (ar_stars b) (TimeValue now) c in
  (Json status_success, c').

(** Only the [error] field of the DAO's answer is inspected. *)
Definition apiEditReview (b : edit_body) (now : Z) (c : reviews) : response status_obj * reviews :=
  let '(r, c') := ReviewsDAO.editReview (er_review_id b) (er_user_id b) (er_text b) (er_stars b)
                    (TimeValue now) c in
  match r with
  | Err _ => (Status 500 edit_error_msg, c')
  | Ok _ => (Json status_success, c')
  end.

(** [user_id] from the body, [id] from the query string. *)
Definition apiDeleteReview (user_id id : string) (c : reviews) : response status_obj * reviews :=
  let '(_, c') := ReviewsDAO.deleteReview id user_id c in (Json status_success, c').

Definition apiGetUserReviews (user_id : string) (c : reviews) : response reviews :=
  Json (ReviewsDAO.getReviewsByUser user_id c).

Definition apiEditReviewUserName (review_id newUserName : string) (c : reviews)
    : response (option update_result) * reviews :=
  let '(r, c') := ReviewsDAO.editReviewUserName review_id newUserName c in (Json r, c').
End ReviewsCtrl.

(** ** The handlers that write, as a step relation *)

Inductive rev_op :=
| OpAddReview (b : add_body) (now : Z) (new_id : oid)
| OpEditReview (b : edit_body) (now : Z)
| OpDeleteReview (user_id id : string)
| OpRenameReview (review_id newUserName : string).

Definition run_rev_op (op : rev_op) (c : reviews) : reviews :=
  match op with
  | OpAddReview b now i => (ReviewsCtrl.apiAddReview b now i c).2
  | OpEditReview b now => (ReviewsCtrl.apiEditReview b now c).2
  | OpDeleteReview u id => (ReviewsCtrl.apiDeleteReview u id c).2
  | OpRenameReview id n => (ReviewsCtrl.apiEditReviewUserName id n c).2
  end.

(** A call runs to its end, or fails at the database and writes nothing. *)
Inductive rev_step : reviews -> rev_op -> reviews -> Prop :=
| rev_run c op : rev_step c op (run_rev_op op c)
| rev_fault c op : rev_step c op c.

Inductive rev_reachable : reviews -> Prop :=
| rev_init : rev_reachable []
| rev_next c op c' : rev_reachable c -> rev_step c op c' -> rev_reachable c'.

Lemma pair_state {A B C} (x : A * B) (f : A -> C) :
  (let '(r, c') := x in (f r, c')).2 = x.2.
Proof. by destruct x. Qed.

Lemma drop_state {A B C} (x : A * B) (y : C) :
  (let '(_, c') := x in (y, c')).2 = x.2.
Proof. by destruct x. Qed.

Lemma edit_state (x : result update_result * reviews) :
  (let '(r, c') := x in
   match r with Err _ => (Status 500 edit_error_msg, c') | Ok _ => (Json status_success, c') end).2
  = x.2.
Proof. destruct x as [[] ?]; done. Qed.

Lemma rename_state (x : result update_result * reviews) :
  (let '(r, c') := x in (match r with Ok u => Some u | Err _ => None end, c')).2 = x.2.
Proof. by destruct x. Qed.

(** The collection after each handler, as the DocStore operation it runs. *)
Lemma run_rev_op_eq (op : rev_op) (c : reviews) :
  run_rev_op op c =
  match op with
  | OpAddReview b now i =>
      match ObjectId (ar_movie_id b) with
      | Err _ => c
      | Ok m => (insert_one i (Rev.mk (ar_name b) (ar_user_id b) (TimeValue now) (ar_text b) (ar_stars b) m) c).2
      end
  | OpEditReview b now =>
      (update_by_id (er_review_id b) (written_by (er_user_id b))
         (Rev.set_review (er_text b) (TimeValue now) (er_stars b)) c).2
  | OpDeleteReview u id => (delete_by_id id (written_by u) c).2
  | OpRenameReview id n => (update_by_id id (fun _ => true) (Rev.set_name n) c).2
  end.
Proof.
  destruct op; simpl; unfold ReviewsCtrl.apiAddReview, ReviewsCtrl.apiEditReview,
    ReviewsCtrl.apiDeleteReview, ReviewsCtrl.apiEditReviewUserName,
    ReviewsDAO.addReviews, ReviewsDAO.editReview, ReviewsDAO.deleteReview,
    ReviewsDAO.editReviewUserName.
  - rewrite drop_state. by destruct (ObjectId _).
  - by rewrite edit_state.
  - by rewrite drop_state.
  - rewrite pair_state. by rewrite rename_state.
Qed.

Lemma rev_step_wf (c c' : reviews) (op : rev_op) : wf c -> rev_step c op c' -> wf c'.
Proof.
  intros Hwf Hs. destruct Hs as [c op|]; [|done]. rewrite run_rev_op_eq.
  destruct op as [b now i|b now|u id|id n].
  - destruct (ObjectId _); [by apply wf_insert_one | done].
  - by apply wf_update_by_id.
  - by apply wf_delete_by_id.
  - by apply wf_update_by_id.
Qed.

(** What a lookup after one step sees: the old review, the author's edit,
    a rename, or the new review of an add. *)
Lemma rev_step_lookup (c c' : reviews) (op : rev_op) (j : oid) (d' : Rev.t) :
  wf c -> rev_step c op c' -> view c' !! j = Some d' ->
  view c !! j = Some d' \/
  (exists b now d, op = OpEditReview b now /\ ObjectId (er_review_id b) = Ok j /\ view c !! j = Some d /\
     Rev.user_id d = er_user_id b /\ d' = Rev.set_review (er_text b) (TimeValue now) (er_stars b) d) \/
  (exists id n d, op = OpRenameReview id n /\ ObjectId id = Ok j /\ view c !! j = Some d /\
     d' = Rev.set_name n d) \/
  (exists b now, op = OpAddReview b now j /\ view c !! j = None).
Proof.
  intros Hwf Hs. destruct Hs as [c op|]; [|auto]. rewrite run_rev_op_eq.
  destruct op as [b now i|b now|u id|id n]; intros H.
  - destruct (ObjectId _) as [m|]; [|auto]. rewrite insert_one_view in H.
    case_decide as Hin; [auto|]. destruct (decide (i = j)) as [<-|Hne].
    + right; right; right. exists b, now. split; [done|]. by apply view_not_in.
    + rewrite lookup_insert_ne in H by done. auto.
  - apply (update_by_id_lookup _ _ _ c j d' Hwf) in H as [H|(d & Hid & H & Hq & ->)]; [auto|].
    right; left. exists b, now, d. split_and!; auto. by apply str_eqb_true.
  - left. by eapply delete_by_id_lookup.
  - apply (update_by_id_lookup _ _ _ c j d' Hwf) in H as [H|(d & Hid & H & _ & ->)]; [auto|].
    right; right; left. by exists id, n, d.
Qed.

(** ** Sample data *)

Definition sample_review_id : string := "60bb00000000000000000001".
Definition sample_movie_id : string := "60aa00000000000000000001".

Definition sample_review : Rev.t :=
  Rev.mk "ann" "ann@example.com" (TimeValue 0) "Great." 5 sample_movie_id.

Definition sample_reviews : reviews := [(sample_review_id, sample_review)].

Lemma sample_reviews_wf : wf sample_reviews.
Proof. apply NoDup_singleton. Defined.

(** ** Who can change or remove a review *)

(** C8: a step keeps the author and the movie of every review it does not
    remove, and changes its text, stars or date only when it is an edit
    sent under the review's own [user_id]. *)
Theorem review_content_changed_only_by_author (c c' : reviews) (op : rev_op) (j : oid) (d d' : Rev.t) :
  wf c -> rev_step c op c' -> view c !! j = Some d -> view c' !! j = Some d' ->
  Rev.user_id d' = Rev.user_id d /\ Rev.movie_id d' = Rev.movie_id d /\
  ((Rev.text d', Rev.num_stars d', Rev.date d') <> (Rev.text d, Rev.num_stars d, Rev.date d) ->
   exists b now, op = OpEditReview b now /\ er_user_id b = Rev.user_id d).
Proof.
  intros Hwf Hs Hd Hd'.
  destruct (rev_step_lookup c c' op j d' Hwf Hs Hd')
    as [H|[(b & now & d0 & -> & Hid & H & Hu & ->)|[(id & n & d0 & -> & Hid & H & ->)|(b & now & -> & H)]]];
    rewrite Hd in H; inversion H; subst.
  - split_and!; [done|done|]. by intros [].
  - destruct d0; simpl in *. split_and!; [done|done|]. intros _. eauto.
  - destruct d0; simpl. split_and!; [done|done|]. by intros [].
Qed.

(** The author's own edit of the sample review. *)
Definition sample_own_edit : edit_body :=
  {| er_user_id := "ann@example.com"; er_review_id := sample_review_id; er_stars := 2; er_text := "Meh." |}.

Lemma review_content_changed_only_by_author_witness :
  let op := OpEditReview sample_own_edit 7 in
  let d' := Rev.set_review "Meh." (TimeValue 7) 2 sample_review in
  view (run_rev_op op sample_reviews) !! sample_review_id = Some d' /\
  Rev.user_id d' = Rev.user_id sample_review /\ Rev.movie_id d' = Rev.movie_id sample_review /\
  ((Rev.text d', Rev.num_stars d', Rev.date d') <> (Rev.text sample_review, Rev.num_stars sample_review, Rev.date sample_review) ->
   exists b now, op = OpEditReview b now /\ er_user_id b = Rev.user_id sample_review).
Proof.
  intros op d'. assert (Hl : view (run_rev_op op sample_reviews) !! sample_review_id = Some d')
    by (vm_compute; reflexivity).
  split; [exact Hl|].
  exact (review_content_changed_only_by_author sample_reviews (run_rev_op op sample_reviews) op
           sample_review_id sample_review d' sample_reviews_wf (rev_run _ _) eq_refl Hl).
Defined.

(** C9: a review disappears only through a delete sent under its own
    [user_id] and naming its id. *)
Theorem review_removed_only_by_author (c c' : reviews) (op : rev_op) (j : oid) (d : Rev.t) :
  wf c -> rev_step c op c' -> view c !! j = Some d -> view c' !! j = None ->
  exists id, op = OpDeleteReview (Rev.user_id d) id /\ ObjectId id = Ok j.
Proof.
  intros Hwf Hs Hd. destruct Hs as [c op|]; [|congruence]. rewrite run_rev_op_eq.
  destruct op as [b now i|b now|u id|id n]; intros H.
  - destruct (ObjectId _); [|congruence]. by rewrite (insert_one_lookup_old _ _ _ d c Hd) in H.
  - destruct (update_by_id_is_Some (er_review_id b) (written_by (er_user_id b))
                (Rev.set_review (er_text b) (TimeValue now) (er_stars b)) c j Hwf) as [x Hx];
      [by eexists|congruence].
  - destruct (delete_by_id_removed id (written_by u) c j d Hwf Hd H) as [Hid Hu].
    apply str_eqb_true in Hu. subst u. by exists id.
  - destruct (update_by_id_is_Some id (fun _ => true) (Rev.set_name n) c j Hwf) as [x Hx];
      [by eexists|congruence].
Qed.

Lemma review_removed_only_by_author_witness :
  let op := OpDeleteReview "ann@example.com" sample_review_id in
  view (run_rev_op op sample_reviews) !! sample_review_id = None /\
  exists id, op = OpDeleteReview (Rev.user_id sample_review) id /\ ObjectId id = Ok sample_review_id.
Proof.
  intros op. assert (Hl : view (run_rev_op op sample_reviews) !! sample_review_id = None)
    by (vm_compute; reflexivity).
  split; [exact Hl|].
  exact (review_removed_only_by_author sample_reviews (run_rev_op op sample_reviews) op
           sample_review_id sample_review sample_reviews_wf (rev_run _ _) eq_refl Hl).
Defined.

(** ** Functional behaviour of the handlers *)

(** C10: [apiEditReview] (PUT /movies/reviews) on a well-formed id applies
    the edit only when the review was written under the given [user_id],
    and answers [{ status: "success" }] in every case: an edit by someone
    else changes nothing and is still reported as a success; the 500 with
    "user may not be original poster" is sent only for a malformed id. *)
Theorem apiEditReview_spec (b : edit_body) (now : Z) (c : reviews) :
  wf c ->
  match ObjectId (er_review_id b) with
  | Ok i =>
      (ReviewsCtrl.apiEditReview b now c).1 = Json status_success /\
      view (ReviewsCtrl.apiEditReview b now c).2
        = map_update_if i (written_by (er_user_id b)) (Rev.set_review (er_text b) (TimeValue now) (er_stars b)) (view c)
  | Err _ => ReviewsCtrl.apiEditReview b now c = (Status 500 edit_error_msg, c)
  end.
Proof.
  intros Hwf. unfold ReviewsCtrl.apiEditReview, ReviewsDAO.editReview.
  destruct (ObjectId (er_review_id b)) as [i|e] eqn:Hid.
  - destruct (update_by_id_refines (er_review_id b) (written_by (er_user_id b))
                (Rev.set_review (er_text b) (TimeValue now) (er_stars b)) c i Hwf Hid) as [H1 H2].
    destruct (update_by_id _ _ _ _) as [r c'] eqn:E. simpl in *. by subst r.
  - by rewrite (update_by_id_bad_id _ _ _ c e Hid).
Qed.

(** An edit by another user. *)
Definition sample_foreign_edit : edit_body :=
  {| er_user_id := "eve@example.com"; er_review_id := sample_review_id; er_stars := 1; er_text := "Bad." |}.

Lemma apiEditReview_spec_witness :
  wf sample_reviews /\
  (ReviewsCtrl.apiEditReview sample_foreign_edit 7 sample_reviews).1 = Json status_success /\
  view (ReviewsCtrl.apiEditReview sample_foreign_edit 7 sample_reviews).2
    = map_update_if sample_review_id (written_by "eve@example.com")
        (Rev.set_review "Bad." (TimeValue 7) 1) (view sample_reviews) /\
  (ReviewsCtrl.apiEditReview sample_foreign_edit 7 sample_reviews).2 = sample_reviews.
Proof.
  pose proof (apiEditReview_spec sample_foreign_edit 7 sample_reviews sample_reviews_wf) as H.
  change (ObjectId (er_review_id sample_foreign_edit)) with (@Ok oid sample_review_id) in H.
  destruct H as [H1 H2].
  split_and!; [exact sample_reviews_wf|exact H1|exact H2|vm_compute; reflexivity].
Defined.

(** C14: [apiAddReview] (POST /movies/reviews) answers
    [{ status: "success" }] even when the review is not stored: with a
    [movie_id] that is no ObjectId the DAO throws, and the collection is
    left as it was. *)
Theorem apiAddReview_bad_movie_id (b : add_body) (now : Z) (new_id : oid) (c : reviews) (e : js_error) :
  ObjectId (ar_movie_id b) = Err e ->
  ReviewsCtrl.apiAddReview b now new_id c = (Json status_success, c).
Proof. intros He. unfold ReviewsCtrl.apiAddReview, ReviewsDAO.addReviews. by rewrite He. Qed.

Definition sample_add_bad : add_body :=
  {| ar_movie_id := "not-a-movie"; ar_text := "Great."; ar_stars := 5; ar_name := "ann";
     ar_user_id := "ann@example.com" |}.

Lemma apiAddReview_bad_movie_id_witness :
  (exists e, ObjectId (ar_movie_id sample_add_bad) = Err e) /\
  ReviewsCtrl.apiAddReview sample_add_bad 7 sample_review_id [] = (Json status_success, []).
Proof.
  split; [eexists; reflexivity|].
  apply (apiAddReview_bad_movie_id _ _ _ _
           (BSONTypeError "Argument passed in must be a single String of 12 bytes or a string of 24 hex characters")).
  reflexivity.
Defined.

#[global] Instance stars_desc_total : Total stars_desc.
Proof. intros a b. unfold stars_desc. lia. Qed.

(** C13: [getReviewsByUser] (GET /movies/userReviews) returns exactly the
    reviews written under the given [user_id], each once, ordered by
    decreasing [num_stars]. *)
Theorem getReviewsByUser_spec (u : string) (c : reviews) :
  wf c ->
  Sorted stars_desc (ReviewsDAO.getReviewsByUser u c) /\
  (forall j d, (j, d) ∈ ReviewsDAO.getReviewsByUser u c <-> view c !! j = Some d /\ Rev.user_id d = u) /\
  NoDup (ids (ReviewsDAO.getReviewsByUser u c)).
Proof.
  intros Hwf. unfold ReviewsDAO.getReviewsByUser.
  destruct (sorted_find_spec stars_desc (fun _ d => written_by u d) c Hwf) as (Hs & Hm & Hw).
  split_and!; [done| |done]. intros j d. rewrite Hm. unfold written_by. by rewrite String.eqb_eq.
Qed.

Definition sample_review2 : Rev.t :=
  Rev.mk "ann" "ann@example.com" (TimeValue 1) "Fine." 3 sample_movie_id.

Definition sample_review3 : Rev.t :=
  Rev.mk "bob" "bob@example.com" (TimeValue 2) "Best." 5 sample_movie_id.

Definition sample_reviews3 : reviews :=
  [("60bb00000000000000000002", sample_review2); ("60bb00000000000000000003", sample_review3);
   (sample_review_id, sample_review)].

Lemma getReviewsByUser_spec_witness :
  wf sample_reviews3 /\
  ReviewsDAO.getReviewsByUser "ann@example.com" sample_reviews3
    = [(sample_review_id, sample_review); ("60bb00000000000000000002", sample_review2)] /\
  Sorted stars_desc (ReviewsDAO.getReviewsByUser "ann@example.com" sample_reviews3).
Proof.
  assert (Hwf : wf sample_reviews3) by (apply (bool_decide_unpack _); vm_compute; exact I).
  split; [exact Hwf|]. split; [vm_compute; reflexivity|].
  exact (proj1 (getReviewsByUser_spec "ann@example.com" sample_reviews3 Hwf)).
Defined.
