(* ===== verification/Movies.v ===== *)
(** * Movies: the movies collection, its queries and its insertion

    Models src/backend/dao/moviesDAO.js (Module [MoviesDAO]: [getMovies],
    [getMoviesByID], [getGenres], [getRated], [addMovie]) and
    src/backend/api/movies.controller.js (Module [MoviesCtrl]) over the
    [movies] collection of DocStore.  [getMovies] builds a query from the
    filters, sorts by [imdb] descending and cuts one page with
    [limit]/[skip]; the theorems give the page it returns, how the pages
    of a search partition the sorted result, and what the out-of-range
    paging arguments do.  The [$text] phrase search is decided by the
    server's text index: it is the interface [TextSearch].  The duplicate
    removal of the same DAO is in Dedup.v. *)

From S2P Require Import Prelude DocStore JsCore Reviews.
From stdpp Require Import sorting.
From Stdlib Require Import QArith.
Close Scope Q_scope.

(** ** The movie document *)

Module Movie.
(** [imdb: { rating, votes, id }] *)
Record imdb_info := mk_imdb {
  rating : js_number;
  votes : js_number;
  imdb_id : js_number
}.

(** The fields the code reads or writes.  [None] is a missing field,
    except for [year] and [runtime], where it is NaN ([parseInt] of a
    non-numeral).  The imported data set carries [lastupdated]; the
    documents written by [apiAddMovie] carry [lastUpdated] instead. *)
Record t := mk {
  title : string;
  year : option Z;
  fullplot : option string;
  genres : option (list string);
  imdb : imdb_info;
  poster : option string;
  runtime : option Z;
  released : js_date;
  rated : option string;
  lastupdated : option string;
  lastUpdated : option Z;
  type : string
}.

#[global] Instance imdb_eq_dec : EqDecision imdb_info.
Proof. solve_decision. Defined.
#[global] Instance eq_dec : EqDecision t.
Proof. solve_decision. Defined.
End Movie.

Abbreviation movies := (collection Movie.t).

(** ** The order of [sort({ imdb: -1 })]

    An embedded document compares field by field, in order; the three
    fields are numbers. *)
Definition imdb_compare (a b : Movie.imdb_info) : comparison :=
  match bson_num_compare (Movie.rating a) (Movie.rating b) with
  | Eq =>
      match bson_num_compare (Movie.votes a) (Movie.votes b) with
      | Eq => bson_num_compare (Movie.imdb_id a) (Movie.imdb_id b)
      | c => c
      end
  | c => c
  end.

(** [a] may come before [b] in the descending order. *)
Definition imdb_desc (a b : oid * Movie.t) : Prop :=
  imdb_compare (Movie.imdb b.2) (Movie.imdb a.2) <> Gt.

#[global] Instance imdb_desc_dec : RelDecision imdb_desc.
Proof. intros a b. unfold imdb_desc. apply _. Defined.

(** ** The query of [getMovies] *)

(** The server's [$text] index: [phrase_match t m] when [m]'s indexed
    fields contain the phrase [t] (the query [{ $search: "\"t\"" }]). *)
Class TextSearch := { phrase_match : string -> Movie.t -> bool }.

(** The year filter as the callers pass it: a query-string value, or the
    number a movie request stores (NaN being [None]). *)
Inductive num_arg :=
| ArgString (s : string)
| ArgNumber (n : option Z).

(** [parseInt(x)]: a number is converted with [String] first, and NaN
    with it ([String(NaN)] is ["NaN"]). *)
Definition parse_num_arg (a : num_arg) : option Z :=
  match a with
  | ArgString s => parseInt s
  | ArgNumber (Some z) => parseInt (number_to_string z)
  | ArgNumber None => parseInt "NaN"
  end.

(** The [filters] object; [None] is a key that is not [in] it.  The genre
    of [apiAcceptRequest] is [req.body.genres[0]], [undefined] (here
    [Some None]) for an empty list. *)
Record filters := {
  f_title : option string;
  f_genres : option (option string);
  f_rated : option string;
  f_year : option num_arg
}.

(** [{ genres: { $eq: g } }] on an array field matches when the array
    contains [g]; [$eq: undefined] is sent as [null], which matches a
    missing field. *)
Definition genres_match (g : option string) (m : Movie.t) : bool :=
  match g, Movie.genres m with
  | Some g, Some gs => bool_decide (g ∈ gs)
  | None, None => true
  | _, _ => false
  end.

Definition filter_match `{TextSearch} (f : filters) (m : Movie.t) : bool :=
  match f_title f with Some t => phrase_match t m | None => true end &&
  match f_genres f with Some g => genres_match g m | None => true end &&
  match f_rated f with Some r => bool_decide (Movie.rated m = Some r) | None => true end &&
  match f_year f with Some y => bool_decide (Movie.year m = parse_num_arg y) | None => true end.

(** [if (filters)]: a null [filters] is the empty query. *)
Definition query_match `{TextSearch} (f : option filters) (m : Movie.t) : bool :=
  match f with Some f => filter_match f m | None => true end.

(** ** The cursor's [limit] and [skip]

    The server skips first and then limits, whatever the order of the
    calls; [limit(0)] is no limit and a negative limit is its absolute
    value; a negative skip is refused by the server, and so is a skip or
    limit that is not an integer (NaN, here [None]).  The error surfaces
    at [toArray()]. *)
Definition skip_limit {A} (limit skip : option Z) (l : list A) : result (list A) :=
  match limit, skip with
  | Some n, Some s =>
      if (s <? 0)%Z then Err (MongoServerError "skip value must be non-negative")
      else
        let l' := drop (Z.to_nat s) l in
        Ok (if (n =? 0)%Z then l' else take (Z.to_nat (Z.abs n)) l')
  | _, _ => Err (MongoServerError "limit and skip must be integers")
  end.

(** [moviesPerPage * (page - 1)] on numbers, NaN propagating. *)
Definition skip_of (moviesPerPage page : option Z) : option Z :=
  match moviesPerPage, page with
  | Some n, Some p => Some (n * (p - 1))%Z
  | _, _ => None
  end.

(** [{ moviesList }] *)
Record movies_list := { moviesList : list (oid * Movie.t) }.

(** [{ _id, movie, reviews }]: the document of [aggregate(pipeline).next()]. *)
Record movie_with_reviews := {
  mr_id : oid;
  mr_movie : Movie.t;
  mr_reviews : list (oid * Rev.t)
}.

(** [$sort: { date: -1 }] on the reviews.  Their dates are all
    [new Date()] values, time values in ms; other forms do not occur in
    the reviews collection and compare as equal. *)
Definition date_desc (a b : oid * Rev.t) : Prop :=
  match Rev.date a.2, Rev.date b.2 with
  | TimeValue x, TimeValue y => (y <= x)%Z
  | _, _ => True
  end.

#[global] Instance date_desc_dec : RelDecision date_desc.
Proof. intros [? [? ? [] ? ? ?]] [? [? ? [] ? ? ?]]; unfold date_desc; simpl; apply _. Defined.

(** The body of POST /movies/addMovie ([req.body]); [year] and
    [runtime] are the numbers of the accepted request, or strings. *)
Record movie_body := {
  mb_title : string;
  mb_year : num_arg;
  mb_fullplot : option string;
  mb_genres : option (list string);
  mb_imdb : option string;
  mb_poster : option string;
  mb_runtime : num_arg;
  mb_released : option string;
  mb_rated : option string
}.

(** ** MoviesDAO (src/backend/dao/moviesDAO.js) *)

Module MoviesDAO.
Section Queries.
Context `{TextSearch}.

(** The matching documents in the order of [sort({ imdb: -1 })]. *)
Definition sorted_matches (f : option filters) (c : movies) : list (oid * Movie.t) :=
  merge_sort imdb_desc (DocStore.find (fun _ m => query_match f m) c).

Definition getMovies (f : option filters) (page moviesPerPage : option Z) (c : movies) : movies_list :=
  let page := if decide (page = Some 0%Z) then Some 1%Z else page in
  {| moviesList := catch (skip_limit moviesPerPage (skip_of moviesPerPage page) (sorted_matches f c))
                     (fun _ => []) |}.
End Queries.

(** [getMoviesByID(id)]: [$match] on the [_id], [$lookup] of the reviews
    whose [movie_id] is that [_id] sorted by date, first document or null;
    the DAO rethrows the error of [new ObjectId(id)]. *)
Definition getMoviesByID (id : string) (c : movies) (rs : reviews) : result (option movie_with_reviews) :=
  match ObjectId id with
  | Err e => Err e
  | Ok i =>
      Ok (match DocStore.find (fun j _ => (j =? i)%string) c with
          | (j, m) :: _ =>
              Some {| mr_id := j; mr_movie := m;
                      mr_reviews := merge_sort date_desc
                                      (DocStore.find (fun _ r => (Rev.movie_id r =? j)%string) rs) |}
          | [] => None
          end)
  end.

(** [distinct("genres")]: the elements of the arrays, each once. *)
Definition getGenres (c : movies) : list string :=
  remove_dups (concat (omap (fun m => Movie.genres m) c.*2)).

(** [distinct("rated")] *)
Definition getRated (c : movies) : list string :=
  remove_dups (omap (fun m => Movie.rated m) c.*2).

(** [insertOne(data)]; the [catch] returns [{ error }]. *)
Definition addMovie (new_id : oid) (m : Movie.t) (c : movies) : result insert_result * movies :=
  insert_one new_id m c.
End MoviesDAO.

(** ** MoviesCtrl (src/backend/api/movies.controller.js) *)

(** [req.query] of GET /movies; [None] is a missing parameter. *)
Record movies_query := {
  mq_moviesPerPage : option string;
  mq_page : option string;
  mq_title : option string;
  mq_genres : option string;
  mq_rated : option string;
  mq_year : option string
}.

(** [if (req.query.x)]: a present, non-empty string. *)
Definition truthy (o : option string) : option string :=
  match o with
  | Some s => if (s =? "")%string then None else Some s
  | None => None
  end.

Module MoviesCtrl.
Section Handlers.
Context `{TextSearch}.

Definition query_filters (q : movies_query) : filters :=
  {| f_title := truthy (mq_title q);
     f_genres := Some <$> truthy (mq_genres q);
     f_rated := truthy (mq_rated q);
     f_year := ArgString <$> truthy (mq_year q) |}.

Definition apiGetMovies (q : movies_query) (c : movies) : response movies_list :=
  let moviesPerPage := match truthy (mq_moviesPerPage q) with Some s => parseInt10 s | None => Some 21%Z end in
  let page := match truthy (mq_page q) with Some s => parseInt10 s | None => Some 0%Z end in
  Json (MoviesDAO.getMovies (Some (query_filters q)) page moviesPerPage c).
End Handlers.

(** An [Error] object sent as [{ error: e }] serialises to [{}]: the
    answer carries no message. *)
Definition apiGetMoviesById (id : string) (c : movies) (rs : reviews) : response movie_with_reviews :=
  match MoviesDAO.getMoviesByID id c rs with
  | Err _ => Status 500 ""
  | Ok None => Status 404 "Movie Not Found"
  | Ok (Some x) => Json x
  end.

Definition apiGetGenres (c : movies) : response (list string) := Json (MoviesDAO.getGenres c).
Definition apiGetRated (c : movies) : response (list string) := Json (MoviesDAO.getRated c).

(** [data.imdb + ""] split at the commas: rating, votes, id. *)
Definition imdbInfo (b : movie_body) : Movie.imdb_info :=
  let imdb := match mb_imdb b with Some s => s | None => "undefined"%string end in
  let arr := JsCore.split ","%char imdb in
  {| Movie.rating := parseFloat (string_at arr 0);
     Movie.votes := js_of_int (parseInt (string_at arr 1));
     Movie.imdb_id := js_of_int (parseInt (string_at arr 2)) |}.

(** [movieInfo], or the [TypeError] of [data.released.split]. *)
Definition movieInfo (b : movie_body) (now : Z) : result Movie.t :=
  match mb_released b with
  | None => Err (TypeError split_undefined_msg)
  | Some r =>
      Ok (Movie.mk (mb_title b) (parse_num_arg (mb_year b)) (mb_fullplot b) (mb_genres b) (imdbInfo b)
            (mb_poster b) (parse_num_arg (mb_runtime b)) (released_date r) (mb_rated b)
            None (Some now) "movie")
  end.

(** The result of [addMovie] is not inspected. *)
Definition apiAddMovie (b : movie_body) (now : Z) (new_id : oid) (c : movies) : response status_obj * movies :=
  match movieInfo b now with
  | Err e => (Status 500 (error_message e), c)
  | Ok m => let '(_, c') := MoviesDAO.addMovie new_id m c in (Json status_success, c')
  end.
End MoviesCtrl.

(** ** The sort order *)

(** [imdb_compare] is the lexicographic order of rating, votes and id. *)
Lemma imdb_compare_lex :
  imdb_compare = lex (cmp_on Movie.rating bson_num_compare)
                   (lex (cmp_on Movie.votes bson_num_compare) (cmp_on Movie.imdb_id bson_num_compare)).
Proof. reflexivity. Qed.

#[global] Instance imdb_compare_laws : CmpLaws imdb_compare.
Proof. rewrite imdb_compare_lex. apply _. Qed.

Lemma imdb_compare_antisym (a b : Movie.imdb_info) : imdb_compare b a = CompOpp (imdb_compare a b).
Proof. apply cmp_antisym. Qed.

#[global] Instance imdb_desc_trans : Transitive imdb_desc.
Proof. intros a b c H1 H2. unfold imdb_desc in *. exact (cmp_le_trans _ _ _ H2 H1). Qed.

#[global] Instance imdb_desc_total : Total imdb_desc.
Proof.
  intros a b. unfold imdb_desc. rewrite (imdb_compare_antisym (Movie.imdb a.2)).
  destruct (imdb_compare (Movie.imdb a.2) (Movie.imdb b.2)); simpl; [left|right|left]; done.
Qed.

(** ** Paging *)

Lemma skip_limit_window {A} (n s : Z) (l : list A) :
  (0 < n)%Z -> (0 <= s)%Z ->
  skip_limit (Some n) (Some s) l = Ok (take (Z.to_nat n) (drop (Z.to_nat s) l)).
Proof.
  intros Hn Hs. unfold skip_limit.
  rewrite (proj2 (Z.ltb_ge s 0) Hs), (proj2 (Z.eqb_neq n 0)) by lia. by rewrite Z.abs_eq by lia.
Qed.

Section MoviesTheorems.
Context `{TextSearch}.

Lemma getMovies_window (f : option filters) (p n : Z) (c : movies) :
  (0 < n)%Z -> (0 <= p)%Z ->
  moviesList (MoviesDAO.getMovies f (Some p) (Some n) c) =
    take (Z.to_nat n) (drop (Z.to_nat n * (Z.to_nat (Z.max 1 p) - 1)) (MoviesDAO.sorted_matches f c)).
Proof.
  intros Hn Hp. unfold MoviesDAO.getMovies. case_decide as H0.
  - inversion H0; subst. simpl skip_of. rewrite skip_limit_window by lia. simpl. do 3 f_equal. lia.
  - simpl skip_of. assert (p <> 0)%Z by congruence.
    rewrite skip_limit_window by nia. simpl. rewrite Z2Nat.inj_mul by lia. do 3 f_equal. lia.
Qed.

(** C18: [getMovies] with [moviesPerPage = n > 0] and [page = p >= 0]
    returns the [n] documents after the first [n * (max 1 p - 1)] of the
    matching documents sorted by decreasing [imdb]: page 0 is page 1,
    and the matching documents are exactly those of the collection that
    satisfy the query, each once. *)
Theorem getMovies_page_spec (f : option filters) (p n : Z) (c : movies) :
  wf c -> (0 < n)%Z -> (0 <= p)%Z ->
  let S := MoviesDAO.sorted_matches f c in
  moviesList (MoviesDAO.getMovies f (Some p) (Some n) c) =
    take (Z.to_nat n) (drop (Z.to_nat n * (Z.to_nat (Z.max 1 p) - 1)) S) /\
  Sorted imdb_desc S /\
  (forall j m, (j, m) ∈ S <-> view c !! j = Some m /\ query_match f m = true) /\
  NoDup (ids S).
Proof.
  intros Hwf Hn Hp S. destruct (sorted_find_spec imdb_desc (fun _ m => query_match f m) c Hwf) as (Hs & Hm & Hw).
  split_and!; [by apply getMovies_window|done|done|done].
Qed.

(** C21: a negative or non-numeric page makes the skip negative or NaN; the
    server refuses the query and [getMovies] answers an empty list, as
    for a search without results. *)
Theorem getMovies_bad_page (f : option filters) (page : option Z) (n : Z) (c : movies) :
  (0 < n)%Z -> (page = None \/ exists p, page = Some p /\ (p < 0)%Z) ->
  moviesList (MoviesDAO.getMovies f page (Some n) c) = [].
Proof.
  intros Hn [->|(p & -> & Hp)]; unfold MoviesDAO.getMovies; [done|].
  rewrite decide_False by (intros [=]; lia). simpl. unfold skip_limit.
  by rewrite (proj2 (Z.ltb_lt (n * (p - 1)) 0)) by nia.
Qed.

(** C22: GET /movies without [page] and [moviesPerPage] answers the first
    21 matching movies in the sorted order. *)
Theorem apiGetMovies_default (q : movies_query) (c : movies) :
  mq_page q = None -> mq_moviesPerPage q = None ->
  MoviesCtrl.apiGetMovies q c =
    Json {| moviesList := take 21 (MoviesDAO.sorted_matches (Some (MoviesCtrl.query_filters q)) c) |}.
Proof.
  intros Hp Hn. unfold MoviesCtrl.apiGetMovies. rewrite Hp, Hn. cbn [truthy].
  transitivity (Json {| moviesList := moviesList (MoviesDAO.getMovies
                  (Some (MoviesCtrl.query_filters q)) (Some 0%Z) (Some 21%Z) c) |}).
  { by destruct (MoviesDAO.getMovies _ _ _ c). }
  by rewrite getMovies_window by lia.
Qed.
End MoviesTheorems.

(** ** One movie and its reviews; insertion *)

#[global] Instance date_desc_total : Total date_desc.
Proof.
  intros [? [? ? [] ? ? ?]] [? [? ? [] ? ? ?]]; unfold date_desc; simpl; auto with lia.
Qed.

(** C19: [getMoviesByID] (GET /movies/id/:id) on a well-formed id answers
    the movie with that [_id], or null when there is none, and with the
    movie exactly the reviews whose [movie_id] is that id, newest
    first. *)
Theorem getMoviesByID_spec (id : string) (i : oid) (c : movies) (rs : reviews) :
  wf c -> wf rs -> ObjectId id = Ok i ->
  match MoviesDAO.getMoviesByID id c rs with
  | Ok None => view c !! i = None
  | Ok (Some x) =>
      mr_id x = i /\ view c !! i = Some (mr_movie x) /\ Sorted date_desc (mr_reviews x) /\
      (forall j r, (j, r) ∈ mr_reviews x <-> view rs !! j = Some r /\ Rev.movie_id r = i)
  | Err _ => False
  end.
Proof.
  intros Hwf Hwr Hid. unfold MoviesDAO.getMoviesByID. rewrite Hid, find_id by done.
  destruct (view c !! i) as [m|] eqn:Hm; [|done]. simpl. split_and!; [done|done| |].
  - exact (proj1 (sorted_find_spec date_desc _ rs Hwr)).
  - intros j r. rewrite (proj1 (proj2 (sorted_find_spec date_desc _ rs Hwr))).
    by rewrite String.eqb_eq.
Qed.

(** C20: [apiAddMovie] (POST /movies/addMovie) with a [released] date
    answers success and stores, under the new id, the document built
    from the body: the year and runtime of an accepted request are kept
    as they were ([parseInt(String(n))] is [n]), and the field written is
    [lastUpdated], not the data set's [lastupdated].  Without [released]
    it answers 500 and stores nothing. *)
Theorem apiAddMovie_spec (b : movie_body) (now : Z) (new_id : oid) (c : movies) :
  new_id ∉ ids c ->
  match mb_released b with
  | None => MoviesCtrl.apiAddMovie b now new_id c = (Status 500 split_undefined_msg, c)
  | Some r =>
      (MoviesCtrl.apiAddMovie b now new_id c).1 = Json status_success /\
      exists m, view (MoviesCtrl.apiAddMovie b now new_id c).2 = <[new_id := m]> (view c) /\
        Movie.title m = mb_title b /\ Movie.released m = released_date r /\
        (forall y, mb_year b = ArgNumber (Some y) -> Movie.year m = Some y) /\
        (forall y, mb_runtime b = ArgNumber (Some y) -> Movie.runtime m = Some y) /\
        Movie.lastupdated m = None /\ Movie.lastUpdated m = Some now
  end.
Proof.
  intros Hfresh. unfold MoviesCtrl.apiAddMovie, MoviesCtrl.movieInfo, MoviesDAO.addMovie.
  destruct (mb_released b) as [r|]; [|done].
  pose proof (insert_one_refines new_id (Movie.mk (mb_title b) (parse_num_arg (mb_year b)) (mb_fullplot b)
     (mb_genres b) (MoviesCtrl.imdbInfo b) (mb_poster b) (parse_num_arg (mb_runtime b)) (released_date r)
     (mb_rated b) None (Some now) "movie") c Hfresh) as Hv.
  destruct (insert_one _ _ c) as [res c'] eqn:E. simpl in *. split; [done|].
  eexists. split_and!; [exact Hv|done|done| | |done|done];
    intros y ->; simpl; apply parseInt_number_to_string.
Qed.

(** C23: [getGenres] (GET /movies/genres) lists each genre that some movie
    has, exactly once. *)
Theorem getGenres_spec (c : movies) (g : string) :
  (g ∈ MoviesDAO.getGenres c <-> exists i m gs, (i, m) ∈ c /\ Movie.genres m = Some gs /\ g ∈ gs) /\
  NoDup (MoviesDAO.getGenres c).
Proof.
  unfold MoviesDAO.getGenres. split; [|apply NoDup_remove_dups].
  rewrite elem_of_remove_dups, list_elem_of_In, in_concat. setoid_rewrite <- list_elem_of_In. split.
  - intros (gs & Hgs & Hg). apply list_elem_of_omap in Hgs as (m & Hm & Hgm).
    apply list_elem_of_fmap in Hm as ([i m'] & -> & Hin). by exists i, m', gs.
  - intros (i & m & gs & Hin & Hgm & Hg). exists gs. split; [|done].
    apply list_elem_of_omap. exists m. split; [|done]. apply list_elem_of_fmap. by exists (i, m).
Qed.

(** ** Witnesses on a sample collection *)

(** A text index that matches a phrase equal to the title. *)
#[local] Instance sample_text_search : TextSearch :=
  {| phrase_match := fun t m => (t =? Movie.title m)%string |}.

Definition sample_movie (t : string) (r : Q) : Movie.t :=
  Movie.mk t (Some 2020%Z) (Some "A plot.") (Some ["Drama"]) (Movie.mk_imdb (Fin r) (js_of_Z 100) (js_of_Z 1))
    None (Some 120%Z) (DateArgs 2020 0 1) (Some "PG") (Some "2015-08-26 00:03:45") None "movie".

Definition sample_movies : movies :=
  [(sample_movie_id, sample_movie "A" 5); ("60aa00000000000000000002", sample_movie "B" 9);
   ("60aa00000000000000000003", sample_movie "C" 7)].

Lemma sample_movies_wf : wf sample_movies.
Proof. apply (bool_decide_unpack _). vm_compute. exact I. Defined.

Lemma getMovies_page_spec_witness :
  wf sample_movies /\
  moviesList (MoviesDAO.getMovies None (Some 2%Z) (Some 1%Z) sample_movies)
    = [("60aa00000000000000000003", sample_movie "C" 7)] /\
  let S := MoviesDAO.sorted_matches None sample_movies in
  moviesList (MoviesDAO.getMovies None (Some 2%Z) (Some 1%Z) sample_movies) =
    take (Z.to_nat 1) (drop (Z.to_nat 1 * (Z.to_nat (Z.max 1 2) - 1)) S) /\
  Sorted imdb_desc S /\
  (forall j m, (j, m) ∈ S <-> view sample_movies !! j = Some m /\ query_match None m = true) /\
  NoDup (ids S).
Proof.
  split; [exact sample_movies_wf|]. split; [vm_compute; reflexivity|].
  exact (getMovies_page_spec None 2 1 sample_movies sample_movies_wf ltac:(lia) ltac:(lia)).
Defined.

Lemma getMovies_bad_page_witness :
  moviesList (MoviesDAO.getMovies None (Some (-1)%Z) (Some 20%Z) sample_movies) = [].
Proof. apply getMovies_bad_page; [lia|]. right. exists (-1)%Z. split; [done|lia]. Defined.

Definition sample_query : movies_query :=
  {| mq_moviesPerPage := None; mq_page := None; mq_title := Some ""; mq_genres := Some "Drama";
     mq_rated := None; mq_year := Some "2020" |}.

Lemma apiGetMovies_default_witness :
  MoviesCtrl.apiGetMovies sample_query sample_movies =
    Json {| moviesList := take 21 (MoviesDAO.sorted_matches (Some (MoviesCtrl.query_filters sample_query)) sample_movies) |}.
Proof. by apply apiGetMovies_default. Defined.

Lemma getMoviesByID_spec_witness :
  ObjectId sample_movie_id = Ok sample_movie_id /\
  match MoviesDAO.getMoviesByID sample_movie_id sample_movies sample_reviews3 with
  | Ok None => view sample_movies !! sample_movie_id = None
  | Ok (Some x) =>
      mr_id x = sample_movie_id /\ view sample_movies !! sample_movie_id = Some (mr_movie x) /\
      Sorted date_desc (mr_reviews x) /\
      (forall j r, (j, r) ∈ mr_reviews x <-> view sample_reviews3 !! j = Some r /\ Rev.movie_id r = sample_movie_id)
  | Err _ => False
  end.
Proof.
  assert (Hid : ObjectId sample_movie_id = Ok sample_movie_id) by reflexivity.
  assert (Hwr : wf sample_reviews3) by (apply (bool_decide_unpack _); vm_compute; exact I).
  split; [exact Hid|]. exact (getMoviesByID_spec _ _ _ _ sample_movies_wf Hwr Hid).
Defined.

Definition sample_movie_body : movie_body :=
  {| mb_title := "D"; mb_year := ArgNumber (Some 2021%Z); mb_fullplot := Some "Another plot.";
     mb_genres := Some ["Comedy"]; mb_imdb := Some "7.5,1234,99"; mb_poster := None;
     mb_runtime := ArgNumber (Some 95%Z); mb_released := Some "2021-03-04"; mb_rated := Some "PG-13" |}.

Lemma apiAddMovie_spec_witness :
  ("60aa00000000000000000004" ∉ ids sample_movies) /\
  (MoviesCtrl.apiAddMovie sample_movie_body 7 "60aa00000000000000000004" sample_movies).1 = Json status_success /\
  exists m, view (MoviesCtrl.apiAddMovie sample_movie_body 7 "60aa00000000000000000004" sample_movies).2
            = <[ "60aa00000000000000000004" := m]> (view sample_movies) /\
    Movie.year m = Some 2021%Z /\ Movie.lastUpdated m = Some 7%Z.
Proof.
  assert (Hf : "60aa00000000000000000004" ∉ ids sample_movies) by (vm_compute; set_solver).
  pose proof (apiAddMovie_spec sample_movie_body 7 "60aa00000000000000000004" sample_movies Hf) as H.
  simpl in H. destruct H as [H1 (m & Hv & _ & _ & Hy & _ & _ & Hl)].
  split; [exact Hf|]. split; [exact H1|]. exists m. split_and!; [exact Hv| |exact Hl]. by apply Hy.
Defined.
