(* ===== verification/Dedup.v ===== *)
(** * Dedup: [MoviesDAO.deleteDuplicateMovies]

    The aggregation of src/backend/dao/moviesDAO.js groups the movies by
    [fullplot] and collects, with [$addToSet], the distinct values of
    [lastupdated], [_id], [title] and [year] of each group.  A group is
    taken for a set of duplicates when it has more than one distinct
    [lastupdated], one title and one year; the DAO then deletes every id
    of the group but the first, and reports [deletedCount > 0] of the last
    deletion of each group.

    The order of the elements of an [$addToSet] array is chosen by the
    server: it is the parameter [arrange] of the Section, a permutation of
    the distinct values, and the theorems hold for every such choice.  The
    groups are listed in the order their keys first occur; the final
    state and the answer do not depend on that order.  The theorems say
    which movies remain (one of each group of duplicates, every other
    movie untouched) and which copies the test never sees: copies that
    share their [lastupdated], and every movie written by [apiAddMovie],
    which has [lastUpdated] and no [lastupdated]. *)

From S2P Require Import Prelude DocStore JsCore Reviews Movies.
From Stdlib Require Import QArith.
Close Scope Q_scope.

(** One document of the [$group] stage. *)
Record group := {
  g_key : option string;
  g_count : list string;
  g_movieId : list oid;
  g_movieTitle : list string;
  g_year : list (option Z)
}.

(** The answer: ["No duplicates to delete"], or [true]/[false]. *)
Inductive dedup_result :=
| NoDuplicates
| DeleteStatus (ok : bool).

Section Dedup.
(** The server's order of an [$addToSet] array of ids, for a group key. *)
Variable arrange : option string -> list oid -> list oid.

(** The movies of the group [{ _id: "$fullplot" }] with key [k]; a missing
    [fullplot] groups under null ([None]). *)
Definition group_members (c : movies) (k : option string) : movies :=
  List.filter (fun '(_, m) => bool_decide (Movie.fullplot m = k)) c.

(** [$addToSet] skips a missing field. *)
Definition group_of (c : movies) (k : option string) : group :=
  let ms := group_members c k in
  {| g_key := k;
     g_count := remove_dups (omap Movie.lastupdated ms.*2);
     g_movieId := arrange k (remove_dups ms.*1);
     g_movieTitle := remove_dups (Movie.title <$> ms.*2);
     g_year := remove_dups (Movie.year <$> ms.*2) |}.

Definition group_keys (c : movies) : list (option string) := remove_dups (Movie.fullplot <$> c.*2).

Definition groups (c : movies) : list group := group_of c <$> group_keys c.

(** [group.count.length > 1 && group.movieTitle.length == 1 && group.year.length == 1] *)
Definition is_dup (g : group) : bool :=
  (1 <? length (g_count g)) && (length (g_movieTitle g) =? 1) && (length (g_year g) =? 1).

Definition dups (c : movies) : list group := List.filter is_dup (groups c).

(** [deleteCount = (await movies.deleteOne({ _id: ObjectId(id) })).deletedCount] *)
Definition delete_step (acc : nat * movies) (i : oid) : nat * movies :=
  let '(r, c') := delete_one (id_filter i (fun _ => true)) acc.2 in (deletedCount r, c').

(** [for (j = 1; j < movieId.length; j++)]: [deleteCount] is the
    [deletedCount] of the last call. *)
Definition delete_rest (ids : list oid) (c : movies) : nat * movies :=
  fold_left delete_step (tail ids) (0, c).

(** [delStatus.push(deleteCount > 0)] *)
Definition group_step (acc : list bool * movies) (g : group) : list bool * movies :=
  let '(cnt, c') := delete_rest (g_movieId g) acc.2 in (acc.1 ++ [bool_decide (0 < cnt)], c').

(** The loop over the groups, in order. *)
Definition delete_groups (ds : list group) (c : movies) : list bool * movies :=
  fold_left group_step ds ([], c).

(** The [for] over [delStatus] returns [false] at the first [false]. *)
Definition deleteDuplicateMovies (c : movies) : dedup_result * movies :=
  match dups c with
  | [] => (NoDuplicates, c)
  | ds => let '(st, c') := delete_groups ds c in (DeleteStatus (forallb id st), c')
  end.

(** [apiDeleteDuplicates]: [res.json(response)]. *)
Definition apiDeleteDuplicates (c : movies) : response dedup_result * movies :=
  let '(r, c') := deleteDuplicateMovies c in (Json r, c').

(** The ids a call deletes: all but the first of each duplicate group. *)
Definition doomed (c : movies) : list oid := concat ((fun g => tail (g_movieId g)) <$> dups c).
End Dedup.

(** A sequence of POST /movies/addMovie calls, one after the other. *)
Definition run_adds (calls : list (movie_body * Z * oid)) (c : movies) : movies :=
  fold_left (fun c '(b, now, i) => (MoviesCtrl.apiAddMovie b now i c).2) calls c.

(** ** The deletion loops *)

Lemma delete_id_step (i : oid) (c : movies) :
  wf c ->
  wf (delete_one (id_filter i (fun _ => true)) c).2 /\
  view (delete_one (id_filter i (fun _ => true)) c).2 = delete i (view c) /\
  deletedCount (delete_one (id_filter i (fun _ => true)) c).1 = match view c !! i with Some _ => 1 | None => 0 end.
Proof.
  intros Hwf. destruct (delete_one_refines i (fun _ => true) c Hwf) as [H1 H2].
  split_and!; [by apply wf_delete_one| |].
  - rewrite H2. unfold map_delete_if. destruct (view c !! i) eqn:E; [done|]. by rewrite delete_id.
  - rewrite H1. unfold map_delete_result. by destruct (view c !! i).
Qed.

(** The inner loop over distinct ids that are all present deletes them,
    and its last [deletedCount] is 1 when it ran at all. *)
Lemma delete_rest_loop (L : list oid) (n : nat) (c : movies) :
  wf c -> NoDup L -> (forall i, i ∈ L -> is_Some (view c !! i)) ->
  let r := fold_left delete_step L (n, c) in
  wf r.2 /\ (forall j, view r.2 !! j = if bool_decide (j ∈ L) then None else view c !! j) /\
  r.1 = match L with [] => n | _ => 1 end.
Proof.
  revert n c. induction L as [|i L IH]; intros n c Hwf Hnd Hin; simpl; [done|].
  apply NoDup_cons in Hnd as [Hi Hnd].
  destruct (delete_id_step i c Hwf) as (Hwf1 & Hv1 & Hc1).
  destruct (delete_one _ c) as [r1 c1] eqn:E. simpl in *.
  assert (Hs : delete_step (n, c) i = (deletedCount r1, c1)) by (unfold delete_step; simpl; by rewrite E).
  rewrite Hs. destruct (Hin i) as [d Hd]; [set_solver|]. rewrite Hd in Hc1.
  destruct (IH (deletedCount r1) c1 Hwf1 Hnd) as (Hwf' & Hv' & Hc').
  { intros i' Hi'. rewrite Hv1, lookup_delete_ne by set_solver. apply Hin. set_solver. }
  split_and!; [done| |].
  - intros j. rewrite Hv', Hv1. destruct (decide (j = i)) as [->|Hne].
    + rewrite lookup_delete_eq. repeat case_bool_decide; try done; set_solver.
    + rewrite lookup_delete_ne by done. repeat case_bool_decide; try done; set_solver.
  - rewrite Hc'. by destruct L.
Qed.

(** The outer loop: one [true] per group, and the union of the deleted ids. *)
Lemma delete_groups_loop (ds : list group) (st : list bool) (c : movies) :
  wf c -> NoDup (concat ((fun g => tail (g_movieId g)) <$> ds)) ->
  (forall g, g ∈ ds -> tail (g_movieId g) <> []) ->
  (forall i, i ∈ concat ((fun g => tail (g_movieId g)) <$> ds) -> is_Some (view c !! i)) ->
  let r := fold_left group_step ds (st, c) in
  r.1 = st ++ replicate (length ds) true /\
  (forall j, view r.2 !! j =
     if bool_decide (j ∈ concat ((fun g => tail (g_movieId g)) <$> ds)) then None else view c !! j).
Proof.
  revert st c. induction ds as [|g ds IH]; intros st c Hwf Hnd Hne Hin; simpl.
  - split; [by rewrite app_nil_r|]. intros j. repeat case_bool_decide; try done; set_solver.
  - apply NoDup_app in Hnd as (Hnd1 & Hdis & Hnd2).
    pose proof (delete_rest_loop (tail (g_movieId g)) 0 c Hwf Hnd1) as Hl.
    cbn [fold_left]. destruct (delete_rest (g_movieId g) c) as [cnt c1] eqn:E.
    assert (Hg : group_step (st, c) g = (st ++ [bool_decide (0 < cnt)], c1))
      by (unfold group_step; simpl; by rewrite E).
    rewrite Hg. unfold delete_rest in E. rewrite E in Hl.
    destruct Hl as (Hwf1 & Hv1 & Hc1); [intros i Hi; apply Hin; set_solver|]. simpl in Hwf1, Hv1, Hc1.
    destruct (IH (st ++ [bool_decide (0 < cnt)]) c1 Hwf1 Hnd2) as [Hs Hv].
    { intros g' Hg'. apply Hne. set_solver. }
    { intros i Hi. rewrite Hv1, bool_decide_eq_false_2 by (intros Hx; by apply (Hdis i)). apply Hin. set_solver. }
    split.
    + rewrite Hs, Hc1. destruct (tail (g_movieId g)) eqn:Et; [by destruct (Hne g); set_solver|].
      rewrite <- app_assoc. done.
    + intros j. rewrite Hv, Hv1. repeat case_bool_decide; try done; set_solver.
Qed.

(** ** The groups *)

Section DedupProps.
Variable arrange : option string -> list oid -> list oid.
Hypothesis arrange_perm : forall k l, arrange k l ≡ₚ l.

Lemma group_members_find (c : movies) (k : option string) :
  group_members c k = DocStore.find (fun _ m => bool_decide (Movie.fullplot m = k)) c.
Proof. reflexivity. Qed.

Lemma group_ids_perm (c : movies) (k : option string) :
  wf c -> g_movieId (group_of arrange c k) ≡ₚ (group_members c k).*1.
Proof.
  intros Hwf. simpl. rewrite arrange_perm. apply remove_dups_Permutation.
  rewrite group_members_find. by apply wf_find.
Qed.

Lemma elem_of_group_ids (c : movies) (k : option string) (j : oid) :
  wf c -> j ∈ g_movieId (group_of arrange c k) <-> exists m, view c !! j = Some m /\ Movie.fullplot m = k.
Proof.
  intros Hwf. rewrite group_ids_perm, list_elem_of_fmap by done. split.
  - intros ([j' m] & -> & Hin). rewrite group_members_find, elem_of_find, elem_of_view in Hin by done.
    destruct Hin as [Hv Hk]. exists m. split; [done|]. by apply bool_decide_eq_true in Hk.
  - intros (m & Hv & Hk). exists (j, m). split; [done|].
    rewrite group_members_find, elem_of_find, elem_of_view by done. split; [done|]. by apply bool_decide_eq_true.
Qed.

Lemma group_ids_NoDup (c : movies) (k : option string) : wf c -> NoDup (g_movieId (group_of arrange c k)).
Proof. intros Hwf. rewrite group_ids_perm by done. rewrite group_members_find. by apply wf_find. Qed.

(** A group with two distinct [lastupdated] values has two movies. *)
Lemma dup_group_size (c : movies) (k : option string) :
  wf c -> is_dup (group_of arrange c k) = true -> 2 <= length (g_movieId (group_of arrange c k)).
Proof.
  intros Hwf Hd. unfold is_dup in Hd. apply andb_prop in Hd as [Hd _]. apply andb_prop in Hd as [Hd _].
  apply Nat.ltb_lt in Hd. rewrite (Permutation_length (group_ids_perm c k Hwf)), length_fmap.
  simpl in Hd. pose proof (length_remove_dups_le (omap Movie.lastupdated (group_members c k).*2)).
  pose proof (length_omap_le Movie.lastupdated (group_members c k).*2). rewrite length_fmap in *. lia.
Qed.

Lemma elem_of_dups (c : movies) (g : group) :
  g ∈ dups arrange c <-> exists k, k ∈ group_keys c /\ g = group_of arrange c k /\ is_dup g = true.
Proof.
  unfold dups, groups. rewrite list_elem_of_In, filter_In, <- list_elem_of_In, list_elem_of_fmap.
  naive_solver.
Qed.

Lemma doomed_concat (c : movies) :
  doomed arrange c = concat ((fun k => tail (g_movieId (group_of arrange c k)))
                              <$> List.filter (fun k => is_dup (group_of arrange c k)) (group_keys c)).
Proof. unfold doomed, dups, groups. rewrite list_filter_fmap, <- list_fmap_compose. reflexivity. Qed.

(** An id deleted by the call is the id of a movie, in one duplicate group. *)
Lemma elem_of_doomed (c : movies) (j : oid) :
  wf c -> j ∈ doomed arrange c <-> exists g, g ∈ dups arrange c /\ j ∈ tail (g_movieId g).
Proof.
  intros Hwf. unfold doomed. rewrite list_elem_of_In, in_concat. split.
  - intros (l & Hl & Hj). apply list_elem_of_In, list_elem_of_fmap in Hl as (g & -> & Hg).
    exists g. split; [done|]. by apply list_elem_of_In.
  - intros (g & Hg & Hj). exists (tail (g_movieId g)). rewrite <- !list_elem_of_In. split; [|done].
    apply list_elem_of_fmap. by exists g.
Qed.

Lemma doomed_NoDup (c : movies) : wf c -> NoDup (doomed arrange c).
Proof.
  intros Hwf. rewrite doomed_concat. apply NoDup_concat_fmap.
  - apply NoDup_list_filter, NoDup_remove_dups.
  - intros k _. pose proof (group_ids_NoDup c k Hwf) as Hnd.
    destruct (g_movieId (group_of arrange c k)); [constructor|]. by apply NoDup_cons in Hnd as [_ ?].
  - intros k1 k2 x Hx1 Hx2. apply elem_of_tail in Hx1, Hx2.
    apply elem_of_group_ids in Hx1 as (m1 & Hm1 & <-); [|done].
    apply elem_of_group_ids in Hx2 as (m2 & Hm2 & <-); [|done]. congruence.
Qed.
End DedupProps.

(** ** What a call deletes and answers *)

Section DedupTheorems.
Variable arrange : option string -> list oid -> list oid.
Hypothesis arrange_perm : forall k l, arrange k l ≡ₚ l.

Lemma dedup_loop (c : movies) :
  wf c ->
  (deleteDuplicateMovies arrange c).1 =
    (if decide (dups arrange c = []) then NoDuplicates else DeleteStatus true) /\
  (forall j, view (deleteDuplicateMovies arrange c).2 !! j =
     if bool_decide (j ∈ doomed arrange c) then None else view c !! j).
Proof.
  intros Hwf. unfold deleteDuplicateMovies.
  destruct (dups arrange c) as [|g0 ds0] eqn:Ed.
  - split; [done|]. intros j. unfold doomed. rewrite Ed. by rewrite bool_decide_eq_false_2 by set_solver.
  - assert (Hdm : doomed arrange c = concat ((fun g => tail (g_movieId g)) <$> g0 :: ds0))
      by (unfold doomed; by rewrite Ed).
    pose proof (delete_groups_loop (g0 :: ds0) [] c Hwf) as Hl. cbv zeta in Hl. rewrite <- Hdm, <- Ed in Hl.
    unfold delete_groups. rewrite <- Ed. destruct (fold_left _ (dups arrange c) ([], c)) as [st c'] eqn:E.
    simpl in Hl.
    destruct Hl as [Hs Hv]; [apply (doomed_NoDup arrange arrange_perm c Hwf)| | |].
    + intros g Hg. apply (elem_of_dups arrange) in Hg as (k & _ & -> & Hd).
      pose proof (dup_group_size arrange arrange_perm c k Hwf Hd).
      destruct (g_movieId _) as [|? []]; simpl in *; [lia|lia|done].
    + intros i Hi. apply (elem_of_doomed arrange c i Hwf) in Hi as (g & Hg & Hi).
      apply (elem_of_dups arrange) in Hg as (k & _ & -> & _). apply elem_of_tail in Hi.
      apply (elem_of_group_ids arrange arrange_perm c k i Hwf) in Hi as (m & Hm & _). by rewrite Hm.
    + simpl. split; [|exact Hv]. rewrite decide_False by (rewrite Ed; done).
      rewrite Hs. by rewrite forallb_replicate_true.
Qed.

(** C15: [deleteDuplicateMovies] (DELETE /movies/deleteDups), whatever
    order the server gives the ids of a group, keeps exactly one movie of
    each group it takes for duplicates (the first id of the group), leaves
    every other movie as it was, and answers [true] when there was a
    group, ["No duplicates to delete"] (with no change) otherwise. *)
Theorem deleteDuplicateMovies_spec (c : movies) :
  wf c ->
  let r := deleteDuplicateMovies arrange c in
  (dups arrange c = [] -> r = (NoDuplicates, c)) /\
  (dups arrange c <> [] -> r.1 = DeleteStatus true) /\
  (forall g, g ∈ dups arrange c -> forall j, j ∈ g_movieId g ->
     (is_Some (view r.2 !! j) <-> head (g_movieId g) = Some j)) /\
  (forall j, (forall g, g ∈ dups arrange c -> j ∉ g_movieId g) -> view r.2 !! j = view c !! j).
Proof.
  intros Hwf r. destruct (dedup_loop c Hwf) as [H1 H2]. split_and!.
  - intros Hd. subst r. unfold deleteDuplicateMovies. by rewrite Hd.
  - intros Hd. subst r. rewrite H1. by rewrite decide_False.
  - intros g Hg j Hj. subst r. rewrite H2. pose proof Hg as Hg0.
    apply (elem_of_dups arrange) in Hg as (k & _ & -> & Hd).
    assert (Hdm : j ∈ doomed arrange c <-> j ∈ tail (g_movieId (group_of arrange c k))).
    { rewrite elem_of_doomed by done. split; [|intros Hj'; by exists (group_of arrange c k)].
      intros (g' & Hg' & Hj'). apply (elem_of_dups arrange) in Hg' as (k' & _ & -> & _).
      pose proof (elem_of_tail _ _ Hj') as Hj''.
      apply (elem_of_group_ids arrange arrange_perm c k' j Hwf) in Hj'' as (m' & Hm' & <-).
      apply (elem_of_group_ids arrange arrange_perm c k j Hwf) in Hj as Hk. destruct Hk as (m & Hm & <-).
      by simplify_eq. }
    rewrite (elem_of_tail_NoDup j _ (group_ids_NoDup arrange arrange_perm c k Hwf) Hj) in Hdm.
    apply (elem_of_group_ids arrange arrange_perm c k j Hwf) in Hj as (m & Hm & _).
    case_bool_decide as Hb.
    + split; [by intros [? ?]|]. intros Hh. exfalso. exact (proj1 Hdm Hb Hh).
    + rewrite Hm. split; [intros _|intros _; by eexists].
      destruct (decide (head (g_movieId (group_of arrange c k)) = Some j)) as [|Hn]; [done|].
      exfalso. apply Hb, Hdm, Hn.
  - intros j Hj. subst r. rewrite H2, bool_decide_eq_false_2; [done|].
    intros Hd. apply elem_of_doomed in Hd as (g & Hg & Hjt); [|done].
    apply (Hj g Hg). by apply elem_of_tail.
Qed.

(** C17: when the movies of each [fullplot] share one [lastupdated] value
    (or have none), [deleteDuplicateMovies] finds no duplicates and
    changes nothing, even for copies with the same plot, title and year:
    the test counts distinct [lastupdated] values, not movies. *)
Theorem dedup_misses_same_lastupdated (c : movies) :
  (forall i1 m1 i2 m2 x y, (i1, m1) ∈ c -> (i2, m2) ∈ c -> Movie.fullplot m1 = Movie.fullplot m2 ->
     Movie.lastupdated m1 = Some x -> Movie.lastupdated m2 = Some y -> x = y) ->
  deleteDuplicateMovies arrange c = (NoDuplicates, c).
Proof.
  intros H. unfold deleteDuplicateMovies, dups.
  rewrite list_filter_nil; [done|]. intros g Hg.
  unfold groups in Hg. apply list_elem_of_fmap in Hg as (k & -> & _).
  unfold is_dup. simpl. pose proof (length_remove_dups_const (omap Movie.lastupdated (group_members c k).*2)) as Hl.
  destruct (Nat.ltb_spec 1 (length (remove_dups (omap Movie.lastupdated (group_members c k).*2)))) as [Hlt|]; [|done].
  exfalso. enough (length (remove_dups (omap Movie.lastupdated (group_members c k).*2)) <= 1) by lia.
  apply Hl. intros x y Hx Hy.
  apply list_elem_of_omap in Hx as (m1 & Hm1 & Hx), Hy as (m2 & Hm2 & Hy).
  apply list_elem_of_fmap in Hm1 as ([i1 m1'] & -> & Hm1), Hm2 as ([i2 m2'] & -> & Hm2).
  rewrite group_members_find in Hm1, Hm2.
  apply elem_of_find in Hm1 as [Hm1 Hk1]. apply elem_of_find in Hm2 as [Hm2 Hk2].
  apply bool_decide_eq_true in Hk1, Hk2.
  apply (H i1 m1' i2 m2'); [done|done|congruence|done|done].
Qed.

Lemma apiAddMovie_no_lastupdated (b : movie_body) (now : Z) (i : oid) (c : movies) :
  Forall (fun p => Movie.lastupdated p.2 = None) c ->
  Forall (fun p => Movie.lastupdated p.2 = None) (MoviesCtrl.apiAddMovie b now i c).2.
Proof.
  intros Hc. unfold MoviesCtrl.apiAddMovie, MoviesCtrl.movieInfo, MoviesDAO.addMovie, insert_one.
  destruct (mb_released b); [|done]. case_decide; [done|]. simpl. apply Forall_app. split; [done|].
  by repeat constructor.
Qed.

(** C16: movies written by [apiAddMovie] carry [lastUpdated], never the
    [lastupdated] the duplicate test counts: starting from a collection
    without [lastupdated] (the empty one, say), no sequence of additions,
    even of the same movie twice, gives [deleteDuplicateMovies] anything
    to delete. *)
Theorem added_movies_never_deduplicated (calls : list (movie_body * Z * oid)) (c0 : movies) :
  Forall (fun p => Movie.lastupdated p.2 = None) c0 ->
  deleteDuplicateMovies arrange (run_adds calls c0) = (NoDuplicates, run_adds calls c0).
Proof.
  intros H0. apply dedup_misses_same_lastupdated.
  assert (Hf : Forall (fun p => Movie.lastupdated p.2 = None) (run_adds calls c0)).
  { unfold run_adds. revert c0 H0. induction calls as [|[[b now] i] calls IH]; intros c0 H0; [done|].
    apply IH, apiAddMovie_no_lastupdated, H0. }
  intros i1 m1 i2 m2 x y Hm1 _ _ Hx _. rewrite Forall_forall in Hf. apply Hf in Hm1. simpl in Hm1. congruence.
Qed.
End DedupTheorems.

(** ** Witnesses *)

(** The server returning the ids in collection order. *)
Definition keep_order : option string -> list oid -> list oid := fun _ l => l.

Lemma keep_order_perm : forall k l, keep_order k l ≡ₚ l.
Proof. reflexivity. Qed.

Definition copy_of (m : Movie.t) (lu : option string) : Movie.t :=
  Movie.mk (Movie.title m) (Movie.year m) (Movie.fullplot m) (Movie.genres m) (Movie.imdb m) (Movie.poster m)
    (Movie.runtime m) (Movie.released m) (Movie.rated m) lu (Movie.lastUpdated m) (Movie.type m).

(** A movie with a plot of its own. *)
Definition other_movie : Movie.t :=
  Movie.mk "B" (Some 1999%Z) (Some "Another plot.") None (Movie.mk_imdb NaN NaN NaN) None None InvalidDate
    None (Some "2015-08-26 00:03:45") None "movie".

(** Movie A twice, updated on two dates, and movie B. *)
Definition dup_movies : movies :=
  [(sample_movie_id, sample_movie "A" (inject_Z 5)); ("60aa00000000000000000002", other_movie);
   ("60aa00000000000000000005", copy_of (sample_movie "A" (inject_Z 5)) (Some "2016-01-01 00:00:00"))].

Lemma deleteDuplicateMovies_spec_witness :
  wf dup_movies /\
  deleteDuplicateMovies keep_order dup_movies = (DeleteStatus true, take 2 dup_movies) /\
  let r := deleteDuplicateMovies keep_order dup_movies in
  (dups keep_order dup_movies = [] -> r = (NoDuplicates, dup_movies)) /\
  (dups keep_order dup_movies <> [] -> r.1 = DeleteStatus true) /\
  (forall g, g ∈ dups keep_order dup_movies -> forall j, j ∈ g_movieId g ->
     (is_Some (view r.2 !! j) <-> head (g_movieId g) = Some j)) /\
  (forall j, (forall g, g ∈ dups keep_order dup_movies -> j ∉ g_movieId g) -> view r.2 !! j = view dup_movies !! j).
Proof.
  assert (Hwf : wf dup_movies) by (apply (bool_decide_unpack _); vm_compute; exact I).
  split; [exact Hwf|]. split; [vm_compute; reflexivity|].
  exact (deleteDuplicateMovies_spec keep_order keep_order_perm dup_movies Hwf).
Defined.

(** Movie A twice with the same [lastupdated]. *)
Definition same_copies : movies :=
  [(sample_movie_id, sample_movie "A" (inject_Z 5)); ("60aa00000000000000000005", sample_movie "A" (inject_Z 5))].

Lemma dedup_misses_same_lastupdated_witness :
  deleteDuplicateMovies keep_order same_copies = (NoDuplicates, same_copies).
Proof.
  apply dedup_misses_same_lastupdated.
  intros i1 m1 i2 m2 x y H1 H2 _ Hx Hy. apply list_elem_of_In in H1, H2. simpl in H1, H2.
  destruct H1 as [[= <- <-]|[[= <- <-]|[]]]; destruct H2 as [[= <- <-]|[[= <- <-]|[]]];
    simpl in Hx, Hy; congruence.
Defined.

Lemma added_movies_never_deduplicated_witness :
  let calls := [(sample_movie_body, 1%Z, "60aa00000000000000000006"); (sample_movie_body, 2%Z, "60aa00000000000000000007")] in
  length (run_adds calls []) = 2 /\
  deleteDuplicateMovies keep_order (run_adds calls []) = (NoDuplicates, run_adds calls []).
Proof.
  intros calls. split; [vm_compute; reflexivity|].
  apply added_movies_never_deduplicated. constructor.
Defined.
