(* ===== verification/AcceptFlow.v ===== *)
(** * AcceptFlow: accepting a movie request, across the two collections

    The admin page (src/frontend/src/components/add-movie.js,
    [acceptRequest]) first adds the requested movie with POST
    /movies/addMovie and, when that answers success, calls PUT
    /movies/acceptRequest, whose handler ([MovieRequestsCtrl.apiAcceptRequest])
    looks the new movie up with [MoviesDAO.getMovies] on its title, year,
    rating and first genre and links the request to the first movie found.
    This file gives the [MovieSearch] interface of MovieRequests.v its
    implementation by [getMovies] (instance [getMovies_search]) and models
    the whole flow ([acceptRequest_flow]).  The theorems show that the
    request is linked to the matching movie with the highest [imdb], which
    is not the movie just added when an older movie with the same title,
    year, rating and genre ranks higher. *)

From S2P Require Import Prelude DocStore JsCore MovieRequests Reviews Movies.
From stdpp Require Import sorting.
From Stdlib Require Import QArith.
Close Scope Q_scope.

(** ** The movie search of [apiAcceptRequest] *)

(** [{ title, year, rated, genres: genre }]: every key is present. *)
Definition accept_query (mf : movie_filters) : filters :=
  {| f_title := Some (mf_title mf); f_genres := Some (mf_genres mf);
     f_rated := Some (mf_rated mf); f_year := Some (ArgNumber (mf_year mf)) |}.

(** [MoviesDAO.getMovies({ filters, page, moviesPerPage })], keeping the ids. *)
#[global] Instance getMovies_search `{TextSearch} : MovieSearch movies :=
  {| search_movie_ids := fun c mf page perPage =>
       (moviesList (MoviesDAO.getMovies (Some (accept_query mf)) (Some page) (Some perPage) c)).*1 |}.

(** ** The admin's accept flow (add-movie.js) *)

(** [movieInfo] of the page: the request's fields, the admin's [imdb] and
    [poster] inputs, and [released.split("T")[0]] of the request's date as
    the JSON answer carries it. *)
Definition flow_movie_body (r : Req.t) (released_json imdb poster : string) : movie_body :=
  {| mb_title := Req.title r; mb_year := ArgNumber (Req.year r); mb_fullplot := Some (Req.fullplot r);
     mb_genres := Some (Req.genres r); mb_imdb := Some imdb; mb_poster := Some poster;
     mb_runtime := ArgNumber (Req.runtime r);
     mb_released := Some (string_at (JsCore.split "T"%char released_json) 0);
     mb_rated := Some (Req.rated r) |}.

(** [data] of [MoviesDataService.acceptRequest(data)]. *)
Definition flow_accept_body (rid : oid) (r : Req.t) : accept_body :=
  {| ab_id := rid; ab_user_id := Req.user_id r; ab_title := Req.title r; ab_year := Req.year r;
     ab_genres := Req.genres r; ab_rated := Req.rated r |}.

(** [if (response.data.status == "success")] *)
Definition is_success (resp : response status_obj) : bool :=
  match resp with Json s => (status_field s =? "success")%string | _ => false end.

Definition acceptRequest_flow `{TextSearch} (rid : oid) (r : Req.t) (released_json imdb poster : string)
    (now : Z) (new_id : oid) (ms : movies) (reqs : requests) : movies * requests :=
  let '(resp, ms') := MoviesCtrl.apiAddMovie (flow_movie_body r released_json imdb poster) now new_id ms in
  if is_success resp
  then (ms', (MovieRequestsCtrl.apiAcceptRequest (flow_accept_body rid r) ms' reqs).2)
  else (ms', reqs).

(** ** Lemmas *)

Section AcceptLemmas.
Context `{TextSearch}.

Lemma search_ids (ms : movies) (mf : movie_filters) :
  search_movie_ids ms mf 0 20 = (take 20 (MoviesDAO.sorted_matches (Some (accept_query mf)) ms)).*1.
Proof.
  change (search_movie_ids ms mf 0 20)
    with ((moviesList (MoviesDAO.getMovies (Some (accept_query mf)) (Some 0%Z) (Some 20%Z) ms)).*1).
  by rewrite getMovies_window by lia.
Qed.

(** The first of the sorted matches has the highest [imdb] of all matches. *)
Lemma sorted_matches_head (f : option filters) (ms : movies) (mid : oid) (m : Movie.t) rest :
  wf ms -> MoviesDAO.sorted_matches f ms = (mid, m) :: rest ->
  view ms !! mid = Some m /\ query_match f m = true /\
  (forall j m', view ms !! j = Some m' -> query_match f m' = true ->
     imdb_compare (Movie.imdb m') (Movie.imdb m) <> Gt).
Proof.
  intros Hwf HS. destruct (sorted_find_spec imdb_desc (fun _ m => query_match f m) ms Hwf) as (_ & Hm & _).
  pose proof (StronglySorted_merge_sort imdb_desc (DocStore.find (fun _ m => query_match f m) ms)) as Hss.
  unfold MoviesDAO.sorted_matches in HS. rewrite HS in Hm, Hss.
  destruct (proj1 (Hm mid m) ltac:(set_solver)) as [Hv Hq]. split_and!; [done|done|].
  intros j m' Hj Hq'. pose proof (proj2 (Hm j m') (conj Hj Hq')) as Hin.
  apply elem_of_cons in Hin as [[= -> ->]|Hin]; [by rewrite (cmp_refl imdb_compare)|].
  apply StronglySorted_inv in Hss as [_ Hall]. rewrite Forall_forall in Hall.
  exact (Hall (j, m') Hin).
Qed.

(** The accept handler on a request id that parses, given the first
    movie found. *)
Lemma apiAcceptRequest_view (b : accept_body) (ms : movies) (c : requests) (i : oid) :
  wf c -> ObjectId (ab_id b) = Ok i ->
  match MoviesDAO.sorted_matches (Some (accept_query (MovieRequestsCtrl.accept_filters b))) ms with
  | [] => MovieRequestsCtrl.apiAcceptRequest b ms c = (Status 500 id_undefined_msg, c)
  | (mid, _) :: _ =>
      view (MovieRequestsCtrl.apiAcceptRequest b ms c).2
        = map_update_if i (owned_by (ab_user_id b)) (Req.set_accepted mid) (view c)
  end.
Proof.
  intros Hwf Hid. unfold MovieRequestsCtrl.apiAcceptRequest. rewrite search_ids.
  destruct (MoviesDAO.sorted_matches _ ms) as [|[mid m] rest]; [done|]. simpl.
  unfold MovieRequestsDAO.acceptRequest, MovieRequestsDAO.update_request.
  pose proof (update_by_id_refines (ab_id b) (owned_by (ab_user_id b)) (Req.set_accepted mid) c i Hwf Hid) as [_ Hv].
  by destruct (update_by_id _ _ _ c).
Qed.
End AcceptLemmas.

(** The movie the flow adds, as [apiAddMovie] stores it. *)
Definition flow_movie (r : Req.t) (released_json imdb poster : string) (now : Z) : Movie.t :=
  let b := flow_movie_body r released_json imdb poster in
  Movie.mk (mb_title b) (parse_num_arg (mb_year b)) (mb_fullplot b) (mb_genres b) (MoviesCtrl.imdbInfo b)
    (mb_poster b) (parse_num_arg (mb_runtime b))
    (released_date (string_at (JsCore.split "T"%char released_json) 0)) (mb_rated b) None (Some now) "movie".

Lemma flow_add_movie (r : Req.t) (released_json imdb poster : string) (now : Z) (new_id : oid) (ms : movies) :
  new_id ∉ ids ms ->
  MoviesCtrl.apiAddMovie (flow_movie_body r released_json imdb poster) now new_id ms
    = (Json status_success, ms ++ [(new_id, flow_movie r released_json imdb poster now)]).
Proof.
  intros Hn. unfold MoviesCtrl.apiAddMovie, MoviesCtrl.movieInfo, MoviesDAO.addMovie, insert_one. simpl.
  by rewrite decide_False.
Qed.

Lemma set_accepted_movie_id (m : oid) (d : Req.t) : Req.movie_id (Req.set_accepted m d) = Some m.
Proof. by destruct d. Qed.

Section AcceptTheorems.
Context `{TextSearch}.

(** C24: [apiAcceptRequest], with its movie search done by
    [MoviesDAO.getMovies], links the request to the matching movie (same
    title phrase, year, rating and first genre) with the highest [imdb],
    or answers 500 when no movie matches. *)
Theorem apiAcceptRequest_links_top_match (b : accept_body) (ms : movies) (c : requests) (i : oid) :
  wf ms -> wf c -> ObjectId (ab_id b) = Ok i ->
  let q := Some (accept_query (MovieRequestsCtrl.accept_filters b)) in
  match MoviesDAO.sorted_matches q ms with
  | [] => MovieRequestsCtrl.apiAcceptRequest b ms c = (Status 500 id_undefined_msg, c)
  | (mid, m) :: _ =>
      view (MovieRequestsCtrl.apiAcceptRequest b ms c).2
        = map_update_if i (owned_by (ab_user_id b)) (Req.set_accepted mid) (view c) /\
      view ms !! mid = Some m /\ query_match q m = true /\
      (forall j m', view ms !! j = Some m' -> query_match q m' = true ->
         imdb_compare (Movie.imdb m') (Movie.imdb m) <> Gt)
  end.
Proof.
  intros Hwm Hwf Hid. cbv zeta. pose proof (apiAcceptRequest_view b ms c i Hwf Hid) as Hv.
  destruct (MoviesDAO.sorted_matches (Some (accept_query (MovieRequestsCtrl.accept_filters b))) ms)
    as [|[mid m] rest] eqn:ES; [done|].
  split; [done|]. exact (sorted_matches_head _ ms mid m rest Hwm ES).
Qed.

(** C25: when the collection already holds a movie with the requested
    title, year, rating and first genre whose [imdb] ranks above the one
    the admin typed, the accept flow of the admin page adds the new movie
    but links the request to another movie: the request's [movie_id] is
    never the id of the movie just added. *)
Theorem accept_flow_links_older_movie (rid : oid) (r : Req.t) (released_json imdb poster : string)
    (now : Z) (new_id : oid) (ms : movies) (reqs : requests) (j0 : oid) (m0 : Movie.t) :
  wf ms -> wf reqs -> new_id ∉ ids ms -> ObjectId rid = Ok rid ->
  view reqs !! rid = Some r -> Req.movie_id r = None ->
  view ms !! j0 = Some m0 ->
  query_match (Some (accept_query (MovieRequestsCtrl.accept_filters (flow_accept_body rid r)))) m0 = true ->
  imdb_compare (Movie.imdb m0) (Movie.imdb (flow_movie r released_json imdb poster now)) = Gt ->
  forall d, view (acceptRequest_flow rid r released_json imdb poster now new_id ms reqs).2 !! rid = Some d ->
  Req.movie_id d <> Some new_id.
Proof.
  intros Hwm Hwf Hn Hid Hr Hnone Hj0 Hq0 Hgt d Hd.
  unfold acceptRequest_flow in Hd. rewrite flow_add_movie in Hd by done. simpl in Hd.
  set (ms' := ms ++ [(new_id, flow_movie r released_json imdb poster now)]) in *.
  assert (Hwm' : wf ms') by (apply (wf_insert_one new_id (flow_movie r released_json imdb poster now) ms) in Hwm;
                               unfold insert_one in Hwm; by rewrite decide_False in Hwm).
  assert (Hv' : view ms' = <[new_id := flow_movie r released_json imdb poster now]> (view ms)).
  { pose proof (insert_one_refines new_id (flow_movie r released_json imdb poster now) ms Hn) as Hi.
    unfold insert_one in Hi. by rewrite decide_False in Hi. }
  assert (Hne : j0 <> new_id) by (intros ->; apply Hn, view_lookup_ids; by eexists).
  assert (Hj0' : view ms' !! j0 = Some m0) by (by rewrite Hv', lookup_insert_ne by congruence).
  pose proof (apiAcceptRequest_view (flow_accept_body rid r) ms' reqs rid Hwf Hid) as Hacc.
  destruct (MoviesDAO.sorted_matches (Some (accept_query (MovieRequestsCtrl.accept_filters (flow_accept_body rid r)))) ms')
    as [|[mid h] rest] eqn:ES.
  - exfalso.
    destruct (sorted_find_spec imdb_desc
      (fun _ m => query_match (Some (accept_query (MovieRequestsCtrl.accept_filters (flow_accept_body rid r)))) m)
      ms' Hwm') as (_ & Hm & _).
    unfold MoviesDAO.sorted_matches in ES. rewrite ES in Hm.
    apply (not_elem_of_nil (j0, m0)), (proj2 (Hm j0 m0)). by split.
  - destruct (sorted_matches_head _ ms' mid h rest Hwm' ES) as (Hh & _ & Hmax).
    rewrite Hacc, map_update_if_lookup_eq, decide_True, Hr in Hd by done.
    simpl in Hd. injection Hd as <-.
    destruct (owned_by _ r); [|by rewrite Hnone].
    rewrite set_accepted_movie_id. intros [= ->].
    rewrite Hv', lookup_insert_eq in Hh. injection Hh as <-.
    by apply (Hmax j0 m0 Hj0' Hq0).
Qed.
End AcceptTheorems.

(** ** Witnesses: the request for "Cosmos" while an older "Cosmos" is rated higher *)

#[local] Instance title_search : TextSearch :=
  {| phrase_match := fun t m => (t =? Movie.title m)%string |}.

Definition older_cosmos : Movie.t :=
  Movie.mk "Cosmos" (Some 1980%Z) (Some "The 1980 series.") (Some ["Documentary"])
    (Movie.mk_imdb (Fin (inject_Z 9)) (js_of_Z 40000) (js_of_Z 81846)) None (Some 60%Z) (DateArgs 1980 8 28)
    (Some "TV-PG") (Some "2015-09-01 00:00:00") None "movie".

Definition older_id : oid := "60aa00000000000000000010".
Definition added_id : oid := "60aa00000000000000000011".
Definition cosmos_movies : movies := [(older_id, older_cosmos)].
Definition cosmos_released : string := "1980-09-28T00:00:00.000Z".

Lemma accept_flow_links_older_movie_witness :
  (acceptRequest_flow sample_id (sample_request "pending") cosmos_released "7.5,12,1" "" 5 added_id
     cosmos_movies sample_requests).2
    = [(sample_id, Req.set_accepted older_id (sample_request "pending"))] /\
  forall d, view (acceptRequest_flow sample_id (sample_request "pending") cosmos_released "7.5,12,1" "" 5
                    added_id cosmos_movies sample_requests).2 !! sample_id = Some d ->
  Req.movie_id d <> Some added_id.
Proof.
  split; [vm_compute; reflexivity|].
  apply (accept_flow_links_older_movie _ _ _ _ _ _ _ _ _ older_id older_cosmos).
  - apply NoDup_singleton.
  - exact sample_wf.
  - apply (bool_decide_unpack _). vm_compute. exact I.
  - reflexivity.
  - reflexivity.
  - reflexivity.
  - reflexivity.
  - vm_compute. reflexivity.
  - vm_compute. reflexivity.
Defined.

Lemma apiAcceptRequest_links_top_match_witness :
  let ms := cosmos_movies ++ [(added_id, flow_movie (sample_request "pending") cosmos_released "7.5,12,1" "" 5)] in
  let b := flow_accept_body sample_id (sample_request "pending") in
  MoviesDAO.sorted_matches (Some (accept_query (MovieRequestsCtrl.accept_filters b))) ms =
    [(older_id, older_cosmos); (added_id, flow_movie (sample_request "pending") cosmos_released "7.5,12,1" "" 5)] /\
  match MoviesDAO.sorted_matches (Some (accept_query (MovieRequestsCtrl.accept_filters b))) ms with
  | [] => MovieRequestsCtrl.apiAcceptRequest b ms sample_requests = (Status 500 id_undefined_msg, sample_requests)
  | (mid, m) :: _ =>
      view (MovieRequestsCtrl.apiAcceptRequest b ms sample_requests).2
        = map_update_if sample_id (owned_by (ab_user_id b)) (Req.set_accepted mid) (view sample_requests) /\
      view ms !! mid = Some m /\ query_match (Some (accept_query (MovieRequestsCtrl.accept_filters b))) m = true /\
      (forall j m', view ms !! j = Some m' -> query_match (Some (accept_query (MovieRequestsCtrl.accept_filters b))) m' = true ->
         imdb_compare (Movie.imdb m') (Movie.imdb m) <> Gt)
  end.
Proof.
  intros ms b. split; [vm_compute; reflexivity|].
  assert (Hwm : wf ms) by (apply (bool_decide_unpack _); vm_compute; exact I).
  exact (apiAcceptRequest_links_top_match b ms sample_requests sample_id Hwm sample_wf sample_id_ok).
Defined.
