(* ===== verification/FrontService.v ===== *)
(** * FrontService: the frontend's data service and the backend's routes

    Models src/frontend/src/services/movies.js (Module
    [MoviesDataService]: the HTTP call each method issues, and the query
    string [formatFilteredSearch] builds for a movie search) and the route
    table of src/backend/api/movies.route.js (Module [Routes]).  Between
    the two sit axios and Express: axios joins the method's URL to the
    base URL of the service, and Express matches the path against the
    route table and parses the query string into [req.query] ([qs]).  The
    theorems show that every call of the service reaches the handler it
    names, and that the query a movie search sends is the one the server
    reads back, for filters without the characters the URL syntax
    reserves. *)

From S2P Require Import Prelude JsCore.

(** ** HTTP calls *)

Inductive http_method := GET | POST | PUT | DELETE.

#[export] Instance http_method_eq_dec : EqDecision http_method.
Proof. solve_decision. Defined.

(** The method and the URL, relative to the base URL of the service, of
    [http.get(url)], [http.post(url, data)], [http.put(url, data)] or
    [http.delete(url, config)]; the body is the caller's [data], passed
    through unchanged. *)
Record http_call := mk_call { call_method : http_method; call_url : string }.

(** [{ filters, findBys }]: the search terms and the field each one is
    searched in, as the movie list page and the movie form build them. *)
Record search_params := mk_params { sp_filters : list string; sp_findBys : list string }.

Module MoviesDataService.

(** [formatFilteredSearch]: the test [filters.length = findBys.length] is
    an assignment, whose value is [findBys.length]: it is true unless
    [findBys] is empty, and it resizes [filters] to [findBys.length] (an
    element past the old end reads as [undefined]).  Both callers pass
    arrays of the same length, on which the resizing changes nothing. *)
Definition formatFilteredSearch (sp : search_params) : string :=
  let filters := sp_filters sp in
  let findBys := sp_findBys sp in
  match length findBys with
  | O => ""
  | S k =>
      fold_left (fun q i => q +:+ string_at findBys i +:+ "=" +:+ string_at filters i +:+ "&")
        (seq 0 k) "?"
        +:+ string_at findBys k +:+ "=" +:+ string_at filters k
  end.

Definition getAll (page : Z) : http_call := mk_call GET ("?page=" +:+ number_to_string page).

(** [find(filters, page = 0)]: [None] is the empty string the movie list
    passes when no filter is on ([if (filters)] is false); an object is
    always true. *)
Definition find (filters : option search_params) (page : Z) : http_call :=
  match filters with
  | Some sp => mk_call GET (formatFilteredSearch sp +:+ "&page=" +:+ number_to_string page)
  | None => mk_call GET ("?page=" +:+ number_to_string page)
  end.

Definition getGenres : http_call := mk_call GET "/genres".
Definition getRated : http_call := mk_call GET "/rated".
Definition get (id : string) : http_call := mk_call GET ("/id/" +:+ id).
Definition createReview : http_call := mk_call POST "/reviews".
Definition editReview : http_call := mk_call PUT "/reviews".
Definition deleteReview (reviewId : string) : http_call := mk_call DELETE ("/reviews?id=" +:+ reviewId).
Definition getUserReviews (email : string) : http_call := mk_call GET ("/userReviews?user_id=" +:+ email).
Definition getMoviesReviewed (email : string) : http_call := mk_call GET ("/moviesReviewed?user_id=" +:+ email).
Definition getUserByEmail (email : string) : http_call := mk_call GET ("/userData?email=" +:+ email).
Definition getUserRole (email : string) : http_call := mk_call GET ("/role?email=" +:+ email).
Definition changeUserName : http_call := mk_call PUT "/changeUserName".
Definition changePassword : http_call := mk_call PUT "/changePassword".
Definition changeProfilePic : http_call := mk_call PUT "/changepfp".
Definition deleteAccount : http_call := mk_call PUT "/account".
Definition editReviewUserNames : http_call := mk_call PUT "/reviewsUpdateUserName".
Definition addMovie : http_call := mk_call POST "/addMovie".
Definition addRequest : http_call := mk_call POST "/addRequest".
Definition getRequests (email : string) : http_call := mk_call GET ("/getRequests?email=" +:+ email).
Definition getAllRequests : http_call := mk_call GET "/reviewRequests".
Definition deleteRequest (request_id : string) : http_call := mk_call DELETE ("/deleteRequest?id=" +:+ request_id).
Definition denyRequest : http_call := mk_call PUT "/denyRequest".
Definition deactivateRequest : http_call := mk_call PUT "/deactivateRequest".
Definition acceptRequest : http_call := mk_call PUT "/acceptRequest".

End MoviesDataService.

(** ** The route table of movies.route.js *)

Module Routes.

(** The handlers the router names, by their controller. *)
Inductive handler :=
| MoviesCtrl_apiGetMovies | MoviesCtrl_apiGetGenres | MoviesCtrl_apiGetRated
| MoviesCtrl_apiGetMoviesById
| Auth0Ctrl_apiGetUserByEmail | ReviewsCtrl_apiGetUserReviews
| ReviewsCtrl_apiGetUserReviewMovies | Auth0Ctrl_apiCheckRole
| Auth0Ctrl_apiChangeUserName | Auth0Ctrl_apiChangePassword
| Auth0Ctrl_apiChangeProfilePic | Auth0Ctrl_apiDeleteAccount
| ReviewsCtrl_apiAddReview | ReviewsCtrl_apiEditReview | ReviewsCtrl_apiDeleteReview
| ReviewsCtrl_apiEditReviewUserName
| MoviesCtrl_apiDeleteDuplicates | MoviesCtrl_apiAddMovie
| MovieRequestsCtrl_apiSendRequest | MovieRequestsCtrl_apiGetRequests
| MovieRequestsCtrl_apiDeleteRequest | MovieRequestsCtrl_apiGetAllRequests
| MovieRequestsCtrl_apiDenyRequest | MovieRequestsCtrl_apiDeactivateRequest
| MovieRequestsCtrl_apiAcceptRequest.

#[export] Instance handler_eq_dec : EqDecision handler.
Proof. solve_decision. Defined.

(** [/id/:id]: a non-empty segment without a slash. *)
Definition id_param (path : string) : option string :=
  match path with
  | String "/" (String "i" (String "d" (String "/" id))) =>
      if String.eqb id "" || existsb (fun c => Ascii.eqb c "/") (list_ascii_of_string id)
      then None else Some id
  | _ => None
  end.

(** The handler of a method and a path under the router's mount point. *)
Definition router (m : http_method) (path : string) : option handler :=
  match m, path with
  | GET, "/" => Some MoviesCtrl_apiGetMovies
  | GET, "/genres" => Some MoviesCtrl_apiGetGenres
  | GET, "/rated" => Some MoviesCtrl_apiGetRated
  | GET, "/userData" => Some Auth0Ctrl_apiGetUserByEmail
  | GET, "/userReviews" => Some ReviewsCtrl_apiGetUserReviews
  | GET, "/moviesReviewed" => Some ReviewsCtrl_apiGetUserReviewMovies
  | GET, "/role" => Some Auth0Ctrl_apiCheckRole
  | PUT, "/changeUserName" => Some Auth0Ctrl_apiChangeUserName
  | PUT, "/changePassword" => Some Auth0Ctrl_apiChangePassword
  | PUT, "/changepfp" => Some Auth0Ctrl_apiChangeProfilePic
  | PUT, "/account" => Some Auth0Ctrl_apiDeleteAccount
  | POST, "/reviews" => Some ReviewsCtrl_apiAddReview
  | PUT, "/reviews" => Some ReviewsCtrl_apiEditReview
  | DELETE, "/reviews" => Some ReviewsCtrl_apiDeleteReview
  | PUT, "/reviewsUpdateUserName" => Some ReviewsCtrl_apiEditReviewUserName
  | DELETE, "/deleteDups" => Some MoviesCtrl_apiDeleteDuplicates
  | POST, "/addMovie" => Some MoviesCtrl_apiAddMovie
  | POST, "/addRequest" => Some MovieRequestsCtrl_apiSendRequest
  | GET, "/getRequests" => Some MovieRequestsCtrl_apiGetRequests
  | DELETE, "/deleteRequest" => Some MovieRequestsCtrl_apiDeleteRequest
  | GET, "/reviewRequests" => Some MovieRequestsCtrl_apiGetAllRequests
  | PUT, "/denyRequest" => Some MovieRequestsCtrl_apiDenyRequest
  | PUT, "/deactivateRequest" => Some MovieRequestsCtrl_apiDeactivateRequest
  | PUT, "/acceptRequest" => Some MovieRequestsCtrl_apiAcceptRequest
  | GET, _ => match id_param path with Some _ => Some MoviesCtrl_apiGetMoviesById | None => None end
  | _, _ => None
  end%string.

End Routes.

(** ** From a URL to [req.path] and [req.query]

    axios joins a relative URL to the base URL of the service with one
    slash; the URL ends at its first ['#'] (the fragment stays in the
    browser); the path is what precedes the first ['?'] and the query what
    follows it; the router, mounted at [/api/v1/movies], sees the path
    after the mount point.  Express parses the query with [qs]: the pieces
    between ['&'], each split at its first ['='] (a piece without one has
    the value [""]), pieces with an empty key dropped, and a key given
    twice read as an array; each side of a piece is decoded
    ([qs_decode]: ['+'] is a space, then percent-decoding).  The service
    does not encode what it puts in a URL: the decoding is the identity on
    the text of [plain] strings, which hold none of the characters the
    query syntax gives a meaning to. *)

Fixpoint break_at (sep : ascii) (l : list ascii) : list ascii * option (list ascii) :=
  match l with
  | [] => ([], None)
  | c :: l' => if Ascii.eqb c sep then ([], Some l') else let '(a, b) := break_at sep l' in (c :: a, b)
  end.

Fixpoint drop_slashes (l : list ascii) : list ascii :=
  match l with
  | "/"%char :: l' => drop_slashes l'
  | _ => l
  end.

(** The path: the characters before the first ['?'] or ['#']. *)
Fixpoint path_part (l : list ascii) : list ascii :=
  match l with
  | [] => []
  | c :: l' => if Ascii.eqb c "?" || Ascii.eqb c "#" then [] else c :: path_part l'
  end.

Fixpoint fragment_cut (l : list ascii) : list ascii :=
  match l with
  | [] => []
  | c :: l' => if Ascii.eqb c "#" then [] else c :: fragment_cut l'
  end.

(** The query: after the first ['?'], when it comes before any ['#']. *)
Fixpoint query_part (l : list ascii) : option (list ascii) :=
  match l with
  | [] => None
  | c :: l' =>
      if Ascii.eqb c "#" then None
      else if Ascii.eqb c "?" then Some (fragment_cut l') else query_part l'
  end.

Definition router_path (url : string) : string :=
  String "/" (string_of_list_ascii (drop_slashes (path_part (list_ascii_of_string url)))).

Definition query_string (url : string) : string :=
  match query_part (list_ascii_of_string url) with Some q => string_of_list_ascii q | None => "" end.

(** [decodeURIComponent] on ASCII text: a ['%'] must start two hex
    digits; [None] is the [URIError] of a malformed sequence.  A byte of
    0x80 or more starts the UTF-8 of a character outside the ASCII
    strings of the model and is read as malformed. *)
Fixpoint pct_decode (l : list ascii) : option (list ascii) :=
  match l with
  | [] => Some []
  | c :: l' =>
      if Ascii.eqb c "%" then
        match l' with
        | h1 :: h2 :: r =>
            match digit_value 16 h1, digit_value 16 h2 with
            | Some a, Some b =>
                if a * 16 + b <? 128 then cons (ascii_of_nat (a * 16 + b)) <$> pct_decode r else None
            | _, _ => None
            end
        | _ => None
        end
      else cons c <$> pct_decode l'
  end.

Definition plus_to_space (c : ascii) : ascii := if Ascii.eqb c "+" then " "%char else c.

(** The decoder of [qs] ([utils.decode]): ['+'] is a space, then
    [decodeURIComponent], and the text with only the ['+'] replaced when
    that throws. *)
Definition qs_decode (s : string) : string :=
  let l := map plus_to_space (list_ascii_of_string s) in
  string_of_list_ascii (default l (pct_decode l)).

(** A piece [key=value] of the query, both sides decoded. *)
Definition query_piece (piece : string) : option (string * string) :=
  let '(k, v) := break_at "=" (list_ascii_of_string piece) in
  match k with
  | [] => None
  | _ => Some (qs_decode (string_of_list_ascii k), match v with Some v => qs_decode (string_of_list_ascii v) | None => "" end)
  end.

Definition parse_query (q : string) : list (string * string) := omap query_piece (JsCore.split "&" q).

Inductive qvalue := QStr (s : string) | QArr (l : list string).

Definition query_get (ps : list (string * string)) (k : string) : option qvalue :=
  match (List.filter (fun kv => String.eqb kv.1 k) ps).*2 with
  | [] => None
  | [v] => Some (QStr v)
  | vs => Some (QArr vs)
  end.

Definition reserved (c : ascii) : bool :=
  existsb (Ascii.eqb c) ["&"; "="; "#"; "%"; "+"; "?"]%char.

Definition plain (s : string) : bool := negb (existsb reserved (list_ascii_of_string s)).

(** ** The calls of the service and the handler each one names *)

Inductive service_call :=
| SGetAll (page : Z) | SFind (filters : option search_params) (page : Z)
| SGetGenres | SGetRated | SGet (id : string)
| SCreateReview | SEditReview | SDeleteReview (reviewId : string)
| SGetUserReviews (email : string) | SGetMoviesReviewed (email : string)
| SGetUserByEmail (email : string) | SGetUserRole (email : string)
| SChangeUserName | SChangePassword | SChangeProfilePic | SDeleteAccount
| SEditReviewUserNames | SAddMovie | SAddRequest | SGetRequests (email : string)
| SGetAllRequests | SDeleteRequest (request_id : string)
| SDenyRequest | SDeactivateRequest | SAcceptRequest.

Definition service_request (c : service_call) : http_call :=
  match c with
  | SGetAll p => MoviesDataService.getAll p
  | SFind f p => MoviesDataService.find f p
  | SGetGenres => MoviesDataService.getGenres
  | SGetRated => MoviesDataService.getRated
  | SGet id => MoviesDataService.get id
  | SCreateReview => MoviesDataService.createReview
  | SEditReview => MoviesDataService.editReview
  | SDeleteReview r => MoviesDataService.deleteReview r
  | SGetUserReviews e => MoviesDataService.getUserReviews e
  | SGetMoviesReviewed e => MoviesDataService.getMoviesReviewed e
  | SGetUserByEmail e => MoviesDataService.getUserByEmail e
  | SGetUserRole e => MoviesDataService.getUserRole e
  | SChangeUserName => MoviesDataService.changeUserName
  | SChangePassword => MoviesDataService.changePassword
  | SChangeProfilePic => MoviesDataService.changeProfilePic
  | SDeleteAccount => MoviesDataService.deleteAccount
  | SEditReviewUserNames => MoviesDataService.editReviewUserNames
  | SAddMovie => MoviesDataService.addMovie
  | SAddRequest => MoviesDataService.addRequest
  | SGetRequests e => MoviesDataService.getRequests e
  | SGetAllRequests => MoviesDataService.getAllRequests
  | SDeleteRequest r => MoviesDataService.deleteRequest r
  | SDenyRequest => MoviesDataService.denyRequest
  | SDeactivateRequest => MoviesDataService.deactivateRequest
  | SAcceptRequest => MoviesDataService.acceptRequest
  end.

(** The handler each method of the service is written for, by its name
    and its doc comment. *)
Definition service_handler (c : service_call) : Routes.handler :=
  match c with
  | SGetAll _ | SFind _ _ => Routes.MoviesCtrl_apiGetMovies
  | SGetGenres => Routes.MoviesCtrl_apiGetGenres
  | SGetRated => Routes.MoviesCtrl_apiGetRated
  | SGet _ => Routes.MoviesCtrl_apiGetMoviesById
  | SCreateReview => Routes.ReviewsCtrl_apiAddReview
  | SEditReview => Routes.ReviewsCtrl_apiEditReview
  | SDeleteReview _ => Routes.ReviewsCtrl_apiDeleteReview
  | SGetUserReviews _ => Routes.ReviewsCtrl_apiGetUserReviews
  | SGetMoviesReviewed _ => Routes.ReviewsCtrl_apiGetUserReviewMovies
  | SGetUserByEmail _ => Routes.Auth0Ctrl_apiGetUserByEmail
  | SGetUserRole _ => Routes.Auth0Ctrl_apiCheckRole
  | SChangeUserName => Routes.Auth0Ctrl_apiChangeUserName
  | SChangePassword => Routes.Auth0Ctrl_apiChangePassword
  | SChangeProfilePic => Routes.Auth0Ctrl_apiChangeProfilePic
  | SDeleteAccount => Routes.Auth0Ctrl_apiDeleteAccount
  | SEditReviewUserNames => Routes.ReviewsCtrl_apiEditReviewUserName
  | SAddMovie => Routes.MoviesCtrl_apiAddMovie
  | SAddRequest => Routes.MovieRequestsCtrl_apiSendRequest
  | SGetRequests _ => Routes.MovieRequestsCtrl_apiGetRequests
  | SGetAllRequests => Routes.MovieRequestsCtrl_apiGetAllRequests
  | SDeleteRequest _ => Routes.MovieRequestsCtrl_apiDeleteRequest
  | SDenyRequest => Routes.MovieRequestsCtrl_apiDenyRequest
  | SDeactivateRequest => Routes.MovieRequestsCtrl_apiDeactivateRequest
  | SAcceptRequest => Routes.MovieRequestsCtrl_apiAcceptRequest
  end.

(** What the routing needs of the arguments: a movie id is one non-empty
    path segment, and a search has at least one filter (with none,
    [formatFilteredSearch] is [""] and the URL [&page=n] has no [?]). *)
Definition routable (c : service_call) : bool :=
  match c with
  | SGet id => negb (String.eqb id "") && negb (existsb (fun c => Ascii.eqb c "/" || reserved c) (list_ascii_of_string id))
  | SFind (Some sp) _ => negb (bool_decide (sp_findBys sp = []))
  | _ => true
  end.

(** ** Lemmas on URLs *)

Lemma reserved_plain (s : string) :
  plain s = true -> Forall (fun c => reserved c = false) (list_ascii_of_string s).
Proof.
  unfold plain. rewrite negb_true_iff. induction (list_ascii_of_string s) as [|c l IH]; simpl; [constructor|].
  rewrite orb_false_iff. intros [Hc Hl]. constructor; auto.
Qed.

Lemma path_part_plain (l : list ascii) : Forall (fun c => reserved c = false) l -> path_part l = l.
Proof.
  induction 1 as [|c l Hc _ IH]; [done|]. simpl. rewrite IH.
  unfold reserved in Hc. simpl in Hc. repeat rewrite orb_false_iff in Hc.
  destruct Hc as (_ & _ & Hh & _ & _ & Hq & _). by rewrite Hq, Hh.
Qed.

Lemma fragment_cut_id (l : list ascii) : Forall (fun c => Ascii.eqb c "#" = false) l -> fragment_cut l = l.
Proof. induction 1 as [|c l Hc _ IH]; [done|]. simpl. by rewrite Hc, IH. Qed.

Lemma reserved_false (c : ascii) :
  reserved c = false ->
  Ascii.eqb c "#" = false /\ Ascii.eqb c "&" = false /\ Ascii.eqb c "=" = false.
Proof.
  unfold reserved. simpl. rewrite !orb_false_iff. intros (Ha & He & Hh & _). split_and!; assumption.
Qed.

(** The decoder leaves text without ['%'] and ['+'] unchanged. *)
Lemma qs_decode_free (l : list ascii) :
  Forall (fun c => reserved c = false) l -> qs_decode (string_of_list_ascii l) = string_of_list_ascii l.
Proof.
  intros Hl. unfold qs_decode. cbv zeta. rewrite list_ascii_of_string_of_list_ascii.
  assert (Hp : map plus_to_space l = l /\ pct_decode l = Some l); [|by destruct Hp as [-> ->]].
  induction Hl as [|c l Hc _ [IH1 IH2]]; [done|]. unfold reserved in Hc. simpl in Hc.
  rewrite !orb_false_iff in Hc. destruct Hc as (_ & _ & _ & Hpc & Hpl & _).
  cbn [map pct_decode]. rewrite Hpc, IH1, IH2. unfold plus_to_space. by rewrite Hpl.
Qed.

Lemma qs_decode_plain (s : string) : plain s = true -> qs_decode s = s.
Proof.
  intros Hs. rewrite <- (string_of_list_ascii_of_string s). apply qs_decode_free, reserved_plain, Hs.
Qed.

Lemma plain_chars (s : string) (sep : ascii) :
  plain s = true -> sep = "#"%char \/ sep = "&"%char \/ sep = "="%char ->
  Forall (fun c => Ascii.eqb c sep = false) (list_ascii_of_string s).
Proof.
  intros Hs Hsep. apply reserved_plain in Hs. eapply Forall_impl; [exact Hs|].
  intros c Hc. destruct (reserved_false c Hc) as (Hh & Ha & He).
  by destruct Hsep as [-> | [-> | ->]].
Qed.

(** The loop of [formatFilteredSearch] only appends to its accumulator. *)
Lemma fold_append_prefix {A} (g : A -> string) (l : list A) (c : ascii) (r : string) :
  fold_left (fun q i => q +:+ g i) l (String c r) = String c (fold_left (fun q i => q +:+ g i) l r).
Proof. revert r. induction l as [|x l IH]; intros r; simpl; [done|]. apply IH. Qed.

Lemma formatFilteredSearch_head (sp : search_params) :
  sp_findBys sp <> [] ->
  exists rest, MoviesDataService.formatFilteredSearch sp = String "?" rest.
Proof.
  unfold MoviesDataService.formatFilteredSearch. destruct (length (sp_findBys sp)) eqn:E.
  - intros Hne. by apply nil_length_inv in E.
  - intros _. change "?"%string with (String "?" ""). rewrite fold_append_prefix. by eexists.
Qed.

(** C26: every call of the frontend's data service reaches, through the
    route table of movies.route.js, the handler the method is written
    for, when the movie id of [get] is one path segment and a search has
    a filter. *)
Theorem service_calls_routed (c : service_call) :
  routable c = true ->
  Routes.router (call_method (service_request c)) (router_path (call_url (service_request c)))
    = Some (service_handler c).
Proof.
  destruct c as [p|[sp|] p| | |id| | |r|e|e|e|e| | | | | | | |e| |r| | | ]; simpl; intros Hr;
    try reflexivity.
  - apply negb_true_iff, bool_decide_eq_false in Hr.
    destruct (formatFilteredSearch_head sp Hr) as [rest ->]. reflexivity.
  - apply andb_true_iff in Hr as [Hne Hid]. apply negb_true_iff in Hne, Hid.
    assert (Hp : Forall (fun c => reserved c = false) (list_ascii_of_string id)).
    { revert Hid. clear. induction (list_ascii_of_string id) as [|c l IH]; simpl; [constructor|].
      rewrite !orb_false_iff. intros [[_ Hc] Hl]. constructor; auto. }
    unfold router_path. rewrite list_ascii_of_string_app. cbn [list_ascii_of_string app path_part].
    rewrite path_part_plain by done. cbn. rewrite string_of_list_ascii_of_string, Hne.
    assert (Hsl : existsb (fun c => Ascii.eqb c "/") (list_ascii_of_string id) = false).
    { revert Hid. clear. induction (list_ascii_of_string id) as [|c l IH]; simpl; [done|].
      rewrite !orb_false_iff. intros [[Hc _] Hl]. rewrite Hc. auto. }
    by rewrite Hsl.
Qed.

(** ** The query of a movie search, as the server reads it *)

(** The characters of [key=value]. *)
Definition piece_chars (kv : string * string) : list ascii :=
  list_ascii_of_string kv.1 ++ "="%char :: list_ascii_of_string kv.2.

Lemma fold_chars (g : nat -> string) (l : list nat) (r : string) :
  list_ascii_of_string (fold_left (fun q i => q +:+ g i) l r)
    = list_ascii_of_string r ++ concat (map (fun i => list_ascii_of_string (g i)) l).
Proof.
  revert r. induction l as [|i l IH]; intros r; simpl; [by rewrite app_nil_r|].
  by rewrite IH, list_ascii_of_string_app, app_assoc.
Qed.

Lemma map_seq_pairs (A B : list string) :
  length A = length B ->
  map (fun i => (string_at A i, string_at B i)) (seq 0 (length A)) = zip A B.
Proof.
  revert B. induction A as [|a A IH]; intros [|b B] Hl; simpl in *; try done.
  f_equal. rewrite <- seq_shift, map_map. apply IH. lia.
Qed.

Lemma formatFilteredSearch_chars (sp : search_params) (tail : string) :
  length (sp_filters sp) = length (sp_findBys sp) -> sp_findBys sp <> [] ->
  list_ascii_of_string (MoviesDataService.formatFilteredSearch sp +:+ "&" +:+ tail)
    = "?"%char :: concat (map (fun kv => piece_chars kv ++ ["&"%char]) (zip (sp_findBys sp) (sp_filters sp)))
        ++ list_ascii_of_string tail.
Proof.
  intros Hl Hne. unfold MoviesDataService.formatFilteredSearch.
  rewrite <- (map_seq_pairs (sp_findBys sp) (sp_filters sp)) by lia.
  destruct (length (sp_findBys sp)) as [|k] eqn:Ek; [by apply nil_length_inv in Ek|].
  rewrite !list_ascii_of_string_app.
  rewrite (fold_chars (fun i => string_at (sp_findBys sp) i +:+ "=" +:+ string_at (sp_filters sp) i +:+ "&")).
  rewrite seq_S, !map_app, concat_app. unfold piece_chars. simpl.
  rewrite ?list_ascii_of_string_app. simpl. rewrite <- ?app_assoc. simpl.
  rewrite map_map. do 3 f_equal. apply map_ext. intros i. rewrite !list_ascii_of_string_app. simpl.
  by rewrite <- !app_assoc.
Qed.

Lemma query_part_head (l : list ascii) : query_part ("?"%char :: l) = Some (fragment_cut l).
Proof. reflexivity. Qed.

Lemma break_at_sep (sep : ascii) (l1 l2 : list ascii) :
  Forall (fun c => Ascii.eqb c sep = false) l1 -> break_at sep (l1 ++ sep :: l2) = (l1, Some l2).
Proof.
  induction 1 as [|c l Hc _ IH]; simpl; [by rewrite Ascii.eqb_refl|]. by rewrite Hc, IH.
Qed.

Lemma digit_chars_plain (ds : list nat) :
  Forall (fun d => d < 10) ds -> existsb reserved (digit_char <$> ds) = false.
Proof.
  induction 1 as [|d ds Hd _ IH]; [done|]. cbn [fmap list_fmap existsb]. rewrite IH, orb_false_r.
  do 10 (destruct d as [|d]; [reflexivity|]). lia.
Qed.

(** [String(n)] holds digits and a sign only. *)
Lemma number_to_string_plain (z : Z) : plain (number_to_string z) = true.
Proof.
  destruct (Z.eqb_spec z 0) as [->|Hz]; [reflexivity|].
  destruct (decimal_digits_spec z Hz) as (_ & Hsmall & _).
  rewrite number_to_string_digits by done. unfold plain. rewrite list_ascii_of_string_of_list_ascii.
  rewrite existsb_app, digit_chars_plain by done. by destruct (z <? 0)%Z.
Qed.

Lemma piece_chars_free (kv : string * string) (sep : ascii) :
  plain kv.1 = true -> plain kv.2 = true -> sep = "#"%char \/ sep = "&"%char ->
  Forall (fun c => Ascii.eqb c sep = false) (piece_chars kv).
Proof.
  intros H1 H2 Hsep. unfold piece_chars. apply Forall_app. split; [|constructor].
  - apply plain_chars; [done | tauto].
  - by destruct Hsep as [-> | ->].
  - apply plain_chars; [done | tauto].
Qed.

Lemma query_piece_chars (kv : string * string) :
  kv.1 <> ""%string -> plain kv.1 = true -> plain kv.2 = true ->
  query_piece (string_of_list_ascii (piece_chars kv)) = Some kv.
Proof.
  destruct kv as [k v]. simpl. intros Hk Hp Hv. unfold query_piece, piece_chars.
  rewrite list_ascii_of_string_of_list_ascii, break_at_sep by (apply plain_chars; [done | tauto]).
  destruct k as [|c k]; [done|]. rewrite !string_of_list_ascii_of_string.
  by rewrite !qs_decode_plain.
Qed.

(** The query string of a movie search round-trips: when the filters
    and the fields are as many, at least one, and hold none of the
    characters the query syntax reserves, [req.query] holds each field with
    its filter, and the page. *)
Theorem find_query_roundtrip (sp : search_params) (page : Z) :
  length (sp_filters sp) = length (sp_findBys sp) -> sp_findBys sp <> [] ->
  Forall (fun kv => kv.1 <> ""%string /\ plain kv.1 = true /\ plain kv.2 = true)
    (zip (sp_findBys sp) (sp_filters sp)) ->
  parse_query (query_string (call_url (MoviesDataService.find (Some sp) page)))
    = zip (sp_findBys sp) (sp_filters sp) ++ [("page", number_to_string page)].
Proof.
  intros Hl Hne Hps. unfold query_string. cbn [MoviesDataService.find call_url].
  change (MoviesDataService.formatFilteredSearch sp +:+ "&page=" +:+ number_to_string page)
    with (MoviesDataService.formatFilteredSearch sp +:+ "&" +:+ ("page=" +:+ number_to_string page)).
  rewrite formatFilteredSearch_chars by done. rewrite query_part_head.
  assert (Hn := number_to_string_plain page).
  set (ps := zip (sp_findBys sp) (sp_filters sp)) in *.
  assert (Hfree : forall sep, sep = "#"%char \/ sep = "&"%char ->
            Forall (Forall (fun c => Ascii.eqb c sep = false)) (map piece_chars ps) /\
            Forall (fun c => Ascii.eqb c sep = false) (list_ascii_of_string ("page=" +:+ number_to_string page))).
  { intros sep Hsep. split.
    - apply Forall_map. eapply Forall_impl; [exact Hps|]. intros kv (_ & H1 & H2).
      by apply piece_chars_free.
    - rewrite list_ascii_of_string_app. apply Forall_app. split; [by destruct Hsep as [-> | ->]; repeat constructor|].
      apply plain_chars; [done | tauto]. }
  rewrite fragment_cut_id.
  2:{ destruct (Hfree "#"%char (or_introl eq_refl)) as [_ Hy]. apply Forall_app. split; [|done].
      apply Forall_concat, Forall_map. eapply Forall_impl; [exact Hps|].
      intros kv (_ & H1 & H2). apply Forall_app. split; [by apply piece_chars_free; [..|left]|].
      by repeat constructor. }
  destruct (Hfree "&"%char (or_intror eq_refl)) as [Hx Hy].
  replace (map (fun kv => piece_chars kv ++ ["&"%char]) ps)
    with (map (fun x => x ++ ["&"%char]) (map piece_chars ps)) by (by rewrite map_map).
  unfold parse_query. rewrite split_terminated by done.
  rewrite omap_app, string_of_list_ascii_of_string. f_equal.
  - clear Hx Hfree. induction Hps as [|kv ps' [Hk [Hp Hv]] _ IH]; [done|].
    rewrite !map_cons, (omap_cons_Some _ _ _ kv) by (by apply query_piece_chars). by rewrite IH.
  - rewrite (omap_cons_Some _ _ _ ("page", number_to_string page)); [done|].
    unfold query_piece. rewrite list_ascii_of_string_app. simpl. rewrite string_of_list_ascii_of_string.
    by rewrite (qs_decode_plain (number_to_string page) (number_to_string_plain page)).
Qed.

(** ** Witnesses *)

Definition sample_params : search_params := mk_params ["Cosmos"; "1980"] ["title"; "year"].

Lemma service_calls_routed_witness :
  Routes.router GET (router_path (call_url (MoviesDataService.get "573a1390f29313caabcd4135")))
    = Some Routes.MoviesCtrl_apiGetMoviesById /\
  Routes.router GET (router_path (call_url (MoviesDataService.find (Some sample_params) 2)))
    = Some Routes.MoviesCtrl_apiGetMovies.
Proof.
  split.
  - exact (service_calls_routed (SGet "573a1390f29313caabcd4135") eq_refl).
  - exact (service_calls_routed (SFind (Some sample_params) 2) eq_refl).
Defined.

Lemma find_query_roundtrip_witness :
  parse_query (query_string (call_url (MoviesDataService.find (Some sample_params) 2)))
    = [("title", "Cosmos"); ("year", "1980"); ("page", "2")].
Proof.
  apply (find_query_roundtrip sample_params 2); [reflexivity | discriminate |].
  repeat constructor; discriminate.
Defined.

(** A filter is not encoded: a title holding ['&'] is cut there, and what
    follows becomes a key of its own. *)
Example find_query_ampersand :
  parse_query (query_string (call_url (MoviesDataService.find (Some (mk_params ["Tom & Jerry"] ["title"])) 1)))
    = [("title", "Tom "); (" Jerry", ""); ("page", "1")].
Proof. vm_compute. reflexivity. Qed.
