(* ===== verification/ProfileFlows.v ===== *)
(** * ProfileFlows: the review loops of the profile page

    [changeReviewInfoUserName] and [removeDeletedUserReviews] of
    src/frontend/src/components/profile-auth0.js fetch the user's reviews
    (GET /movies/userReviews) and then, in a [for] loop, fire one request
    per review (PUT /movies/reviewsUpdateUserName, DELETE /movies/reviews)
    without awaiting it.  The requests therefore reach the server in an
    order the page does not control: the loops are modelled as the
    sequence of review steps in the loop's order ([Profile]), and the
    theorems show the outcome for every list of the same ids, in any
    order and with repetitions.  The e-mail reaches the server of the GET
    in a query string the service does not encode ([sent_user_id], read
    with the decoder of FrontService.v): an e-mail with a ['+'] is read
    with a space there, while the DELETE sends it in its JSON body. *)

From S2P Require Import Prelude DocStore JsCore Reviews FrontService.

(** ** Running a sequence of review steps *)

Definition run_ops (ops : list rev_op) (c : reviews) : reviews :=
  fold_left (fun c op => run_rev_op op c) ops c.

(** [req.query.user_id] of [getUserReviews(email)], the GET
    [/userReviews?user_id=${email}]; [None] when the key comes twice (an
    array, which matches no review). *)
Definition sent_user_id (email : string) : option string :=
  match query_get (parse_query (query_string (call_url (MoviesDataService.getUserReviews email)))) "user_id" with
  | Some (QStr u) => Some u
  | _ => None
  end.

(** [response.data]: [apiGetUserReviews] passes [req.query.user_id] to
    [getReviewsByUser]. *)
Definition fetched_reviews (email : string) (c : reviews) : list (oid * Rev.t) :=
  match sent_user_id email with Some u => ReviewsDAO.getReviewsByUser u c | None => [] end.

(** The ids of [response.data]. *)
Definition user_review_ids (email : string) (c : reviews) : list oid := (fetched_reviews email c).*1.

(** Ids as the driver stores them: [ObjectId(id)] of the string sent
    back by the page is the same id. *)
Definition canonical_ids (c : reviews) : Prop := Forall (fun i => ObjectId i = Ok i) (ids c).

Module Profile.
(** [for (i...) editReviewUserNames({ review_id: userReviews[i]._id, newUserName: userName })] *)
Definition changeReviewInfoUserName (email userName : string) (c : reviews) : reviews :=
  fold_left (fun c r => (ReviewsCtrl.apiEditReviewUserName r.1 userName c).2)
    (fetched_reviews email c) c.

(** [for (i...) deleteReview(userReviews[i]._id, email)] *)
Definition removeDeletedUserReviews (email : string) (c : reviews) : reviews :=
  fold_left (fun c r => (ReviewsCtrl.apiDeleteReview email r.1 c).2)
    (fetched_reviews email c) c.
End Profile.

Definition rename_ops (userName : string) (L : list oid) : list rev_op :=
  (fun j => OpRenameReview j userName) <$> L.

Definition delete_ops (email : string) (L : list oid) : list rev_op :=
  (fun j => OpDeleteReview email j) <$> L.

(** The state the rename loop aims at: every review of [email] shows [userName]. *)
Definition renamed (email userName : string) (m : gmap oid Rev.t) : gmap oid Rev.t :=
  (fun d => if written_by email d then Rev.set_name userName d else d) <$> m.

(** The state the delete loop aims at: no review of [email] is left. *)
Definition removed (email : string) (m : gmap oid Rev.t) : gmap oid Rev.t :=
  omap (fun d => if written_by email d then None else Some d) m.

(** ** Lemmas *)

Lemma run_ops_app (ops1 ops2 : list rev_op) (c : reviews) :
  run_ops (ops1 ++ ops2) c = run_ops ops2 (run_ops ops1 c).
Proof. apply fold_left_app. Qed.

Lemma run_ops_cons (op : rev_op) (ops : list rev_op) (c : reviews) :
  run_ops (op :: ops) c = run_ops ops (run_rev_op op c).
Proof. reflexivity. Qed.

Lemma set_name_idem (n : string) (d : Rev.t) : Rev.set_name n (Rev.set_name n d) = Rev.set_name n d.
Proof. by destruct d. Qed.

Lemma set_name_user_id (n : string) (d : Rev.t) : Rev.user_id (Rev.set_name n d) = Rev.user_id d.
Proof. by destruct d. Qed.

Lemma wf_run_ops (ops : list rev_op) (c : reviews) : wf c -> wf (run_ops ops c).
Proof.
  revert c. induction ops as [|op ops IH]; intros c Hwf; [done|]. apply IH.
  exact (rev_step_wf c (run_rev_op op c) op Hwf (rev_run _ _)).
Qed.

Lemma changeReviewInfoUserName_ops (email userName : string) (c : reviews) :
  Profile.changeReviewInfoUserName email userName c = run_ops (rename_ops userName (user_review_ids email c)) c.
Proof.
  unfold Profile.changeReviewInfoUserName, run_ops, rename_ops, user_review_ids.
  by rewrite !fold_left_fmap.
Qed.

Lemma removeDeletedUserReviews_ops (email : string) (c : reviews) :
  Profile.removeDeletedUserReviews email c = run_ops (delete_ops email (user_review_ids email c)) c.
Proof.
  unfold Profile.removeDeletedUserReviews, run_ops, delete_ops, user_review_ids.
  by rewrite !fold_left_fmap.
Qed.

Lemma rename_step_view (j n : string) (c : reviews) :
  wf c -> ObjectId j = Ok j ->
  view (run_rev_op (OpRenameReview j n) c) = map_update_if j (fun _ => true) (Rev.set_name n) (view c).
Proof. intros Hwf Hj. rewrite run_rev_op_eq. exact (proj2 (update_by_id_refines _ _ _ c j Hwf Hj)). Qed.

Lemma delete_step_view (u j : string) (c : reviews) :
  wf c -> ObjectId j = Ok j ->
  view (run_rev_op (OpDeleteReview u j) c) = map_delete_if j (written_by u) (view c).
Proof. intros Hwf Hj. rewrite run_rev_op_eq. exact (proj2 (delete_by_id_refines _ _ c j Hwf Hj)). Qed.

Lemma bool_decide_elem_of_cons_ne (j x : oid) (L : list oid) :
  j <> x -> bool_decide (j ∈ x :: L) = bool_decide (j ∈ L).
Proof. intros Hne. apply bool_decide_ext. set_solver. Qed.

Lemma bool_decide_elem_of_cons_eq (x : oid) (L : list oid) : bool_decide (x ∈ x :: L) = true.
Proof. apply bool_decide_eq_true_2. set_solver. Qed.

(** The renames of a list of ids, in its order: each review named in the
    list, whoever wrote it, shows the new name. *)
Lemma rename_ops_lookup (n : string) (L : list oid) (c : reviews) (j : oid) :
  wf c -> Forall (fun i => ObjectId i = Ok i) L ->
  view (run_ops (rename_ops n L) c) !! j =
    if bool_decide (j ∈ L) then Rev.set_name n <$> view c !! j else view c !! j.
Proof.
  revert c. induction L as [|x L IH]; intros c Hwf HL; [done|].
  apply Forall_cons in HL as [Hx HL].
  unfold rename_ops. rewrite fmap_cons, run_ops_cons. fold (rename_ops n L).
  rewrite IH; [|exact (rev_step_wf c _ _ Hwf (rev_run _ _))|exact HL].
  rewrite rename_step_view, !map_update_if_lookup_eq by done.
  destruct (decide (j = x)) as [->|Hne].
  - rewrite bool_decide_elem_of_cons_eq. case_bool_decide; destruct (view c !! x); simpl; by rewrite ?set_name_idem.
  - by rewrite bool_decide_elem_of_cons_ne.
Qed.

(** The deletes of a list of ids under [u], in its order. *)
Lemma delete_ops_lookup (u : string) (L : list oid) (c : reviews) (j : oid) :
  wf c -> Forall (fun i => ObjectId i = Ok i) L ->
  view (run_ops (delete_ops u L) c) !! j =
    if bool_decide (j ∈ L) then view c !! j ≫= (fun d => if written_by u d then None else Some d)
    else view c !! j.
Proof.
  revert c. induction L as [|x L IH]; intros c Hwf HL; [done|].
  apply Forall_cons in HL as [Hx HL].
  unfold delete_ops. rewrite fmap_cons, run_ops_cons. fold (delete_ops u L).
  rewrite IH; [|exact (rev_step_wf c _ _ Hwf (rev_run _ _))|exact HL].
  rewrite delete_step_view, !map_delete_if_lookup_eq by done.
  destruct (decide (j = x)) as [->|Hne].
  - rewrite bool_decide_elem_of_cons_eq. case_bool_decide; destruct (view c !! x) as [d|]; simpl; try done.
    destruct (written_by u d) eqn:E; simpl; by rewrite ?E.
  - by rewrite bool_decide_elem_of_cons_ne.
Qed.

(** The ids the page receives are those of the reviews of the user id
    the server read. *)
Lemma elem_of_user_review_ids (email u : string) (c : reviews) (j : oid) :
  wf c -> sent_user_id email = Some u ->
  j ∈ user_review_ids email c <-> exists d, view c !! j = Some d /\ written_by u d = true.
Proof.
  intros Hwf Hu. unfold user_review_ids, fetched_reviews. rewrite Hu, list_elem_of_fmap. split.
  - intros ([j' d] & -> & Hin). apply (getReviewsByUser_spec u c Hwf) in Hin as [Hl Hw].
    exists d. split; [done|]. unfold written_by. rewrite Hw. apply str_eqb_refl.
  - intros (d & Hl & Hw). exists (j, d). split; [done|].
    apply (getReviewsByUser_spec u c Hwf). split; [done|]. by apply str_eqb_true.
Qed.

Lemma canonical_same_ids (email u : string) (c : reviews) (L : list oid) :
  wf c -> canonical_ids c -> sent_user_id email = Some u ->
  (forall j, j ∈ L <-> j ∈ user_review_ids email c) ->
  Forall (fun i => ObjectId i = Ok i) L.
Proof.
  intros Hwf Hc Hu HL. apply Forall_forall. intros j Hj.
  apply HL, (elem_of_user_review_ids email u c j Hwf Hu) in Hj as (d & Hl & _).
  unfold canonical_ids in Hc. rewrite Forall_forall in Hc. apply Hc, view_lookup_ids. by exists d.
Qed.

(** An e-mail without the characters the query syntax reserves reaches
    the server unchanged. *)
Lemma sent_user_id_plain (email : string) : plain email = true -> sent_user_id email = Some email.
Proof.
  intros He. unfold sent_user_id, query_string. cbn [MoviesDataService.getUserReviews call_url].
  change ("/userReviews?user_id=" +:+ email)%string with ("/userReviews?" +:+ ("user_id=" +:+ email))%string.
  rewrite (list_ascii_of_string_app "/userReviews?"). simpl app. simpl query_part.
  rewrite fragment_cut_id.
  2:{ rewrite list_ascii_of_string_app. apply Forall_app. split; [by repeat constructor|].
      apply plain_chars; [done|tauto]. }
  replace (string_of_list_ascii _) with (string_of_list_ascii (piece_chars ("user_id", email))) by reflexivity.
  unfold parse_query. rewrite split_nosep.
  - rewrite (omap_cons_Some _ _ _ ("user_id", email)); [done|]. by apply query_piece_chars.
  - rewrite list_ascii_of_string_of_list_ascii. apply piece_chars_free; [done|done|by right].
Qed.

(** ** The outcome of the loops *)

(** C11: the rename loop of the profile page, whatever order its
    unawaited PUT /movies/reviewsUpdateUserName requests arrive in (any
    list with the ids the GET returned, repetitions included), renames
    exactly the reviews of the user id [u] the server read from the query
    string: each of them shows the new name, every other review is as it
    was.  [u] is the e-mail itself for an e-mail without reserved
    characters ([sent_user_id_plain]); for one with a ['+'] it holds a
    space, and the reviews of the user are left unrenamed. *)
Theorem rename_loop_any_order (email u userName : string) (c : reviews) (L : list oid) :
  wf c -> canonical_ids c -> sent_user_id email = Some u ->
  (forall j, j ∈ L <-> j ∈ user_review_ids email c) ->
  view (run_ops (rename_ops userName L) c) = renamed u userName (view c).
Proof.
  intros Hwf Hc Hu HL. apply map_eq. intros j.
  rewrite rename_ops_lookup by eauto using canonical_same_ids.
  unfold renamed. rewrite lookup_fmap. case_bool_decide as Hj.
  - apply HL, (elem_of_user_review_ids email u c j Hwf Hu) in Hj as (d & Hd & Hw).
    by rewrite Hd; simpl; rewrite Hw.
  - destruct (view c !! j) as [d|] eqn:Hd; simpl; [|done].
    destruct (written_by u d) eqn:Hw; [|done].
    exfalso. apply Hj, HL, (elem_of_user_review_ids email u c j Hwf Hu); eauto.
Qed.

(** C12: the delete loop run when an account is deleted, whatever order
    its unawaited DELETE /movies/reviews requests arrive in: the ids come
    from the GET, read for the user id [u] of the query string, and each
    DELETE carries the e-mail in its body, which the delete filter
    requires.  When [u] is the e-mail every review of the user is
    removed and no other; when it is not (an e-mail with a ['+']),
    nothing is removed. *)
Theorem delete_loop_any_order (email u : string) (c : reviews) (L : list oid) :
  wf c -> canonical_ids c -> sent_user_id email = Some u ->
  (forall j, j ∈ L <-> j ∈ user_review_ids email c) ->
  view (run_ops (delete_ops email L) c) = if String.eqb u email then removed email (view c) else view c.
Proof.
  intros Hwf Hc Hu HL. apply map_eq. intros j.
  rewrite delete_ops_lookup by eauto using canonical_same_ids.
  destruct (String.eqb_spec u email) as [<-|Hne].
  - unfold removed. rewrite lookup_omap. case_bool_decide as Hj; [done|].
    destruct (view c !! j) as [d|] eqn:Hd; simpl; [|done].
    destruct (written_by u d) eqn:Hw; [|done].
    exfalso. apply Hj, HL, (elem_of_user_review_ids u u c j Hwf Hu); eauto.
  - case_bool_decide as Hj; [|done].
    apply HL, (elem_of_user_review_ids email u c j Hwf Hu) in Hj as (d & Hd & Hw).
    rewrite Hd. simpl. unfold written_by in *. apply str_eqb_true in Hw.
    destruct (Rev.user_id d =? email)%string eqn:He; [|done].
    apply str_eqb_true in He. congruence.
Qed.

(** The loops as written, in the order of the page's [for], for an
    e-mail without reserved characters. *)
Corollary changeReviewInfoUserName_spec (email userName : string) (c : reviews) :
  wf c -> canonical_ids c -> plain email = true ->
  view (Profile.changeReviewInfoUserName email userName c) = renamed email userName (view c).
Proof.
  intros Hwf Hc He. rewrite changeReviewInfoUserName_ops.
  apply (rename_loop_any_order email email); [done|done|by apply sent_user_id_plain|done].
Qed.

Corollary removeDeletedUserReviews_spec (email : string) (c : reviews) :
  wf c -> canonical_ids c -> plain email = true ->
  view (Profile.removeDeletedUserReviews email c) = removed email (view c).
Proof.
  intros Hwf Hc He. rewrite removeDeletedUserReviews_ops.
  rewrite (delete_loop_any_order email email) by (done || by apply sent_user_id_plain).
  by rewrite String.eqb_refl.
Qed.

(** ** Witnesses on three reviews, two of them by the same user *)

Lemma sample_reviews3_wf : wf sample_reviews3.
Proof. apply (bool_decide_unpack _). vm_compute. exact I. Defined.

Lemma sample_reviews3_canonical : canonical_ids sample_reviews3.
Proof. unfold canonical_ids. vm_compute. repeat constructor. Defined.

(** The two renames arrive in the reverse of the loop's order. *)
Lemma rename_loop_any_order_witness :
  sent_user_id "ann@example.com" = Some "ann@example.com"%string /\
  user_review_ids "ann@example.com" sample_reviews3 = [sample_review_id; "60bb00000000000000000002"] /\
  view (run_ops (rename_ops "annie" ["60bb00000000000000000002"; sample_review_id]) sample_reviews3)
    = renamed "ann@example.com" "annie" (view sample_reviews3).
Proof.
  split; [vm_compute; reflexivity|]. split; [vm_compute; reflexivity|].
  apply (rename_loop_any_order "ann@example.com" "ann@example.com");
    [exact sample_reviews3_wf|exact sample_reviews3_canonical|vm_compute; reflexivity|].
  intros j. vm_compute. set_solver.
Defined.

(** An e-mail with a ['+']: the server reads a space, the GET returns no
    review, and nothing is deleted. *)
Lemma delete_loop_any_order_witness :
  sent_user_id "ann+x@example.com" = Some "ann x@example.com"%string /\
  user_review_ids "ann+x@example.com" sample_reviews3 = [] /\
  view (run_ops (delete_ops "ann+x@example.com" []) sample_reviews3) = view sample_reviews3.
Proof.
  split; [vm_compute; reflexivity|]. split; [vm_compute; reflexivity|].
  exact (delete_loop_any_order "ann+x@example.com" "ann x@example.com" sample_reviews3 []
           sample_reviews3_wf sample_reviews3_canonical ltac:(vm_compute; reflexivity)
           ltac:(intros j; vm_compute; set_solver)).
Defined.
