(* ===== verification/MoviesListPage.v ===== *)
(** * MoviesListPage: the movie list page (movies-list.js)

    Models src/frontend/src/components/movies-list.js: the page's React
    state ([page]), its event handlers (the search boxes, the four
    [findBy*] buttons and [activateFindByFilter] /
    [deactivateFindByFilter], [pagination]), the [useEffect] that asks
    the server for the current page, the pages around it and the genre
    and rating lists, and the [.then] callbacks that store the answers.
    Requests are answered in any order: a [world] holds the page and the
    requests in flight, and [step] is one user event or the delivery (or
    loss) of one answer.  The server is [MoviesCtrl.apiGetMovies] (and
    [apiGetGenres], [apiGetRated]) on a fixed collection, reached through
    the service and the routes of FrontService.v.  The theorems show the
    invariant of the search parameters and of the page number (the effect
    runs before the next user event, so a late "previous" answer on the
    first page is reset at once), that every list request is answered by
    [getMovies] with the page's filters, that with answers in order the
    page settles within 32 answers showing its window of 21 matches and
    true flags, and that pressing "next" reaches every match. *)

From S2P Require Import Prelude DocStore JsCore Reviews Movies FrontService.
From stdpp Require Import sorting.
From Stdlib Require Import QArith.
Close Scope Q_scope.

(** ** The page's state *)

(** The two values the code passes as [direction]. *)
Inductive direction := Previous | Next.

#[export] Instance direction_eq_dec : EqDecision direction.
Proof. solve_decision. Defined.

(** The [useState] variables of [MoviesList]; [movies_shown] is [movies]. *)
Record page := mk_page {
  movies_shown : list (oid * Movie.t);
  searchTitle : string;
  searchYear : string;
  searchGenre : string;
  searchRated : string;
  genres : list string;
  rated : list string;
  currPage : Z;
  findByFilter : bool;
  searchParams : search_params;
  prevPageExists : bool;
  nextPageExists : bool
}.

Definition init_page : page :=
  mk_page [] "" "" "" "" ["All Genres"] ["All Ratings"] 1 false (mk_params [] []) false false.

(** The setters of [useState]. *)
Definition setMovies (v : list (oid * Movie.t)) (s : page) : page :=
  mk_page v (searchTitle s) (searchYear s) (searchGenre s) (searchRated s) (genres s) (rated s)
    (currPage s) (findByFilter s) (searchParams s) (prevPageExists s) (nextPageExists s).
Definition setSearchTitle (v : string) (s : page) : page :=
  mk_page (movies_shown s) v (searchYear s) (searchGenre s) (searchRated s) (genres s) (rated s)
    (currPage s) (findByFilter s) (searchParams s) (prevPageExists s) (nextPageExists s).
Definition setSearchYear (v : string) (s : page) : page :=
  mk_page (movies_shown s) (searchTitle s) v (searchGenre s) (searchRated s) (genres s) (rated s)
    (currPage s) (findByFilter s) (searchParams s) (prevPageExists s) (nextPageExists s).
Definition setSearchGenre (v : string) (s : page) : page :=
  mk_page (movies_shown s) (searchTitle s) (searchYear s) v (searchRated s) (genres s) (rated s)
    (currPage s) (findByFilter s) (searchParams s) (prevPageExists s) (nextPageExists s).
Definition setSearchRated (v : string) (s : page) : page :=
  mk_page (movies_shown s) (searchTitle s) (searchYear s) (searchGenre s) v (genres s) (rated s)
    (currPage s) (findByFilter s) (searchParams s) (prevPageExists s) (nextPageExists s).
Definition setGenres (v : list string) (s : page) : page :=
  mk_page (movies_shown s) (searchTitle s) (searchYear s) (searchGenre s) (searchRated s) v (rated s)
    (currPage s) (findByFilter s) (searchParams s) (prevPageExists s) (nextPageExists s).
Definition setRated (v : list string) (s : page) : page :=
  mk_page (movies_shown s) (searchTitle s) (searchYear s) (searchGenre s) (searchRated s) (genres s) v
    (currPage s) (findByFilter s) (searchParams s) (prevPageExists s) (nextPageExists s).
Definition setCurrPage (v : Z) (s : page) : page :=
  mk_page (movies_shown s) (searchTitle s) (searchYear s) (searchGenre s) (searchRated s) (genres s) (rated s)
    v (findByFilter s) (searchParams s) (prevPageExists s) (nextPageExists s).
Definition setFindByFilter (v : bool) (s : page) : page :=
  mk_page (movies_shown s) (searchTitle s) (searchYear s) (searchGenre s) (searchRated s) (genres s) (rated s)
    (currPage s) v (searchParams s) (prevPageExists s) (nextPageExists s).
Definition setSearchParams (v : search_params) (s : page) : page :=
  mk_page (movies_shown s) (searchTitle s) (searchYear s) (searchGenre s) (searchRated s) (genres s) (rated s)
    (currPage s) (findByFilter s) v (prevPageExists s) (nextPageExists s).
Definition setPrevPageExists (v : bool) (s : page) : page :=
  mk_page (movies_shown s) (searchTitle s) (searchYear s) (searchGenre s) (searchRated s) (genres s) (rated s)
    (currPage s) (findByFilter s) (searchParams s) v (nextPageExists s).
Definition setNextPageExists (v : bool) (s : page) : page :=
  mk_page (movies_shown s) (searchTitle s) (searchYear s) (searchGenre s) (searchRated s) (genres s) (rated s)
    (currPage s) (findByFilter s) (searchParams s) (prevPageExists s) v.

(** ** The search handlers *)

Definition truthy_str (s : string) : bool := negb (String.eqb s "").

(** [arr.includes(x)] *)
Definition includes (l : list string) (x : string) : bool := existsb (String.eqb x) l.

(** [arr.indexOf(x)], [None] for [-1]. *)
Fixpoint indexOf (l : list string) (x : string) : option nat :=
  match l with
  | [] => None
  | y :: l' => if String.eqb y x then Some 0 else S <$> indexOf l' x
  end.

(** One [if (searchX && !tempFindBys.includes("x"))] of
    [activateFindByFilter]: push the box's text and its field. *)
Definition push_filter (t : list string * list string) (v findBy : string) : list string * list string :=
  if truthy_str v && negb (includes t.2 findBy) then (t.1 ++ [v], t.2 ++ [findBy]) else t.

Definition activateFindByFilter (searchFilter searchFindBy : string) (s : page) : page :=
  let t := push_filter ([searchFilter], [searchFindBy]) (searchTitle s) "title" in
  let t := push_filter t (searchYear s) "year" in
  let t := push_filter t (searchGenre s) "genres" in
  let t := push_filter t (searchRated s) "rated" in
  setCurrPage 1 (setSearchParams (mk_params t.1 t.2) (setFindByFilter true s)).

(** [splice(findByIndex, 1)] on both arrays when the field is on and is
    not the only one; otherwise every filter is switched off. *)
Definition deactivateFindByFilter (deactivatedFindBy : string) (s : page) : page :=
  let sp := searchParams s in
  match indexOf (sp_findBys sp) deactivatedFindBy with
  | Some i =>
      if 1 <? length (sp_findBys sp)
      then setCurrPage 1 (setSearchParams (mk_params (delete i (sp_filters sp)) (delete i (sp_findBys sp))) s)
      else setCurrPage 1 (setSearchParams (mk_params [] []) (setFindByFilter false s))
  | None => setCurrPage 1 (setSearchParams (mk_params [] []) (setFindByFilter false s))
  end.

Definition findByTitle (s : page) : page :=
  if truthy_str (searchTitle s) then activateFindByFilter (searchTitle s) "title" s
  else deactivateFindByFilter "title" s.

Definition findByYear (s : page) : page :=
  if truthy_str (searchYear s) then activateFindByFilter (searchYear s) "year" s
  else deactivateFindByFilter "year" s.

Definition findByGenre (s : page) : page :=
  if String.eqb (searchGenre s) "All Genres" then setSearchGenre "" (deactivateFindByFilter "genres" s)
  else activateFindByFilter (searchGenre s) "genres" s.

Definition findByRated (s : page) : page :=
  if String.eqb (searchRated s) "All Rated" then setSearchRated "" (deactivateFindByFilter "rated" s)
  else activateFindByFilter (searchRated s) "rated" s.

(** [pagination(direction)] *)
Definition pagination (dir : direction) (s : page) : page :=
  match dir with
  | Previous => if prevPageExists s then setCurrPage (currPage s - 1) s else s
  | Next => if nextPageExists s then setCurrPage (currPage s + 1) s else s
  end.

(** The user's events: typing in a box or choosing an option, the search
    buttons, a key in the title or year box, the pagination links. *)
Inductive ui_event :=
| ChangeSearchTitle (v : string) | ChangeSearchYear (v : string)
| ChangeSearchGenre (v : string) | ChangeSearchRated (v : string)
| ClickTitle | ClickYear | ClickGenre | ClickRated
| KeyPressTitle (key : string) | KeyPressYear (key : string)
| Paginate (dir : direction).

Definition handle (e : ui_event) (s : page) : page :=
  match e with
  | ChangeSearchTitle v => setSearchTitle v s
  | ChangeSearchYear v => setSearchYear v s
  | ChangeSearchGenre v => setSearchGenre v s
  | ChangeSearchRated v => setSearchRated v s
  | ClickTitle => findByTitle s
  | ClickYear => findByYear s
  | ClickGenre => findByGenre s
  | ClickRated => findByRated s
  | KeyPressTitle k => if String.eqb k "Enter" then findByTitle s else s
  | KeyPressYear k => if String.eqb k "Enter" then findByYear s else s
  | Paginate d => pagination d s
  end.

(** Whether the handler calls [setSearchParams] with a new object, which
    re-runs the effect whatever its contents. *)
Definition sets_params (e : ui_event) : bool :=
  match e with
  | ClickTitle | ClickYear | ClickGenre | ClickRated => true
  | KeyPressTitle k | KeyPressYear k => String.eqb k "Enter"
  | _ => false
  end.

(** ** The effect and the requests it sends *)

(** A request in flight, by the callback that will handle its answer:
    [setMovies] of [retrieveMovies] and [find], the flag of [pageScout],
    [setGenres] and [setRated]. *)
Inductive request :=
| ListReq (c : http_call)
| ScoutReq (dir : direction) (c : http_call)
| GenresReq
| RatedReq.

(** The filters [pageScout] passes: [searchParams] when the filter is on,
    [""] otherwise. *)
Definition scout_params (s : page) : option search_params :=
  if findByFilter s then Some (searchParams s) else None.

Definition pageScoutDirector (dir : direction) (s : page) : page * list request :=
  match dir with
  | Previous =>
      if (currPage s =? 1)%Z then (setPrevPageExists false s, [])
      else (s, [ScoutReq Previous (MoviesDataService.find (scout_params s) (currPage s - 1))])
  | Next => (s, [ScoutReq Next (MoviesDataService.find (scout_params s) (currPage s + 1))])
  end.

(** [find(searchParams, currPage)] or [retrieveMovies(currPage)]. *)
Definition list_request (s : page) : http_call :=
  if findByFilter s then MoviesDataService.find (Some (searchParams s)) (currPage s)
  else MoviesDataService.getAll (currPage s).

(** The body of [useEffect]: every read is of the rendered state [s]. *)
Definition effect (s : page) : page * list request :=
  let '(s1, r1) := pageScoutDirector Previous s in
  let '(s2, r2) := pageScoutDirector Next s1 in
  (s2, r1 ++ r2 ++ [ListReq (list_request s); GenresReq; RatedReq]).

(** The dependencies [[currPage, findByFilter, searchParams,
    prevPageExists, nextPageExists]], compared by value except
    [searchParams], an object compared by identity. *)
Definition deps_changed (old new : page) : bool :=
  negb (Z.eqb (currPage old) (currPage new)) || negb (Bool.eqb (findByFilter old) (findByFilter new)) ||
  negb (Bool.eqb (prevPageExists old) (prevPageExists new)) ||
  negb (Bool.eqb (nextPageExists old) (nextPageExists new)).

(** The render that follows a state change: the effect runs when a
    dependency changed, and once more when its own
    [setPrevPageExists(false)] changed the flag. *)
Definition commit (old new : page) (params_set : bool) : page * list request :=
  if params_set || deps_changed old new then
    let '(s1, r1) := effect new in
    if Bool.eqb (prevPageExists s1) (prevPageExists new) then (s1, r1)
    else let '(s2, r2) := effect s1 in (s2, r1 ++ r2)
  else (new, []).

(** ** The server *)

(** [req.query] as the fields [apiGetMovies] reads; a key given twice
    (an array) is not modelled. *)
Definition query_field (ps : list (string * string)) (k : string) : option (option string) :=
  match query_get ps k with
  | None => Some None
  | Some (QStr v) => Some (Some v)
  | Some (QArr _) => None
  end.

Definition movies_query_of (ps : list (string * string)) : option movies_query :=
  mpp ← query_field ps "moviesPerPage"; p ← query_field ps "page";
  t ← query_field ps "title"; g ← query_field ps "genres";
  r ← query_field ps "rated"; y ← query_field ps "year";
  Some {| mq_moviesPerPage := mpp; mq_page := p; mq_title := t; mq_genres := g; mq_rated := r; mq_year := y |}.

Section Server.
Context `{TextSearch}.
Variable ms : movies.

(** The [moviesList] of the answer to a GET, or [None] when the call
    fails (no route): the [.catch] then only logs. *)
Definition serve_list (c : http_call) : option (list (oid * Movie.t)) :=
  match Routes.router (call_method c) (router_path (call_url c)) with
  | Some Routes.MoviesCtrl_apiGetMovies =>
      q ← movies_query_of (parse_query (query_string (call_url c)));
      match MoviesCtrl.apiGetMovies q ms with Json l => Some (moviesList l) | _ => None end
  | _ => None
  end.

(** The [.then] callback of a request, on the state it finds. *)
Definition on_response (r : request) (s : page) : page :=
  match r with
  | ListReq c => match serve_list c with Some l => setMovies l s | None => s end
  | ScoutReq dir c =>
      match serve_list c with
      | Some l =>
          let b := negb (bool_decide (l = [])) in
          match dir with Previous => setPrevPageExists b s | Next => setNextPageExists b s end
      | None => s
      end
  | GenresReq => match MoviesCtrl.apiGetGenres ms with Json gs => setGenres ("All Genres" :: gs) s | _ => s end
  | RatedReq => match MoviesCtrl.apiGetRated ms with Json rs => setRated ("All Rated" :: rs) s | _ => s end
  end.

(** ** The page and its requests in flight *)

Record world := mk_world { pg : page; inflight : list request }.

(** The text a user types or picks is [plain]: see FrontService.v. *)
Definition event_ok (e : ui_event) : bool :=
  match e with
  | ChangeSearchTitle v | ChangeSearchYear v | ChangeSearchGenre v | ChangeSearchRated v => plain v
  | _ => true
  end.

Definition ui_step (e : ui_event) (w : world) : world :=
  let s' := handle e (pg w) in
  let '(s'', rs) := commit (pg w) s' (sets_params e) in
  mk_world s'' (inflight w ++ rs).

Definition deliver (i : nat) (r : request) (w : world) : world :=
  let s' := on_response r (pg w) in
  let '(s'', rs) := commit (pg w) s' false in
  mk_world s'' (delete i (inflight w) ++ rs).

(** The page after mounting: the effect runs once. *)
Definition init_world : world := let '(s, rs) := effect init_page in mk_world s rs.

Inductive step : world -> world -> Prop :=
| step_ui w e : event_ok e = true -> step w (ui_step e w)
| step_deliver w i r : inflight w !! i = Some r -> step w (deliver i r w)
| step_lost w i r : inflight w !! i = Some r -> step w (mk_world (pg w) (delete i (inflight w))).

Inductive reachable : world -> Prop :=
| reach_init : reachable init_world
| reach_step w w' : reachable w -> step w w' -> reachable w'.

(** An executable run: user events and deliveries by position. *)
Inductive action := Ui (e : ui_event) | Deliver (i : nat).

Definition act (w : world) (a : action) : option world :=
  match a with
  | Ui e => if event_ok e then Some (ui_step e w) else None
  | Deliver i => r ← inflight w !! i; Some (deliver i r w)
  end.

Fixpoint run (w : world) (acts : list action) : option world :=
  match acts with
  | [] => Some w
  | a :: acts' => w' ← act w a; run w' acts'
  end.

End Server.

(** ** The invariant of the page *)

(** The fields the four search boxes filter on. *)
Definition fields : list string := ["title"; "year"; "genres"; "rated"].

(** [searchParams]: as many filters as fields, each field once, and text
    the URL carries unchanged. *)
Definition params_wf (sp : search_params) : Prop :=
  length (sp_filters sp) = length (sp_findBys sp) /\ NoDup (sp_findBys sp) /\
  sp_findBys sp ⊆ fields /\ Forall (fun v => plain v = true) (sp_filters sp).

Definition boxes_plain (s : page) : Prop :=
  plain (searchTitle s) = true /\ plain (searchYear s) = true /\
  plain (searchGenre s) = true /\ plain (searchRated s) = true.

Definition page_wf (s : page) : Prop :=
  params_wf (searchParams s) /\ (findByFilter s = true <-> sp_findBys (searchParams s) <> []) /\
  boxes_plain s /\ (1 <= currPage s)%Z.

(** After each render and its effect, the first page has no previous one. *)
Definition page_ok (s : page) : Prop := page_wf s /\ (currPage s = 1%Z -> prevPageExists s = false).

(** A list or scout request asks for a page from 1 on, with no filter or
    with well-formed ones. *)
Definition call_ok (c : http_call) : Prop :=
  exists p, (1 <= p)%Z /\
    (c = MoviesDataService.getAll p \/ c = MoviesDataService.find None p \/
     exists sp, params_wf sp /\ sp_findBys sp <> [] /\ c = MoviesDataService.find (Some sp) p).

Definition request_ok (r : request) : Prop :=
  match r with ListReq c | ScoutReq _ c => call_ok c | GenresReq | RatedReq => True end.

Definition world_ok (w : world) : Prop := page_ok (pg w) /\ Forall request_ok (inflight w).

(** ** Lemmas on the handlers *)

Lemma includes_false (l : list string) (x : string) : includes l x = false -> x ∉ l.
Proof.
  unfold includes. intros H Hx. apply list_elem_of_In in Hx.
  assert (existsb (String.eqb x) l = true) as Ht by (apply existsb_exists; exists x; split; [done|apply String.eqb_refl]).
  congruence.
Qed.

Definition pushed_wf (t : list string * list string) : Prop :=
  length t.1 = length t.2 /\ NoDup t.2 /\ t.2 ⊆ fields /\ Forall (fun v => plain v = true) t.1.

Lemma push_filter_wf (t : list string * list string) (v k : string) :
  pushed_wf t -> k ∈ fields -> plain v = true -> pushed_wf (push_filter t v k).
Proof.
  intros (Hl & Hn & Hs & Hp) Hk Hv. unfold push_filter.
  destruct (truthy_str v && negb (includes t.2 k)) eqn:E; [|done].
  apply andb_true_iff in E as [_ E]. apply negb_true_iff, includes_false in E.
  split_and!; simpl.
  - rewrite !length_app. simpl. lia.
  - apply NoDup_app. split_and!; [done| |by apply NoDup_singleton]. intros x Hx ->%list_elem_of_singleton. done.
  - intros x [Hx | ->%list_elem_of_singleton]%elem_of_app; [by apply Hs | done].
  - apply Forall_app. split; [done|]. by constructor.
Qed.

Lemma push_filter_nonempty (t : list string * list string) (v k : string) :
  t.2 <> [] -> (push_filter t v k).2 <> [].
Proof. unfold push_filter. destruct (_ && _); simpl; [|done]. intros _ Hn. by apply app_nil in Hn as [_ ?]. Qed.

Lemma activate_wf (v k : string) (s : page) :
  page_wf s -> k ∈ fields -> plain v = true -> page_wf (activateFindByFilter v k s).
Proof.
  intros (Hp & Hf & Hb & Hc) Hk Hv. pose proof Hb as (Ht & Hy & Hg & Hr). unfold activateFindByFilter.
  assert (H0 : pushed_wf ([v], [k])).
  { split_and!; [done|apply NoDup_singleton| |by constructor]. by intros x ->%list_elem_of_singleton. }
  assert (Hfs : forall f, f ∈ ["title"; "year"; "genres"; "rated"] -> f ∈ fields) by done.
  set (t := push_filter (push_filter (push_filter (push_filter ([v], [k]) (searchTitle s) "title")
                (searchYear s) "year") (searchGenre s) "genres") (searchRated s) "rated").
  assert (Ht' : pushed_wf t) by (subst t; repeat apply push_filter_wf; try done; set_solver).
  assert (Hne : t.2 <> []) by (subst t; repeat apply push_filter_nonempty; done).
  destruct Ht' as (Hl & Hn & Hs & Hpl).
  split_and!; simpl; [split_and!; done| |done|lia]. tauto.
Qed.

Lemma indexOf_lookup (l : list string) (x : string) (i : nat) : indexOf l x = Some i -> l !! i = Some x.
Proof.
  revert i. induction l as [|y l IH]; intros i; simpl; [done|].
  destruct (String.eqb_spec y x) as [->|_]; [by intros [= <-]|].
  destruct (indexOf l x) as [j|] eqn:E; simpl; [|done]. intros [= <-]. by apply IH.
Qed.

Lemma reset_wf (s : page) :
  page_wf s -> page_wf (setCurrPage 1 (setSearchParams (mk_params [] []) (setFindByFilter false s))).
Proof.
  intros (_ & _ & Hb & _). split; [|split; [|split]].
  - split_and!; simpl; [done | constructor | set_solver | constructor].
  - simpl. split; [discriminate | by intros []].
  - exact Hb.
  - simpl. lia.
Qed.

Lemma deactivate_wf (d : string) (s : page) : page_wf s -> page_wf (deactivateFindByFilter d s).
Proof.
  intros Hs. pose proof Hs as ((Hl & Hn & Hsub & Hpl) & Hf & Hb & Hc). unfold deactivateFindByFilter.
  destruct (indexOf (sp_findBys (searchParams s)) d) as [i|] eqn:Ei; [|by apply reset_wf].
  destruct (Nat.ltb_spec 1 (length (sp_findBys (searchParams s)))) as [Hlen|]; [|by apply reset_wf].
  apply indexOf_lookup in Ei.
  assert (Hi : is_Some (sp_filters (searchParams s) !! i)).
  { apply lookup_lt_is_Some_2. rewrite Hl. by apply lookup_lt_Some in Ei. }
  assert (Hl' : length (delete i (sp_findBys (searchParams s))) = length (sp_findBys (searchParams s)) - 1)
    by (apply length_delete; by eexists).
  split; [|split; [|split]].
  - split_and!; simpl.
    + rewrite Hl', (length_delete _ i Hi). lia.
    + eapply sublist_NoDup; [exact Hn | apply sublist_delete].
    + etrans; [apply list_subseteq_delete | done].
    + by apply Forall_delete.
  - simpl. split; [intros _ Hnil; rewrite Hnil in Hl'; simpl in Hl'; lia|].
    intros _. apply Hf. intros Hnil. rewrite Hnil in Hlen. simpl in Hlen. lia.
  - exact Hb.
  - simpl. lia.
Qed.

Lemma setSearchGenre_wf (v : string) (s : page) : plain v = true -> page_wf s -> page_wf (setSearchGenre v s).
Proof. intros Hv (Hp & Hf & (Ht & Hy & Hg & Hr) & Hc). by split_and!. Qed.

Lemma setSearchRated_wf (v : string) (s : page) : plain v = true -> page_wf s -> page_wf (setSearchRated v s).
Proof. intros Hv (Hp & Hf & (Ht & Hy & Hg & Hr) & Hc). by split_and!. Qed.

Lemma handle_wf (e : ui_event) (s : page) : event_ok e = true -> page_ok s -> page_wf (handle e s).
Proof.
  intros He [Hs Hprev]. pose proof Hs as (Hp & Hf & (Ht & Hy & Hg & Hr) & Hc).
  assert (Hfind : forall (b : bool) v k, k ∈ fields -> plain v = true ->
            page_wf (if b then activateFindByFilter v k s else deactivateFindByFilter k s)).
  { intros [] v k Hk Hv; [by apply activate_wf | by apply deactivate_wf]. }
  destruct e as [v|v|v|v| | | | |k|k|[]]; simpl in He |- *;
    unfold findByTitle, findByYear, findByGenre, findByRated; try (by split_and!).
  - apply Hfind; [set_solver | done].
  - apply Hfind; [set_solver | done].
  - destruct (String.eqb _ _); [by apply setSearchGenre_wf, deactivate_wf|].
    apply activate_wf; [done | set_solver | done].
  - destruct (String.eqb _ _); [by apply setSearchRated_wf, deactivate_wf|].
    apply activate_wf; [done | set_solver | done].
  - destruct (String.eqb _ _); [apply Hfind; [set_solver | done] | done].
  - destruct (String.eqb _ _); [apply Hfind; [set_solver | done] | done].
  - destruct (prevPageExists s) eqn:Ep; [|done].
    assert (currPage s <> 1%Z) by (intros E; specialize (Hprev E); congruence).
    split_and!; simpl; try done. lia.
  - destruct (nextPageExists s); [|done]. split_and!; simpl; try done. lia.
Qed.

(** ** Lemmas on the effect and the render *)

Lemma scout_call_ok (s : page) (q : Z) :
  page_wf s -> (1 <= q)%Z -> call_ok (MoviesDataService.find (scout_params s) q).
Proof.
  intros (Hp & Hf & _ & _) Hq. exists q. split; [done|]. unfold scout_params.
  destruct (findByFilter s) eqn:E; [|by right; left].
  right; right. exists (searchParams s). split_and!; [done | by apply Hf | done].
Qed.

Lemma list_call_ok (s : page) : page_wf s -> call_ok (list_request s).
Proof.
  intros Hs. pose proof Hs as (Hp & Hf & _ & Hc). exists (currPage s). split; [done|]. unfold list_request.
  destruct (findByFilter s) eqn:E; [|by left].
  right; right. exists (searchParams s). split_and!; [done | by apply Hf | done].
Qed.

Lemma setPrevPageExists_wf (b : bool) (s : page) : page_wf s -> page_wf (setPrevPageExists b s).
Proof. intros (Hp & Hf & Hb & Hc). by split_and!. Qed.

Lemma effect_spec (s : page) :
  page_wf s ->
  (effect s).1 = (if (currPage s =? 1)%Z then setPrevPageExists false s else s) /\
  page_ok (effect s).1 /\ Forall request_ok (effect s).2.
Proof.
  intros Hs. pose proof Hs as (_ & _ & _ & Hc). unfold effect, pageScoutDirector.
  destruct (Z.eqb_spec (currPage s) 1) as [E|E]; simpl.
  - split; [done|split; [split; [by apply setPrevPageExists_wf | done]|]].
    repeat constructor; [apply scout_call_ok; [by apply setPrevPageExists_wf | simpl; lia] | by apply list_call_ok].
  - split; [done|split; [split; [done | lia]|]].
    repeat constructor; [apply scout_call_ok; [done | lia] | apply scout_call_ok; [done | lia] | by apply list_call_ok].
Qed.

Lemma deps_unchanged (old new : page) :
  deps_changed old new = false ->
  currPage new = currPage old /\ prevPageExists new = prevPageExists old /\ nextPageExists new = nextPageExists old.
Proof.
  unfold deps_changed. rewrite !orb_false_iff, !negb_false_iff, Z.eqb_eq, !Bool.eqb_true_iff. intuition.
Qed.

Lemma commit_ok (old new : page) (ps : bool) :
  page_ok old -> page_wf new ->
  page_ok (commit old new ps).1 /\ Forall request_ok (commit old new ps).2.
Proof.
  intros [Hold Hprev] Hnew. unfold commit.
  destruct (ps || deps_changed old new) eqn:Ed.
  - destruct (effect_spec new Hnew) as (E1 & [Hs1 Hp1] & Hr1).
    destruct (effect new) as [s1 r1]. simpl in *.
    destruct (Bool.eqb _ _); [done|].
    destruct (effect_spec s1 Hs1) as (_ & Hp2 & Hr2). destruct (effect s1) as [s2 r2]. simpl in *.
    split; [done | by apply Forall_app].
  - apply orb_false_iff in Ed as [_ Ed]. destruct (deps_unchanged old new Ed) as (Ec & Ep & _).
    simpl. split; [|constructor]. split; [done|]. rewrite Ec, Ep. exact Hprev.
Qed.

Lemma on_response_wf `{TextSearch} (ms : movies) (r : request) (s : page) :
  page_wf s -> page_wf (on_response ms r s).
Proof.
  intros (Hp & Hf & Hb & Hc). unfold on_response.
  destruct r as [c|[] c| |]; repeat case_match; by split_and!.
Qed.

Lemma init_world_ok : world_ok init_world.
Proof.
  assert (H0 : page_wf init_page).
  { split; [|split; [|split]]; simpl.
    - split_and!; simpl; [done | constructor | set_solver | constructor].
    - split; [discriminate | by intros []].
    - by split_and!.
    - lia. }
  destruct (effect_spec init_page H0) as (_ & Hp & Hr). unfold init_world.
  destruct (effect init_page). by split.
Qed.

Lemma ui_step_ok (e : ui_event) (w : world) :
  world_ok w -> event_ok e = true -> world_ok (ui_step e w).
Proof.
  intros [Hok Hreq] He. unfold ui_step.
  pose proof (commit_ok (pg w) (handle e (pg w)) (sets_params e) Hok (handle_wf e _ He Hok)) as [H1 H2].
  destruct (commit _ _ _). split; [done|]. by apply Forall_app.
Qed.

Lemma deliver_ok `{TextSearch} (ms : movies) (i : nat) (r : request) (w : world) :
  world_ok w -> world_ok (deliver ms i r w).
Proof.
  intros [Hok Hreq]. unfold deliver.
  pose proof (commit_ok (pg w) (on_response ms r (pg w)) false Hok (on_response_wf ms r _ (proj1 Hok))) as [H1 H2].
  destruct (commit _ _ _). split; [done|]. apply Forall_app. split; [by apply Forall_delete | done].
Qed.

Lemma reachable_world_ok `{TextSearch} (ms : movies) (w : world) : reachable ms w -> world_ok w.
Proof.
  induction 1 as [|w w' _ IH Hstep]; [exact init_world_ok|].
  destruct Hstep as [w e He|w i r Hi|w i r Hi].
  - by apply ui_step_ok.
  - by apply deliver_ok.
  - destruct IH as [Hok Hreq]. split; [done|]. by apply Forall_delete.
Qed.

(** C27: in every state the page reaches, whatever the order in which the
    server's answers arrive or are lost, the search parameters hold as
    many filters as fields, each field once and among title, year,
    genres and rated, the filter is on exactly when a field is; the page
    number is at least 1, the first page has no previous one; and every
    list or scout request in flight asks for a page from 1 on with such
    parameters. *)
Theorem page_invariant `{TextSearch} (ms : movies) (w : world) :
  reachable ms w -> world_ok w.
Proof. apply reachable_world_ok. Qed.

(** ** What the server answers to the page *)

(** The first value of a key. *)
Fixpoint assoc (k : string) (ps : list (string * string)) : option string :=
  match ps with
  | [] => None
  | (k', v) :: ps' => if String.eqb k' k then Some v else assoc k ps'
  end.

(** The [req.query] of a search with parameters [sp] at page [p]. *)
Definition sp_query (sp : search_params) (p : Z) : movies_query :=
  let ps := zip (sp_findBys sp) (sp_filters sp) in
  {| mq_moviesPerPage := None; mq_page := Some (number_to_string p);
     mq_title := assoc "title" ps; mq_genres := assoc "genres" ps;
     mq_rated := assoc "rated" ps; mq_year := assoc "year" ps |}.

(** The filters [apiGetMovies] passes to [getMovies] for the page's
    current search. *)
Definition page_filters (s : page) : filters :=
  MoviesCtrl.query_filters (sp_query (searchParams s) (currPage s)).

Lemma assoc_None (k : string) (ps : list (string * string)) : k ∉ ps.*1 -> assoc k ps = None.
Proof.
  induction ps as [|[k' v] ps IH]; simpl; [done|]. intros Hk.
  destruct (String.eqb_spec k' k) as [->|]; [set_solver|]. apply IH. set_solver.
Qed.

Lemma assoc_app_page (k n : string) (ps : list (string * string)) :
  assoc k (ps ++ [("page", n)]) = match assoc k ps with Some v => Some v | None => if String.eqb "page" k then Some n else None end.
Proof. induction ps as [|[k' v] ps IH]; simpl; [done|]. by destruct (String.eqb k' k). Qed.

Lemma filter_key_absent (k : string) (ps : list (string * string)) :
  k ∉ ps.*1 -> List.filter (fun kv => String.eqb kv.1 k) ps = [].
Proof.
  induction ps as [|[k' v] ps IH]; simpl; [done|]. intros Hk.
  destruct (String.eqb_spec k' k) as [->|]; [set_solver|]. apply IH. set_solver.
Qed.

(** Without a repeated key, [req.query.k] is the value of [k]. *)
Lemma query_get_NoDup (ps : list (string * string)) (k : string) :
  NoDup ps.*1 -> query_get ps k = QStr <$> assoc k ps.
Proof.
  unfold query_get. induction ps as [|[k' v] ps IH]; simpl; [done|]. intros Hnd.
  apply NoDup_cons in Hnd as [Hk' Hnd].
  destruct (String.eqb_spec k' k) as [->|]; simpl; [|by apply IH].
  by rewrite filter_key_absent.
Qed.

Lemma number_to_string_nonempty (z : Z) : number_to_string z <> ""%string.
Proof.
  destruct (Z.eqb_spec z 0) as [->|Hz]; [done|]. rewrite number_to_string_digits by done.
  destruct (decimal_digits_spec z Hz) as (Hne & _). destruct (decimal_digits z); [done|].
  by destruct (z <? 0)%Z.
Qed.

Lemma movies_query_of_sp (sp : search_params) (p : Z) :
  params_wf sp ->
  movies_query_of (zip (sp_findBys sp) (sp_filters sp) ++ [("page", number_to_string p)]) = Some (sp_query sp p).
Proof.
  intros (Hl & Hn & Hsub & _).
  assert (Hnd : NoDup (zip (sp_findBys sp) (sp_filters sp) ++ [("page", number_to_string p)]).*1).
  { rewrite fmap_app, fst_zip by lia. apply NoDup_app. split_and!; [done | | by apply NoDup_singleton].
    intros x Hx ->%list_elem_of_singleton. apply Hsub in Hx. unfold fields in Hx. set_solver. }
  assert (Hout : forall k, k ∉ fields -> assoc k (zip (sp_findBys sp) (sp_filters sp)) = None).
  { intros k Hk. apply assoc_None. rewrite fst_zip by lia. intros Hx. apply Hk, Hsub, Hx. }
  unfold movies_query_of, query_field. rewrite !query_get_NoDup by done. rewrite !assoc_app_page.
  rewrite (Hout "moviesPerPage"), (Hout "page") by (unfold fields; set_solver). simpl.
  unfold sp_query. destruct (assoc "title" _), (assoc "genres" _), (assoc "rated" _), (assoc "year" _); reflexivity.
Qed.

Lemma zip_plain (sp : search_params) :
  params_wf sp ->
  Forall (fun kv => kv.1 <> ""%string /\ plain kv.1 = true /\ plain kv.2 = true) (zip (sp_findBys sp) (sp_filters sp)).
Proof.
  intros (_ & _ & Hsub & Hpl).
  assert (Hk : Forall (fun k => k <> ""%string /\ plain k = true) (sp_findBys sp)).
  { apply Forall_forall. intros k Hk. apply Hsub in Hk. unfold fields in Hk.
    repeat (apply elem_of_cons in Hk as [->|Hk]; [split; [discriminate | reflexivity]|]).
    by apply elem_of_nil in Hk. }
  eapply Forall_impl; [exact (Forall_zip _ _ _ _ Hk Hpl)|]. simpl. tauto.
Qed.

Lemma apiGetMovies_sp_query `{TextSearch} (sp : search_params) (p : Z) (ms : movies) :
  MoviesCtrl.apiGetMovies (sp_query sp p) ms
    = Json {| moviesList := moviesList (MoviesDAO.getMovies (Some (MoviesCtrl.query_filters (sp_query sp p)))
                                          (Some p) (Some 21%Z) ms) |}.
Proof.
  unfold MoviesCtrl.apiGetMovies. cbn [sp_query mq_moviesPerPage mq_page truthy].
  rewrite (str_eqb_false _ _ (number_to_string_nonempty p)), parseInt10_number_to_string.
  by destruct (MoviesDAO.getMovies _ _ _ _).
Qed.

Lemma option_bind_Some {A B} (a : A) (f : A -> option B) : (Some a ≫= f) = f a.
Proof. reflexivity. Qed.

Lemma router_path_query_head (rest : string) : router_path (String "?" rest) = "/"%string.
Proof. reflexivity. Qed.

Lemma serve_find `{TextSearch} (ms : movies) (sp : search_params) (p : Z) :
  params_wf sp -> sp_findBys sp <> [] ->
  serve_list ms (MoviesDataService.find (Some sp) p)
    = Some (moviesList (MoviesDAO.getMovies (Some (MoviesCtrl.query_filters (sp_query sp p))) (Some p) (Some 21%Z) ms)).
Proof.
  intros Hwf Hne. pose proof Hwf as (Hl & _).
  assert (Hpath : router_path (call_url (MoviesDataService.find (Some sp) p)) = "/"%string).
  { destruct (formatFilteredSearch_head sp Hne) as [rest Hr]. cbn [MoviesDataService.find call_url].
    rewrite Hr. apply router_path_query_head. }
  unfold serve_list. change (call_method (MoviesDataService.find (Some sp) p)) with GET. rewrite Hpath.
  cbn [Routes.router]. rewrite find_query_roundtrip by (done || by apply zip_plain).
  rewrite movies_query_of_sp by done. rewrite option_bind_Some. cbv beta.
  by rewrite apiGetMovies_sp_query.
Qed.

Lemma serve_getAll `{TextSearch} (ms : movies) (p : Z) :
  serve_list ms (MoviesDataService.getAll p)
    = Some (moviesList (MoviesDAO.getMovies (Some (MoviesCtrl.query_filters (sp_query (mk_params [] []) p)))
                         (Some p) (Some 21%Z) ms)).
Proof.
  assert (Hq : parse_query (query_string ("?page=" +:+ number_to_string p))
               = zip (sp_findBys (mk_params [] [])) (sp_filters (mk_params [] [])) ++ [("page", number_to_string p)]).
  { unfold query_string. cbn [MoviesDataService.getAll call_url].
    change (list_ascii_of_string ("?page=" +:+ number_to_string p))
      with ("?"%char :: list_ascii_of_string ("page=" +:+ number_to_string p)).
    assert (Hpage : forall sep, sep = "#"%char \/ sep = "&"%char ->
              Forall (fun c => Ascii.eqb c sep = false) (list_ascii_of_string ("page=" +:+ number_to_string p))).
    { intros sep Hsep. rewrite list_ascii_of_string_app. apply Forall_app.
      split; [by destruct Hsep as [-> | ->]; repeat constructor|].
      apply plain_chars; [apply number_to_string_plain | tauto]. }
    rewrite query_part_head, fragment_cut_id by (apply Hpage; by left).
    rewrite string_of_list_ascii_of_string. unfold parse_query. rewrite split_nosep by (apply Hpage; by right).
    rewrite (omap_cons_Some _ _ _ ("page", number_to_string p)); [done|].
    unfold query_piece. rewrite list_ascii_of_string_app. simpl. rewrite string_of_list_ascii_of_string.
    by rewrite (qs_decode_plain (number_to_string p) (number_to_string_plain p)). }
  unfold serve_list. cbn [MoviesDataService.getAll call_method call_url].
  rewrite (router_path_query_head ("page=" +:+ number_to_string p) : router_path ("?page=" +:+ number_to_string p) = "/"%string). cbn [Routes.router]. rewrite Hq, movies_query_of_sp.
  - rewrite option_bind_Some. cbv beta. by rewrite apiGetMovies_sp_query.
  - split_and!; simpl; [done | constructor | set_solver | constructor].
Qed.

(** The answer to a page's request: the window of 21 sorted matches. *)
Definition window `{TextSearch} (ms : movies) (f : filters) (p : Z) : list (oid * Movie.t) :=
  take 21 (drop (21 * (Z.to_nat p - 1)) (MoviesDAO.sorted_matches (Some f) ms)).

Lemma getMovies_21 `{TextSearch} (ms : movies) (f : filters) (p : Z) :
  (1 <= p)%Z -> moviesList (MoviesDAO.getMovies (Some f) (Some p) (Some 21%Z) ms) = window ms f p.
Proof.
  intros Hp. rewrite getMovies_window by lia. unfold window.
  by rewrite (Z.max_r 1 p) by lia.
Qed.

Lemma empty_params (sp : search_params) :
  params_wf sp -> sp_findBys sp = [] -> sp = mk_params [] [].
Proof.
  destruct sp as [fl fb]. intros (Hl & _) Hfb. simpl in *. subst fb.
  destruct fl; [done|]. simpl in Hl. lia.
Qed.

Lemma call_ok_answered `{TextSearch} (ms : movies) (c : http_call) :
  call_ok c ->
  exists sp p, params_wf sp /\ (1 <= p)%Z /\
    serve_list ms c = Some (window ms (MoviesCtrl.query_filters (sp_query sp p)) p).
Proof.
  intros (p & Hp & [-> | [-> | (sp & Hwf & Hne & ->)]]).
  - exists (mk_params [] []), p. split_and!; [split_and!; simpl; [done | constructor | set_solver | constructor] | done |].
    by rewrite serve_getAll, getMovies_21.
  - exists (mk_params [] []), p. split_and!; [split_and!; simpl; [done | constructor | set_solver | constructor] | done |].
    change (MoviesDataService.find None p) with (MoviesDataService.getAll p).
    by rewrite serve_getAll, getMovies_21.
  - exists sp, p. split_and!; [done | done |]. by rewrite serve_find, getMovies_21.
Qed.

Lemma query_filters_page (sp : search_params) (p q : Z) :
  MoviesCtrl.query_filters (sp_query sp p) = MoviesCtrl.query_filters (sp_query sp q).
Proof. reflexivity. Qed.

(** A request of the page for page [q] with its current search is
    answered with the window of the page's filters at [q]. *)
Lemma find_served `{TextSearch} (ms : movies) (s : page) (q : Z) :
  page_wf s -> (1 <= q)%Z ->
  serve_list ms (MoviesDataService.find (scout_params s) q) = Some (window ms (page_filters s) q).
Proof.
  intros (Hp & Hf & _ & _) Hq. unfold scout_params, page_filters.
  rewrite (query_filters_page _ (currPage s) q). destruct (findByFilter s) eqn:E.
  - rewrite serve_find by (done || by apply Hf). by rewrite getMovies_21.
  - assert (Hsp : searchParams s = mk_params [] []).
    { apply empty_params; [done|]. destruct (sp_findBys (searchParams s)); [done|].
      exfalso. assert (false = true) by (apply Hf; discriminate). discriminate. }
    rewrite Hsp. change (MoviesDataService.find None q) with (MoviesDataService.getAll q).
    rewrite serve_getAll. by rewrite getMovies_21.
Qed.

Lemma list_request_find (s : page) : list_request s = MoviesDataService.find (scout_params s) (currPage s).
Proof. unfold list_request, scout_params. by destruct (findByFilter s). Qed.

Section ListTheorems.
Context `{TextSearch}.

(** C28: in every state the page reaches, the list request of the page
    ([find(searchParams, currPage)] or [retrieveMovies(currPage)]) is
    routed to [apiGetMovies] and answered with the window of 21 matches
    of the page's filters at [currPage]; and every list or scout request
    in flight is answered the same way for some well-formed search and
    page: none fails on a route or a malformed query. *)
Theorem page_requests_answered (ms : movies) (w : world) :
  reachable ms w ->
  serve_list ms (list_request (pg w)) = Some (window ms (page_filters (pg w)) (currPage (pg w))) /\
  (forall r c, r ∈ inflight w -> (r = ListReq c \/ exists d, r = ScoutReq d c) ->
     exists sp p, params_wf sp /\ (1 <= p)%Z /\
       serve_list ms c = Some (window ms (MoviesCtrl.query_filters (sp_query sp p)) p)).
Proof.
  intros Hr. destruct (reachable_world_ok ms w Hr) as [[Hwf _] Hreq]. split.
  - rewrite list_request_find. apply find_served; [done | apply Hwf].
  - intros r c Hin Hrc. apply call_ok_answered.
    rewrite Forall_forall in Hreq. specialize (Hreq r Hin).
    by destruct Hrc as [-> | [d ->]].
Qed.
End ListTheorems.

(** ** Answers in order: the page settles *)

(** What a render's requests depend on: the page number and the search. *)
Definition search_of (s : page) : Z * bool * search_params := (currPage s, findByFilter s, searchParams s).

Definition prev_call (s : page) : http_call := MoviesDataService.find (scout_params s) (currPage s - 1).
Definition next_call (s : page) : http_call := MoviesDataService.find (scout_params s) (currPage s + 1).

(** The requests the effect sends for the page's current search. *)
Definition current_reqs (s : page) : list request :=
  (if (currPage s =? 1)%Z then [] else [ScoutReq Previous (prev_call s)]) ++
  [ScoutReq Next (next_call s); ListReq (list_request s); GenresReq; RatedReq].

Lemma effect_parts (s : page) :
  effect s = (if (currPage s =? 1)%Z then setPrevPageExists false s else s, current_reqs s).
Proof.
  unfold effect, pageScoutDirector, current_reqs, prev_call, next_call.
  by destruct (currPage s =? 1)%Z.
Qed.

Lemma current_reqs_search (s1 s2 : page) : search_of s1 = search_of s2 -> current_reqs s1 = current_reqs s2.
Proof.
  unfold search_of, current_reqs, list_request, prev_call, next_call, scout_params. intros [= E1 E2 E3].
  by rewrite E1, E2, E3.
Qed.

Lemma search_of_effect (s : page) :
  search_of (if (currPage s =? 1)%Z then setPrevPageExists false s else s) = search_of s.
Proof. by destruct (currPage s =? 1)%Z. Qed.

(** What [commit] does to the page and the requests it adds. *)
Lemma commit_parts (old new : page) (ps : bool) :
  let '(s, rs) := commit old new ps in
  search_of s = search_of new /\ movies_shown s = movies_shown new /\
  nextPageExists s = nextPageExists new /\ Forall (fun r => r ∈ current_reqs s) rs /\ length rs <= 10 /\
  (if ps || deps_changed old new
   then prevPageExists s = (if (currPage new =? 1)%Z then false else prevPageExists new) /\
        (forall r, r ∈ current_reqs s -> r ∈ rs)
   else s = new /\ rs = []).
Proof.
  unfold commit. destruct (ps || deps_changed old new) eqn:Ed; [|simpl; split_and!; done || lia || constructor].
  rewrite effect_parts.
  set (s1 := if (currPage new =? 1)%Z then setPrevPageExists false new else new).
  assert (H1 : search_of s1 = search_of new) by apply search_of_effect.
  assert (Hlen : length (current_reqs new) <= 5) by (unfold current_reqs; destruct (_ =? _)%Z; simpl; lia).
  destruct (Bool.eqb (prevPageExists s1) (prevPageExists new)) eqn:Eb.
  - apply Bool.eqb_prop in Eb. rewrite (current_reqs_search s1 new H1).
    split_and!; try done; [by subst s1; destruct (_ =? _)%Z | by subst s1; destruct (_ =? _)%Z
      | by apply Forall_forall | lia | subst s1; destruct (Z.eqb_spec (currPage new) 1); simpl in *; congruence].
  - rewrite effect_parts.
    assert (H2 : search_of (if (currPage s1 =? 1)%Z then setPrevPageExists false s1 else s1) = search_of new)
      by (rewrite search_of_effect; exact H1).
    rewrite (current_reqs_search _ new H2), (current_reqs_search s1 new H1).
    assert (Hp1 : currPage new = 1%Z /\ s1 = setPrevPageExists false new).
    { subst s1. destruct (Z.eqb_spec (currPage new) 1) as [E|E]; [done|]. by rewrite Bool.eqb_reflx in Eb. }
    destruct Hp1 as [E ->]. simpl. rewrite E. simpl.
    split_and!; try done.
    + apply Forall_forall. intros r Hr. apply elem_of_app in Hr as [Hr|Hr]; exact Hr.
    + rewrite length_app. lia.
    + intros r Hr. apply elem_of_app. by left.
Qed.

Section Settle.
Context `{TextSearch}.
Variable ms : movies.

(** Answers in the order of the requests: the first one in flight is
    delivered, until none is left or the fuel runs out. *)
Fixpoint settle (fuel : nat) (w : world) : option world :=
  match inflight w with
  | [] => Some w
  | r :: _ => match fuel with O => None | S f => settle f (deliver ms 0 r w) end
  end.

(** Whether the previous and the next page have movies. *)
Definition prev_truth (s : page) : bool :=
  if (currPage s =? 1)%Z then false
  else negb (bool_decide (window ms (page_filters s) (currPage s - 1) = [])).
Definition next_truth (s : page) : bool :=
  negb (bool_decide (window ms (page_filters s) (currPage s + 1) = [])).

(** A settled page: nothing in flight, the movies of the current page and
    the true flags. *)
Definition settled (w : world) : Prop :=
  world_ok w /\ inflight w = [] /\
  movies_shown (pg w) = window ms (page_filters (pg w)) (currPage (pg w)) /\
  prevPageExists (pg w) = prev_truth (pg w) /\ nextPageExists (pg w) = next_truth (pg w).

(** On the way: every request in flight is current, and what is not yet
    right has its request in flight. *)
Definition settling (w : world) : Prop :=
  world_ok w /\ Forall (fun r => r ∈ current_reqs (pg w)) (inflight w) /\
  (movies_shown (pg w) = window ms (page_filters (pg w)) (currPage (pg w)) \/ ListReq (list_request (pg w)) ∈ inflight w) /\
  (prevPageExists (pg w) = prev_truth (pg w) \/ ScoutReq Previous (prev_call (pg w)) ∈ inflight w) /\
  (nextPageExists (pg w) = next_truth (pg w) \/ ScoutReq Next (next_call (pg w)) ∈ inflight w).

Definition mismatch (s : page) : nat :=
  (if Bool.eqb (prevPageExists s) (prev_truth s) then 0 else 1) +
  (if Bool.eqb (nextPageExists s) (next_truth s) then 0 else 1).

(** Requests in flight, and eleven for each wrong flag. *)
Definition measure (w : world) : nat := length (inflight w) + 11 * mismatch (pg w).

Lemma truth_search (s1 s2 : page) :
  search_of s1 = search_of s2 ->
  prev_truth s1 = prev_truth s2 /\ next_truth s1 = next_truth s2 /\
  page_filters s1 = page_filters s2 /\ currPage s1 = currPage s2 /\ current_reqs s1 = current_reqs s2 /\
  list_request s1 = list_request s2 /\ prev_call s1 = prev_call s2 /\ next_call s1 = next_call s2.
Proof.
  intros E. pose proof (current_reqs_search s1 s2 E) as Ec. revert E Ec.
  unfold search_of, prev_truth, next_truth, page_filters, list_request, prev_call, next_call, scout_params.
  intros [= E1 E2 E3] Ec. by rewrite E1, E2, E3.
Qed.

Definition is_list (r : request) : bool := match r with ListReq _ => true | _ => false end.
Definition is_scout (d : direction) (r : request) : bool :=
  match r with ScoutReq d' _ => bool_decide (d = d') | _ => false end.

(** The callback of a current request stores the true answer. *)
Lemma on_response_current (s : page) (r : request) :
  page_wf s -> r ∈ current_reqs s ->
  let s1 := on_response ms r s in
  search_of s1 = search_of s /\
  movies_shown s1 = (if is_list r then window ms (page_filters s) (currPage s) else movies_shown s) /\
  prevPageExists s1 = (if is_scout Previous r then prev_truth s else prevPageExists s) /\
  nextPageExists s1 = (if is_scout Next r then next_truth s else nextPageExists s).
Proof.
  intros Hs Hr. pose proof Hs as (_ & _ & _ & Hc). unfold current_reqs in Hr.
  destruct (Z.eqb_spec (currPage s) 1) as [E|E]; simpl in Hr;
    repeat (apply elem_of_cons in Hr as [->|Hr]); try by apply elem_of_nil in Hr.
  all: unfold on_response; simpl.
  all: try (rewrite list_request_find); try (unfold prev_call); try (unfold next_call).
  all: try (rewrite find_served by (done || lia)).
  all: try (destruct (MoviesCtrl.apiGetGenres ms)); try (destruct (MoviesCtrl.apiGetRated ms)).
  all: unfold prev_truth, next_truth; try rewrite (proj2 (Z.eqb_neq _ _) E); by split_and!.
Qed.

Lemma current_not_list (s : page) (r : request) (rest : list request) :
  is_list r = false -> ListReq (list_request s) ∈ r :: rest -> ListReq (list_request s) ∈ rest.
Proof. intros Hr [E|?]%elem_of_cons; [subst; simpl in Hr; discriminate|done]. Qed.

Lemma current_not_scout (d : direction) (c : http_call) (r : request) (rest : list request) :
  is_scout d r = false -> ScoutReq d c ∈ r :: rest -> ScoutReq d c ∈ rest.
Proof.
  intros Hr [E|?]%elem_of_cons; [subst; simpl in Hr|done]. rewrite bool_decide_true in Hr; [discriminate|done].
Qed.

Lemma is_scout_excl (r : request) : is_scout Previous r = false \/ is_scout Next r = false.
Proof. destruct r as [|[] c| |]; simpl; auto. Qed.

Lemma deps_changed_flags (old new : page) :
  search_of new = search_of old -> deps_changed old new = true ->
  prevPageExists new <> prevPageExists old \/ nextPageExists new <> nextPageExists old.
Proof.
  unfold search_of, deps_changed. intros [= E1 E2 _]. rewrite E1, E2, Z.eqb_refl, Bool.eqb_reflx. simpl.
  destruct (prevPageExists new), (prevPageExists old), (nextPageExists new), (nextPageExists old); simpl;
    intros; (discriminate || (left; discriminate) || (right; discriminate)).
Qed.

(** One answer in order keeps the page settling and brings it closer. *)
Lemma deliver_settling (w : world) (r : request) (rest : list request) :
  settling w -> inflight w = r :: rest ->
  settling (deliver ms 0 r w) /\ measure (deliver ms 0 r w) < measure w.
Proof.
  intros (Hok & Hcur & Hm & Hp & Hn) Hin.
  pose proof (deliver_ok ms 0 r w Hok) as Hok'.
  rewrite Hin in Hcur, Hm, Hp, Hn. apply Forall_cons in Hcur as [Hr Hrest].
  destruct (on_response_current (pg w) r (proj1 (proj1 Hok)) Hr) as (E1 & M1 & P1 & N1).
  pose proof (commit_parts (pg w) (on_response ms r (pg w)) false) as Hc.
  unfold deliver in Hok' |- *. rewrite Hin in Hok' |- *.
  change (delete 0 (r :: rest)) with rest in Hok' |- *.
  destruct (commit (pg w) (on_response ms r (pg w)) false) as [s2 rs].
  destruct Hc as (C1 & C2 & C3 & C4 & C5 & C6). cbn [pg inflight] in *.
  unfold settling, measure, mismatch. cbn [pg inflight length].
  destruct (truth_search s2 (pg w) ltac:(congruence)) as (T1 & T2 & T3 & T4 & T5 & T6 & T7 & T8).
  rewrite ?T1, ?T2, ?T3, ?T4, ?T5, ?T6, ?T7, ?T8. rewrite ?T5 in C4. rewrite ?T5, ?T6, ?T7, ?T8, ?T4 in C6.
  assert (Htp : currPage (pg w) = 1%Z -> prev_truth (pg w) = false)
    by (intros E; unfold prev_truth; by rewrite E).
  assert (Hcur' : Forall (fun r => r ∈ current_reqs (pg w)) (rest ++ rs)) by (apply Forall_app; by split).
  destruct (deps_changed (pg w) (on_response ms r (pg w))) eqn:D; simpl in C6.
  - destruct C6 as [Cp Cin].
    assert (Hcp : currPage (on_response ms r (pg w)) = currPage (pg w)) by (unfold search_of in E1; congruence).
    rewrite Hcp in Cp. split.
    + split_and!; [done | done | right; apply elem_of_app; right; apply Cin; unfold current_reqs; set_solver | |
        right; apply elem_of_app; right; apply Cin; unfold current_reqs; set_solver].
      destruct (Z.eqb_spec (currPage (pg w)) 1) as [E|E]; [left; rewrite Cp; simpl; symmetry; by apply Htp|].
      right. apply elem_of_app; right. apply Cin. unfold current_reqs.
      rewrite (proj2 (Z.eqb_neq _ _) E). set_solver.
    + pose proof (deps_changed_flags _ _ E1 D) as Hfl. rewrite P1, N1 in Hfl.
      rewrite length_app, Cp, C3, N1, P1, Hin. cbn [length].
      assert (Hx := is_scout_excl r).
      destruct (is_scout Previous r), (is_scout Next r), (prevPageExists (pg w)), (nextPageExists (pg w)),
        (prev_truth (pg w)), (next_truth (pg w)), (Z.eqb_spec (currPage (pg w)) 1);
        simpl in *; try (destruct Hx; discriminate); try (specialize (Htp ltac:(assumption)); discriminate);
        try (destruct Hfl; congruence); lia.
  - destruct C6 as [-> ->]. destruct (deps_unchanged _ _ D) as (_ & Dp & Dn). split.
    + split_and!; [done | by rewrite app_nil_r | | |].
      * rewrite M1. destruct (is_list r) eqn:El; [by left|].
        destruct Hm as [Hm|Hm]; [by left | right; rewrite app_nil_r; by apply (current_not_list _ r)].
      * destruct (is_scout Previous r) eqn:Ep; [left; by rewrite P1|].
        rewrite Dp. destruct Hp as [Hp|Hp]; [by left|].
        right. rewrite app_nil_r. by apply (current_not_scout _ _ r).
      * destruct (is_scout Next r) eqn:Ep; [left; by rewrite N1|].
        rewrite Dn. destruct Hn as [Hn|Hn]; [by left|].
        right. rewrite app_nil_r. by apply (current_not_scout _ _ r).
    + rewrite app_nil_r, Dp, Dn, Hin. cbn [length]. lia.
Qed.

Lemma settle_spec (fuel : nat) (w : world) :
  settling w -> measure w <= fuel -> exists w', settle fuel w = Some w' /\ settled w'.
Proof.
  revert w. induction fuel as [|f IH]; intros w Hs Hm; simpl.
  - destruct (inflight w) as [|r rest] eqn:Hin; [|unfold measure in Hm; rewrite Hin in Hm; simpl in Hm; lia].
    exists w. split; [done|]. destruct Hs as (Hok & _ & Hmv & Hp & Hn). rewrite Hin in Hmv, Hp, Hn.
    split_and!; [done | done | by destruct Hmv as [?|?%elem_of_nil] | by destruct Hp as [?|?%elem_of_nil]
      | by destruct Hn as [?|?%elem_of_nil]].
  - destruct (inflight w) as [|r rest] eqn:Hin.
    + exists w. split; [done|]. destruct Hs as (Hok & _ & Hmv & Hp & Hn). rewrite Hin in Hmv, Hp, Hn.
      split_and!; [done | done | by destruct Hmv as [?|?%elem_of_nil] | by destruct Hp as [?|?%elem_of_nil]
        | by destruct Hn as [?|?%elem_of_nil]].
    + destruct (deliver_settling w r rest Hs Hin) as [Hs' Hlt]. apply IH; [done | lia].
Qed.

Lemma handle_movies (e : ui_event) (s : page) : movies_shown (handle e s) = movies_shown s.
Proof.
  destruct e as [v|v|v|v| | | | |k|k|[]]; simpl;
    unfold findByTitle, findByYear, findByGenre, findByRated, pagination, activateFindByFilter,
      deactivateFindByFilter; repeat case_match; reflexivity.
Qed.

Lemma handle_search (e : ui_event) (s : page) :
  sets_params e = false ->
  findByFilter (handle e s) = findByFilter s /\ searchParams (handle e s) = searchParams s.
Proof.
  destruct e as [v|v|v|v| | | | |k|k|[]]; simpl; try done;
    try (intros Hk; rewrite Hk; done); unfold pagination; by repeat case_match.
Qed.

(** After a user event on a settled page, the page is settling, with at
    most ten requests in flight. *)
Lemma ui_step_settling (e : ui_event) (w : world) :
  settled w -> event_ok e = true -> settling (ui_step e w) /\ measure (ui_step e w) <= 32.
Proof.
  intros (Hok & Hin & Hmv & Hp & Hn) He.
  pose proof (ui_step_ok e w Hok He) as Hok'.
  pose proof (commit_parts (pg w) (handle e (pg w)) (sets_params e)) as Hc.
  unfold ui_step in Hok' |- *. rewrite Hin in Hok' |- *.
  destruct (commit (pg w) (handle e (pg w)) (sets_params e)) as [s2 rs].
  destruct Hc as (C1 & C2 & C3 & C4 & C5 & C6). cbn [pg inflight app] in *.
  unfold settling, measure, mismatch. cbn [pg inflight app].
  destruct (sets_params e || deps_changed (pg w) (handle e (pg w))) eqn:D.
  - destruct C6 as [Cp Cin].
    assert (Hp1 : currPage s2 = 1%Z -> prevPageExists s2 = prev_truth s2).
    { intros E. unfold prev_truth. rewrite E, Cp. simpl.
      unfold search_of in C1. assert (currPage (handle e (pg w)) = 1%Z) as -> by congruence. done. }
    split.
    + split_and!; [done | done | right; apply Cin; unfold current_reqs; set_solver | |
        right; apply Cin; unfold current_reqs; set_solver].
      destruct (Z.eqb_spec (currPage s2) 1) as [E|E]; [left; by apply Hp1|].
      right. apply Cin. unfold current_reqs. rewrite (proj2 (Z.eqb_neq _ _) E). set_solver.
    + destruct (Bool.eqb _ _), (Bool.eqb _ _); simpl; lia.
  - destruct C6 as [-> ->]. apply orb_false_iff in D as [Dps D].
    destruct (deps_unchanged _ _ D) as (Dc & Dp & Dn). destruct (handle_search e (pg w) Dps) as [Df Dsp].
    assert (Hs : search_of (handle e (pg w)) = search_of (pg w)) by (unfold search_of; congruence).
    destruct (truth_search _ _ Hs) as (T1 & T2 & T3 & T4 & _).
    split.
    + split_and!; [done | constructor | left | left | left].
      * by rewrite handle_movies, T3, T4.
      * by rewrite Dp, T1.
      * by rewrite Dn, T2.
    + rewrite Dp, Dn, T1, T2, <- Hp, <- Hn, !Bool.eqb_reflx. simpl. lia.
Qed.

Lemma init_settling : settling init_world /\ measure init_world <= 32.
Proof.
  pose proof init_world_ok as Hok. unfold init_world in *. rewrite effect_parts in Hok |- *.
  unfold settling, measure, mismatch. cbn [pg inflight] in *.
  assert (E : currPage init_page = 1%Z) by reflexivity.
  rewrite E in Hok |- *. cbn [Z.eqb Pos.eqb] in *.
  assert (Hs : search_of (setPrevPageExists false init_page) = search_of init_page) by reflexivity.
  destruct (truth_search _ _ Hs) as (T1 & T2 & T3 & T4 & T5 & T6 & T7 & T8).
  rewrite T5. unfold current_reqs. rewrite E. cbn [Z.eqb Pos.eqb app].
  split.
  - split_and!; [done | by apply Forall_forall | right; set_solver | left | right; set_solver].
    unfold prev_truth. by rewrite T4, E.
  - destruct (Bool.eqb _ _), (Bool.eqb _ _); simpl; lia.
Qed.

(** C29: with the server's answers arriving in the order of the
    requests, the page settles: after mounting, and after every user
    event on a settled page, at most 32 answers leave nothing in flight,
    the page showing the 21 matches of its current page and flags that
    say whether the previous and the next page have movies. *)
Theorem page_settles :
  (exists w0, settle 32 init_world = Some w0 /\ settled w0) /\
  (forall w e, settled w -> event_ok e = true ->
     exists w', settle 32 (ui_step e w) = Some w' /\ settled w').
Proof.
  split.
  - destruct init_settling as [Hs Hm]. by apply settle_spec.
  - intros w e Hw He. destruct (ui_step_settling e w Hw He) as [Hs Hm]. by apply settle_spec.
Qed.








End Settle.

(** ** Runs and witnesses *)

Lemma run_reachable `{TextSearch} (ms : movies) (acts : list action) (w w' : world) :
  reachable ms w -> run ms w acts = Some w' -> reachable ms w'.
Proof.
  revert w. induction acts as [|a acts IH]; intros w Hw Hrun; cbn [run] in Hrun.
  - by injection Hrun as <-.
  - destruct a as [e|i]; cbn [act] in Hrun.
    + destruct (event_ok e) eqn:He; [|discriminate].
      rewrite option_bind_Some in Hrun. apply (IH (ui_step e w)); [|done].
      econstructor; [exact Hw | by constructor].
    + destruct (inflight w !! i) as [r|] eqn:Hi; [|discriminate].
      rewrite option_bind_Some, option_bind_Some in Hrun. apply (IH (deliver ms i r w)); [|done].
      econstructor; [exact Hw | by constructor].
Qed.

(** A collection of fifty movies titled "M", ranked by their rating. *)
#[local] Instance title_search : TextSearch := {| phrase_match := fun t m => (t =? Movie.title m)%string |}.

Definition sample_movie (n : nat) : Movie.t :=
  Movie.mk "M" (Some 2020%Z) None (Some ["Drama"])
    (Movie.mk_imdb (Fin (inject_Z (Z.of_nat n))) (js_of_Z 1) (js_of_Z 1))
    None None (DateArgs 2020 0 1) (Some "PG") None None "movie".

Definition sample_movies : movies :=
  map (fun n => ("60aa0000000000000000" +:+ number_to_string (1000 + Z.of_nat n), sample_movie n)) (seq 0 50).

(** The page after the first scout answer, a press of "next", and a title
    search for "M". *)
Definition sample_acts : list action :=
  [Deliver 0; Ui (Paginate Next); Ui (ChangeSearchTitle "M"); Ui ClickTitle].

Definition sample_world : world :=
  match run sample_movies init_world sample_acts with Some w => w | None => init_world end.

Lemma sample_world_reachable : reachable sample_movies sample_world.
Proof.
  apply (run_reachable sample_movies sample_acts init_world); [constructor|].
  vm_compute. reflexivity.
Qed.

Lemma page_invariant_witness : world_ok sample_world.
Proof. apply (page_invariant sample_movies). apply (run_reachable sample_movies sample_acts init_world); [constructor | vm_compute; reflexivity]. Defined.

Lemma page_requests_answered_witness :
  serve_list sample_movies (list_request (pg sample_world))
    = Some (window sample_movies (page_filters (pg sample_world)) (currPage (pg sample_world))) /\
  length (window sample_movies (page_filters (pg sample_world)) (currPage (pg sample_world))) = 21.
Proof.
  split; [|vm_compute; reflexivity].
  apply (page_requests_answered sample_movies sample_world).
  apply (run_reachable sample_movies sample_acts init_world); [constructor | vm_compute; reflexivity].
Defined.

Lemma page_settles_witness :
  exists w0, settle sample_movies 32 init_world = Some w0 /\ settled sample_movies w0.
Proof. exact (proj1 (page_settles sample_movies)). Defined.



