(* ===== verification/MovieCards.v ===== *)
(** * MovieCards: the text of a movie card on the list page (movies-list.js)

    Models the two formatting helpers of
    src/frontend/src/components/movies-list.js: [formatGenre], whose
    [for] loop with its [break] is [genre_loop], and [formatIMDbID],
    whose [while] loop is [pad_zeros] run with fuel 7 (each turn adds one
    character and the loop stops at seven).  The theorems give each loop
    its closed form, whatever the fuel beyond what the loop needs, and
    show that the padded identifier reads back as the identifier. *)

From S2P Require Import Prelude JsCore.

(** ** [formatGenre] *)

(** [formattedGenre.concat(genres[i] + ", ")] for [i] from [i] while
    [i < genres.length - 1], stopping after the turn where [i > 4]. *)
Fixpoint genre_loop (fuel i : nat) (gs : list string) (acc : string) : string :=
  match fuel with
  | O => acc
  | S f =>
      if i <? length gs - 1 then
        let acc' := acc +:+ (string_at gs i +:+ ", ") in
        if 4 <? i then acc' else genre_loop f (S i) gs acc'
      else acc
  end.

(** [formatGenre(genres)]: a missing field gives its own text; the last
    element is read as [genres[genres.length - 1]], [undefined] for an
    empty array. *)
Definition formatGenre (genres : option (list string)) : string :=
  match genres with
  | None => "No Genres Available"
  | Some gs =>
      let formattedGenre := genre_loop (length gs) 0 gs "" in
      let formattedGenre :=
        if 1 <? length gs then "Genres: " +:+ formattedGenre else "Genre: " +:+ formattedGenre in
      formattedGenre +:+ string_at gs (length gs - 1)
  end.

(** ** [formatIMDbID] *)

(** [while (formattedID.length < 7) formattedID = "0" + formattedID]. *)
Fixpoint pad_zeros (fuel : nat) (s : string) : string :=
  match fuel with
  | O => s
  | S f => if String.length s <? 7 then pad_zeros f ("0" +:+ s) else s
  end.

(** [movieID.toString()] padded; the identifiers of the data set are
    integers, whose [toString] is [number_to_string]. *)
Definition formatIMDbID (movieID : Z) : string := pad_zeros 7 (number_to_string movieID).

(** ** Closed forms *)

Fixpoint zeros (n : nat) : string :=
  match n with O => "" | S n' => String "0" (zeros n') end.

(** The genres joined, each followed by [", "]. *)
Definition joined (gs : list string) : string := foldr (fun g acc => g +:+ ", " +:+ acc) "" gs.

(** [+:+] does not unfold by [simpl]: its two equations. *)
Lemma string_app_cons (x : ascii) (a b : string) : String x a +:+ b = String x (a +:+ b).
Proof. reflexivity. Qed.

Lemma string_app_nil_l (a : string) : "" +:+ a = a.
Proof. reflexivity. Qed.

Lemma string_app_assoc (a b c : string) : (a +:+ b) +:+ c = a +:+ (b +:+ c).
Proof. induction a as [|x a IH]; [done|]. rewrite !string_app_cons. congruence. Qed.

Lemma string_app_nil_r (a : string) : a +:+ "" = a.
Proof. induction a as [|x a IH]; [done|]. rewrite string_app_cons. congruence. Qed.

Lemma zeros_snoc (n : nat) (s : string) : zeros n +:+ String "0" s = zeros (S n) +:+ s.
Proof. induction n as [|n IH]; [done|]. simpl zeros. rewrite string_app_cons, IH. reflexivity. Qed.

Lemma zeros_length (n : nat) : String.length (zeros n) = n.
Proof. induction n; simpl; auto. Qed.

Lemma string_app_length (a b : string) : String.length (a +:+ b) = String.length a + String.length b.
Proof. induction a; [done|]. rewrite string_app_cons. simpl. auto. Qed.

Lemma nth_error_lookup (l : list string) (i : nat) : nth_error l i = l !! i.
Proof. revert i. induction l as [|x l IH]; intros [|i]; simpl; auto. Qed.

Lemma list_ascii_of_zeros (n : nat) : list_ascii_of_string (zeros n) = replicate n "0"%char.
Proof. induction n; [done|]. simpl. congruence. Qed.

(** The loop from turn [i] appends the genres [i] to [m - 1], where
    [m = min (length gs - 1) 6], once the fuel covers those turns. *)
Lemma genre_loop_spec (fuel i : nat) (gs : list string) (acc : string) :
  i <= 5 -> Nat.min (length gs - 1) 6 - i <= fuel ->
  genre_loop fuel i gs acc = acc +:+ joined (take (Nat.min (length gs - 1) 6 - i) (drop i gs)).
Proof.
  revert i acc. induction fuel as [|f IH]; intros i acc Hi Hf; simpl.
  - replace (_ - i) with 0 by lia. by rewrite string_app_nil_r.
  - destruct (Nat.ltb_spec i (length gs - 1)) as [Hlt|Hge];
      [|replace (_ - i) with 0 by lia; by rewrite string_app_nil_r].
    destruct (lookup_lt_is_Some_2 gs i) as [g Hg]; [lia|].
    rewrite (drop_S _ _ _ Hg). replace (Nat.min (length gs - 1) 6 - i) with (S (Nat.min (length gs - 1) 6 - S i)) by lia.
    cbn [take joined foldr]. unfold string_at. rewrite (nth_error_lookup gs i), Hg.
    destruct (Nat.ltb_spec 4 i).
    + replace (Nat.min (length gs - 1) 6 - S i) with 0 by lia. simpl.
      by rewrite string_app_nil_r.
    + rewrite IH by lia. fold (joined (take (Nat.min (length gs - 1) 6 - S i) (drop (S i) gs))).
      by rewrite !string_app_assoc.
Qed.

Lemma pad_zeros_step (f : nat) (s : string) :
  String.length s < 7 -> pad_zeros (S f) s = pad_zeros f (String "0" s).
Proof. intros H. simpl. by rewrite (proj2 (Nat.ltb_lt _ _) H). Qed.

Lemma digits_to_Z_zeros (k : nat) (ds : list nat) : digits_to_Z 10 (replicate k 0 ++ ds) = digits_to_Z 10 ds.
Proof.
  unfold digits_to_Z. rewrite fold_left_app. f_equal.
  induction k as [|k IH]; [done|]. exact IH.
Qed.

Lemma zeros_digits (k : nat) : zeros k = string_of_list_ascii (digit_char <$> replicate k 0).
Proof. induction k as [|k IH]; [done|]. simpl. by rewrite IH. Qed.

(** [String(n)] of a non-negative [n] is a non-empty list of decimal
    digits whose value is [n]. *)
Lemma number_to_string_nonneg (z : Z) :
  (0 <= z)%Z ->
  exists ds, ds <> [] /\ Forall (fun d => d < 10) ds /\ digits_to_Z 10 ds = z /\
             number_to_string z = string_of_list_ascii (digit_char <$> ds).
Proof.
  intros Hz. destruct (Z.eqb_spec z 0) as [->|Hz0]; [exists [0]; split_and!; by repeat constructor|].
  destruct (decimal_digits_spec z Hz0) as (Hne & Hsmall & Hval).
  exists (decimal_digits z). split_and!; [done|done|lia|].
  rewrite number_to_string_digits by done. by rewrite (proj2 (Z.ltb_ge z 0)) by lia.
Qed.

(** C35: the [while] loop of [formatIMDbID] stops within seven turns:
    with fuel for the [7 - length s] turns it needs (any more is not
    used), it prefixes [s] with exactly that many zeros. *)
Theorem pad_zeros_spec (fuel : nat) (s : string) :
  7 - String.length s <= fuel -> pad_zeros fuel s = zeros (7 - String.length s) +:+ s.
Proof.
  revert s. induction fuel as [|f IH]; intros s Hf.
  - simpl. by replace (7 - String.length s) with 0 by lia.
  - destruct (Nat.ltb_spec (String.length s) 7) as [Hlt|Hge].
    + rewrite pad_zeros_step, IH by (simpl; lia). simpl String.length.
      rewrite zeros_snoc. do 2 f_equal. lia.
    + simpl. rewrite (proj2 (Nat.ltb_ge _ _) Hge). by replace (7 - String.length s) with 0 by lia.
Qed.

(** C33: the IMDb identifier of a movie card reads back: [formatIMDbID]
    of a non-negative identifier has [max 7 (its length)] characters and
    [parseInt] of it is the identifier (the leading zeros are read as
    decimal digits, not as a prefix). *)
Theorem formatIMDbID_spec (movieID : Z) :
  (0 <= movieID)%Z ->
  parseInt (formatIMDbID movieID) = Some movieID /\
  String.length (formatIMDbID movieID) = Nat.max 7 (String.length (number_to_string movieID)).
Proof.
  intros Hz. unfold formatIMDbID. rewrite pad_zeros_spec by lia.
  split; [|rewrite string_app_length, zeros_length; lia].
  destruct (number_to_string_nonneg movieID Hz) as (ds & Hne & Hsmall & Hval & ->).
  rewrite zeros_digits, <- string_of_list_ascii_app, <- fmap_app.
  set (k := 7 - String.length _).
  pose proof (parse_digits None false (replicate k 0 ++ ds)) as P. cbv iota in P. rewrite app_nil_l in P.
  unfold parseInt. rewrite P, digits_to_Z_zeros, Hval; [f_equal; lia|by left|by destruct k, ds|].
  apply Forall_app. split; [apply Forall_replicate; lia | done].
Qed.

(** C34: [formatGenre] of an array: the first [min (length - 1) 6]
    genres each followed by a comma, then the last one, after "Genres: "
    (or "Genre: " for one element or none; the last element of an empty
    array is [undefined]). *)
Theorem formatGenre_spec (gs : list string) :
  formatGenre (Some gs)
  = (if 1 <? length gs then "Genres: " else "Genre: ") +:+
    joined (take (Nat.min (length gs - 1) 6) gs) +:+ string_at gs (length gs - 1).
Proof.
  unfold formatGenre. rewrite genre_loop_spec by lia. rewrite Nat.sub_0_r, drop_0, string_app_nil_l.
  destruct (1 <? length gs); by rewrite string_app_assoc.
Qed.

(** ** Witnesses *)

Lemma formatIMDbID_spec_witness :
  (0 <= 111161)%Z /\ formatIMDbID 111161 = "0111161"%string /\
  parseInt (formatIMDbID 111161) = Some 111161%Z /\
  String.length (formatIMDbID 111161) = Nat.max 7 (String.length (number_to_string 111161)).
Proof.
  split; [lia|]. split; [vm_compute; reflexivity|].
  apply formatIMDbID_spec. lia.
Defined.

Lemma pad_zeros_spec_witness :
  7 - String.length "42" <= 7 /\ pad_zeros 7 "42" = (zeros 5 +:+ "42")%string.
Proof. split; [simpl; lia | apply (pad_zeros_spec 7 "42"); simpl; lia]. Defined.

(** Eight genres: seven are shown, not the four the comment of
    [formatGenre] promises, and an empty array shows [undefined]. *)
Example formatGenre_eight :
  formatGenre (Some ["Action"; "Adventure"; "Comedy"; "Crime"; "Drama"; "Family"; "Fantasy"; "War"])
    = "Genres: Action, Adventure, Comedy, Crime, Drama, Family, War"%string /\
  formatGenre (Some []) = "Genre: undefined"%string.
Proof. split; reflexivity. Qed.
