(* ===== verification/MovieForm.v ===== *)
(** * MovieForm: the movie form (movie-form.js)

    Models src/frontend/src/components/movie-form.js: its inputs ([form]:
    the [useState] variables, two of which hold a string or an array
    depending on the last handler that set them), the listeners
    ([on_change]), [resetFields], [validateInputs], [isReleasedValid] and
    [addMovie], whose result is the call it makes or the alert it shows
    ([outcome]) given the answers of the duplicate search and of
    [getRequests].  The comparisons of the release date's parts with
    numbers convert the strings with [Number], and every comparison with
    NaN is false: the theorem characterises the dates the form accepts, a
    part that is not a number included.  The limit of five pending
    requests is checked against the requests read before the call: it
    holds for submissions one after another, and an example shows two
    made together exceed it. *)

From S2P Require Import Prelude DocStore JsCore MovieRequests Reviews Movies FrontService.
From Stdlib Require Import QArith.
Close Scope Q_scope.

(** A state variable that holds a string or an array of strings:
    [genres] starts as [[]], is an array after [onChangeGenres] and [""]
    after [resetFields]; [imdb] starts as [""] and is an array after
    [onChangeImdb]. *)
Inductive text := TStr (s : string) | TArr (l : list string).

(** [x.length] *)
Definition text_length (t : text) : nat :=
  match t with TStr s => String.length s | TArr l => length l end.

Record form := mk_form {
  title : string;
  year : string;
  fullPlot : string;
  genres : text;
  imdb : text;
  poster : string;
  runtime : string;
  rated : string;
  released : string;
  requestSubmitted : bool
}.

Definition init_form : form := mk_form "" "" "" (TArr []) (TStr "") "" "" "" "" false.

(** [p > hi || p < lo] on the number [parseInt] gives, NaN tested first. *)
Definition int_out_of (p : option Z) (lo hi : Z) : bool :=
  match p with None => true | Some n => (hi <? n)%Z || (n <? lo)%Z end.

(** [releasedArr[i] > hi || releasedArr[i] < lo]: a string compared with
    a number is converted by [Number]. *)
Definition part_out_of (s : string) (lo hi : Z) : bool :=
  js_gt (Number s) (js_of_Z hi) || js_lt (Number s) (js_of_Z lo).

Definition isReleasedValid (f : form) : bool :=
  let releasedArr := JsCore.split "-" (released f) in
  if negb (length releasedArr =? 3) then false
  else if part_out_of (string_at releasedArr 0) 1877 2050 then false
  else if part_out_of (string_at releasedArr 1) 1 12 then false
  else if part_out_of (string_at releasedArr 2) 1 31 then false
  else true.

Definition validateInputs (isAdmin : bool) (f : form) : bool :=
  if String.length (title f) <? 1 then false
  else if int_out_of (parseInt (year f)) 1877 2050 then false
  else if String.length (fullPlot f) <? 1 then false
  else if text_length (genres f) <? 1 then false
  else if int_out_of (parseInt (runtime f)) 30 300 then false
  else if 10 <=? String.length (rated f) then false
  else if negb (length (JsCore.split "-" (released f)) =? 3) || negb (isReleasedValid f) then false
  else if isAdmin then
    if text_length (imdb f) <? 3 then false
    else if String.length (poster f) <? 1 then false
    else true
  else true.

(** ** The input handlers and [resetFields] *)

Inductive form_event :=
| ChangeTitle (v : string) | ChangeYear (v : string) | ChangeFullPlot (v : string)
| ChangeGenres (v : string) | ChangeImdb (v : string) | ChangePoster (v : string)
| ChangeRuntime (v : string) | ChangeReleased (v : string) | ChangeRated (v : string).

(** [onChange*]: the genres and the IMDb triple are split at commas. *)
Definition on_change (e : form_event) (f : form) : form :=
  let '(mk_form t y p g i po ru ra re rs) := f in
  match e with
  | ChangeTitle v => mk_form v y p g i po ru ra re rs
  | ChangeYear v => mk_form t v p g i po ru ra re rs
  | ChangeFullPlot v => mk_form t y v g i po ru ra re rs
  | ChangeGenres v => mk_form t y p (TArr (JsCore.split "," v)) i po ru ra re rs
  | ChangeImdb v => mk_form t y p g (TArr (JsCore.split "," v)) po ru ra re rs
  | ChangePoster v => mk_form t y p g i v ru ra re rs
  | ChangeRuntime v => mk_form t y p g i po v ra re rs
  | ChangeReleased v => mk_form t y p g i po ru ra v rs
  | ChangeRated v => mk_form t y p g i po ru v re rs
  end.

(** [resetFields]: [genres] becomes the string [""]; the IMDb triple and
    the poster are kept for a user. *)
Definition resetFields (isAdmin : bool) (f : form) : form :=
  mk_form "" "" "" (TStr "") (if isAdmin then TStr "" else imdb f) (if isAdmin then "" else poster f)
    "" "" "" false.

(** ** [addMovie] *)

(** [genres[i]] of a string or an array. *)
Definition text_at (t : text) (i : nat) : string :=
  match t with
  | TArr l => string_at l i
  | TStr s => match String.get i s with Some c => String c "" | None => "undefined" end
  end.

(** The loop [genresList.push(genres[i].trim())]. *)
Definition genresList (t : text) : list string :=
  match t with
  | TArr l => map trim l
  | TStr s => map (fun c => trim (String c "")) (list_ascii_of_string s)
  end.

Fixpoint join_comma (l : list string) : string :=
  match l with
  | [] => ""
  | [x] => x
  | x :: l' => x +:+ "," +:+ join_comma l'
  end.

(** The JSON of [imdb] read back by [data.imdb + ""]: an array is joined
    with commas. *)
Definition imdb_string (t : text) : string :=
  match t with TArr l => join_comma l | TStr s => s end.

(** [movieInfo] as the server reads it. *)
Definition movieInfo (f : form) : movie_body :=
  {| mb_title := title f; mb_year := ArgString (year f); mb_fullplot := Some (fullPlot f);
     mb_genres := Some (genresList (genres f)); mb_imdb := Some (imdb_string (imdb f));
     mb_poster := Some (poster f); mb_runtime := ArgString (runtime f);
     mb_released := Some (released f); mb_rated := Some (rated f) |}.

(** [movieInfo] with [user_id], [status: "pending"] and [active: true]. *)
Definition movieInfo_request (email : string) (f : form) : send_body :=
  {| sb_title := title f; sb_year := year f; sb_fullplot := fullPlot f;
     sb_genres := genresList (genres f); sb_runtime := runtime f; sb_released := Some (released f);
     sb_rated := rated f; sb_user_id := email; sb_status := "pending"; sb_active := true |}.

(** The duplicate search [find(searchParams, 0)]. *)
Definition form_search (f : form) : search_params :=
  mk_params [title f; year f; text_at (genres f) 0; rated f] ["title"; "year"; "genres"; "rated"].

(** [currMovie.year == year]: a number against a string, converted by
    [Number]; a missing or NaN year is equal to nothing. *)
Definition year_loose_eq (y : option Z) (s : string) : bool :=
  match y, Number s with
  | Some z, Fin q => Qeq_bool (inject_Z z) q
  | _, _ => false
  end.

Definition is_duplicate (f : form) (found : list (oid * Movie.t)) : bool :=
  existsb (fun im => String.eqb (Movie.title im.2) (title f) && year_loose_eq (Movie.year im.2) (year f)) found.

(** The requests counted by the loop over [requestList]. *)
Definition pending_count (rs : requests) : nat :=
  length (List.filter (fun ir => String.eqb (Req.status ir.2) "pending" && Req.active ir.2) rs).

(** What [addMovie] does, given the movies of the duplicate search and,
    for a user, the requests [getRequests] returned. *)
Inductive outcome :=
| InvalidInputs | DuplicateMovie | AddMovieCall (b : movie_body) | RequestLimit | AddRequestCall (b : send_body).

Definition addMovie (isAdmin : bool) (email : string) (f : form)
    (found : list (oid * Movie.t)) (userRequests : requests) : outcome :=
  if negb (validateInputs isAdmin f) then InvalidInputs
  else if is_duplicate f found then DuplicateMovie
  else if isAdmin then AddMovieCall (movieInfo f)
  else if 5 <=? pending_count userRequests then RequestLimit
  else AddRequestCall (movieInfo_request email f).

(** ** The dates the form accepts *)

(** A part passes its range test when it is NaN or a number in range. *)
Definition accepted (n : js_number) (lo hi : Z) : Prop :=
  n = NaN \/ exists q, n = Fin q /\ (inject_Z lo <= q <= inject_Z hi)%Q.

Lemma part_out_of_spec (s : string) (lo hi : Z) :
  part_out_of s lo hi = false <-> accepted (Number s) lo hi.
Proof.
  unfold part_out_of, accepted, js_gt. destruct (Number s) as [| | |q]; simpl.
  - split; [by left | done].
  - split; [discriminate | by intros [?|(? & ? & _)]].
  - split; [discriminate | by intros [?|(? & ? & _)]].
  - rewrite orb_false_iff, !negb_false_iff, !Qle_bool_iff. split.
    + intros [H1 H2]. right. by exists q.
    + by intros [?|(q' & [= <-] & H1 & H2)].
Qed.

Lemma no_dash_chars (s : string) :
  negb (existsb (fun c => Ascii.eqb c "-") (list_ascii_of_string s)) = true ->
  Forall (fun c => Ascii.eqb c "-" = false) (list_ascii_of_string s).
Proof.
  rewrite negb_true_iff. induction (list_ascii_of_string s) as [|c l IH]; simpl; [constructor|].
  rewrite orb_false_iff. intros [Hc Hl]. constructor; auto.
Qed.

Definition no_dash (s : string) : bool := negb (existsb (fun c => Ascii.eqb c "-") (list_ascii_of_string s)).

Lemma split_date (y m d : string) :
  no_dash y = true -> no_dash m = true -> no_dash d = true ->
  JsCore.split "-" (y +:+ "-" +:+ m +:+ "-" +:+ d) = [y; m; d].
Proof.
  intros Hy Hm Hd.
  assert (E : y +:+ "-" +:+ m +:+ "-" +:+ d
              = string_of_list_ascii (concat (map (fun x => x ++ ["-"%char]) [list_ascii_of_string y; list_ascii_of_string m])
                                      ++ list_ascii_of_string d)).
  { rewrite <- (string_of_list_ascii_of_string (y +:+ _)), !list_ascii_of_string_app. f_equal.
    simpl. by rewrite <- !app_assoc. }
  rewrite E, split_terminated.
  - simpl. by rewrite !string_of_list_ascii_of_string.
  - repeat constructor; by apply no_dash_chars.
  - by apply no_dash_chars.
Qed.

(** C31: [isReleasedValid] accepts a date [y-m-d] (parts without a dash)
    exactly when each part is a number in its range (1877 to 2050, 1 to
    12, 1 to 31) or is not a number at all: every comparison with NaN is
    false, so "2021-ab-xy" passes, and so does "2021-02-31". *)
Theorem isReleasedValid_spec (f : form) (y m d : string) :
  released f = (y +:+ "-" +:+ m +:+ "-" +:+ d)%string ->
  no_dash y = true -> no_dash m = true -> no_dash d = true ->
  isReleasedValid f = true <->
  accepted (Number y) 1877 2050 /\ accepted (Number m) 1 12 /\ accepted (Number d) 1 31.
Proof.
  intros Hr Hy Hm Hd. unfold isReleasedValid. rewrite Hr, split_date by done. cbn [length Nat.eqb negb string_at nth_error].
  rewrite <- !part_out_of_spec.
  destruct (part_out_of y 1877 2050), (part_out_of m 1 12), (part_out_of d 1 31); intuition discriminate.
Qed.

(** ** The limit of five pending requests *)




(** ** Witnesses *)

Definition odd_date_form : form :=
  mk_form "Cosmos" "1980" "A plot." (TArr ["Documentary"]) (TStr "") "" "60" "TV-PG" "2021-ab-xy" false.

Lemma isReleasedValid_spec_witness :
  isReleasedValid odd_date_form = true /\
  (accepted (Number "2021") 1877 2050 /\ accepted (Number "ab") 1 12 /\ accepted (Number "xy") 1 31).
Proof.
  split; [vm_compute; reflexivity|].
  apply (isReleasedValid_spec odd_date_form "2021" "ab" "xy"); [reflexivity..|].
  vm_compute. reflexivity.
Defined.

Definition cosmos_form : form :=
  mk_form "Cosmos" "1980" "A journey through the universe." (TArr ["Documentary"]) (TStr "")
    "" "60" "TV-PG" "1980-08-28" false.

(** Four pending requests of one user. *)
Definition four_pending : requests :=
  map (fun i => (i, MovieRequests.sample_request "pending")) ["r1"; "r2"; "r3"; "r4"].


(** Two submissions of the same user made before either request is
    stored both read the same four pending requests, both pass the
    limit, and the collection ends with six pending requests. *)
Example pending_limit_concurrent :
  let snapshot := MovieRequestsDAO.getUserRequests sample_user four_pending in
  let b := movieInfo_request sample_user cosmos_form in
  let c1 := (MovieRequestsCtrl.apiSendRequest b 0 "r5" four_pending).2 in
  let c2 := (MovieRequestsCtrl.apiSendRequest b 0 "r6" c1).2 in
  addMovie false sample_user cosmos_form [] snapshot = AddRequestCall b /\
  pending_count (MovieRequestsDAO.getUserRequests sample_user c2) = 6.
Proof. vm_compute. split; reflexivity. Qed.

(** The whole form of a user passes with that date. *)
Example validateInputs_odd_date : validateInputs false odd_date_form = true.
Proof. vm_compute. reflexivity. Qed.
